(** * MLX Vision OCR sidecar: cache, fast path, parser and pipeline

    A shallow embedding of [server/scripts/mlx_vision_server.py] and of the
    run-time patches of [server/scripts/patch_transformers.py] it imports.

    Python [str] values are modelled as [string]; characters outside ASCII
    travel as their UTF-8 bytes.  The methods [str.lower] and [str.strip],
    which go by the Unicode character database, are collaborators; slicing,
    [in], [split], [replace] and [join] on ASCII markers are computed.
    Python [int] is [Z], Python [float] is the binary64 carrier [float],
    Python [dict] is an association list in insertion order with unique
    keys.  The module globals ([_model], [_content_cache], the three
    counters) are the fields of [state], threaded explicitly; an exception
    is the [Raised] outcome.  The file system, the decoders and the model
    are collaborators as well: what they return or raise is a parameter of
    the handlers. *)

From Stdlib Require Import ZArith List String Ascii Bool Lia Arith.
From Stdlib Require Import Floats.
Import ListNotations.
Local Open Scope string_scope.
Local Open Scope list_scope.

Set Implicit Arguments.
Set Warnings "-register-all".

(** ** Python string primitives *)

Module PyStr.

(** The double quote character, as a one-character string. *)
Definition dq : string := String (ascii_of_nat 34) EmptyString.

(** [s[n:]] *)
Fixpoint drop (n : nat) (s : string) : string :=
  match n, s with
  | O, _ => s
  | S _, EmptyString => EmptyString
  | S k, String _ s' => drop k s'
  end.

(** [s[:n]] *)
Fixpoint take (n : nat) (s : string) : string :=
  match n, s with
  | O, _ => EmptyString
  | S _, EmptyString => EmptyString
  | S k, String c s' => String c (take k s')
  end.

(** [s.startswith(p)] *)
Fixpoint startswith (p s : string) : bool :=
  match p, s with
  | EmptyString, _ => true
  | String _ _, EmptyString => false
  | String a p', String b s' => Ascii.eqb a b && startswith p' s'
  end.

(** [sub in s] *)
Fixpoint str_in (sub s : string) : bool :=
  startswith sub s ||
  match s with
  | EmptyString => false
  | String _ s' => str_in sub s'
  end.

(** Leftmost occurrence of [sep]: the text before it and the text after. *)
Fixpoint cut (sep s : string) : option (string * string) :=
  if startswith sep s then Some (EmptyString, drop (String.length sep) s)
  else match s with
       | EmptyString => None
       | String c s' =>
           match cut sep s' with
           | Some (a, b) => Some (String c a, b)
           | None => None
           end
       end.

(** [s.split(sep)] for a non-empty [sep]: occurrences are taken leftmost
    first and do not overlap.  The text after an occurrence is strictly
    shorter than the text, so [String.length s] rounds are enough. *)
Fixpoint split_fuel (fuel : nat) (sep s : string) : list string :=
  match cut sep s with
  | None => [s]
  | Some (a, b) =>
      match fuel with
      | O => [a; b]
      | S k => a :: split_fuel k sep b
      end
  end.

Definition split (sep s : string) : list string :=
  split_fuel (String.length s) sep s.

(** [sep.join(parts)] *)
Fixpoint join (sep : string) (parts : list string) : string :=
  match parts with
  | [] => EmptyString
  | [p] => p
  | p :: rest => p ++ sep ++ join sep rest
  end.

(** [s.replace(old, new)] for a non-empty [old]. *)
Definition replace (old new s : string) : string := join new (split old s).

(** [parts[-1]] and [parts[i]]; both raise [IndexError] out of range. *)
Definition last_item (parts : list string) : option string :=
  match rev parts with
  | [] => None
  | p :: _ => Some p
  end.

Definition item (i : nat) (parts : list string) : option string :=
  nth_error parts i.

(** *** The ASCII part of [str.lower] and [str.strip]

    What the two methods do on a string of ASCII characters only.  They are
    not the methods themselves, which also fold the case of letters outside
    ASCII and also strip the white space outside ASCII; the program is
    modelled over the methods as collaborators, and these functions say
    what the collaborators do on ASCII text. *)

(** A string of ASCII characters only. *)
Fixpoint is_ascii (s : string) : bool :=
  match s with
  | EmptyString => true
  | String c s' => (nat_of_ascii c <? 128)%nat && is_ascii s'
  end.

(** ASCII upper-case letters map to lower case; everything else is kept. *)
Definition lower_ascii (c : ascii) : ascii :=
  let n := nat_of_ascii c in
  if (65 <=? n)%nat && (n <=? 90)%nat then ascii_of_nat (n + 32) else c.

Fixpoint ascii_lower (s : string) : string :=
  match s with
  | EmptyString => EmptyString
  | String c s' => String (lower_ascii c) (ascii_lower s')
  end.

(** The ASCII characters for which [str.isspace] holds: tab, line feed,
    vertical tab, form feed, carriage return, the four separators
    0x1c..0x1f and the space. *)
Definition ascii_isspace (c : ascii) : bool :=
  let n := nat_of_ascii c in
  ((9 <=? n)%nat && (n <=? 13)%nat) || ((28 <=? n)%nat && (n <=? 32)%nat).

Fixpoint ascii_lstrip (s : string) : string :=
  match s with
  | EmptyString => EmptyString
  | String c s' => if ascii_isspace c then ascii_lstrip s' else s
  end.

Fixpoint ascii_rstrip (s : string) : string :=
  match s with
  | EmptyString => EmptyString
  | String c s' =>
      match ascii_rstrip s' with
      | EmptyString =>
          if ascii_isspace c then EmptyString else String c EmptyString
      | r => String c r
      end
  end.

Definition ascii_strip (s : string) : string := ascii_rstrip (ascii_lstrip s).

End PyStr.

(** ** Python dictionaries in insertion order *)

Module PyDict.
Section Dict.
Variable V : Type.

Definition dict := list (string * V).

(** [key in d] *)
Fixpoint contains (key : string) (d : dict) : bool :=
  match d with
  | [] => false
  | (k, _) :: d' => String.eqb key k || contains key d'
  end.

(** [d.get(key)]; [None] stands for Python's [None] default. *)
Fixpoint get (key : string) (d : dict) : option V :=
  match d with
  | [] => None
  | (k, v) :: d' => if String.eqb key k then Some v else get key d'
  end.

(** [d[key] = value]: an existing key keeps its position, a new key goes
    to the end. *)
Fixpoint set (key : string) (value : V) (d : dict) : dict :=
  match d with
  | [] => [(key, value)]
  | (k, v) :: d' =>
      if String.eqb key k then (k, value) :: d' else (k, v) :: set key value d'
  end.

(** [del d[key]] on a present key. *)
Fixpoint remove (key : string) (d : dict) : dict :=
  match d with
  | [] => []
  | (k, v) :: d' => if String.eqb key k then d' else (k, v) :: remove key d'
  end.

(** [d.move_to_end(key)]; raises [KeyError] ([None]) on an absent key. *)
Definition move_to_end (key : string) (d : dict) : option dict :=
  match get key d with
  | Some v => Some (remove key d ++ [(key, v)])
  | None => None
  end.

(** [d.popitem(last=False)]; raises [KeyError] ([None]) on an empty dict. *)
Definition popitem_first (d : dict) : option ((string * V) * dict) :=
  match d with
  | [] => None
  | kv :: d' => Some (kv, d')
  end.

Definition keys (d : dict) : list string := map fst d.

End Dict.
End PyDict.

(** ** JSON values, as [json.loads] returns them *)

Inductive json : Type :=
| JNull
| JBool (b : bool)
| JInt (n : Z)
| JFloat (f : float)
| JStr (s : string)
| JArr (items : list json)
| JObj (fields : list (string * json)).

(** Python truth value of a decoded JSON value. *)
Definition truthy (v : json) : bool :=
  match v with
  | JNull => false
  | JBool b => b
  | JInt n => negb (n =? 0)%Z
  | JFloat f => negb (PrimFloat.eqb f PrimFloat.zero)
  | JStr s => negb (String.eqb s "")
  | JArr items => match items with [] => false | _ => true end
  | JObj fields => match fields with [] => false | _ => true end
  end.

(** [v is not None] *)
Definition is_not_none (v : json) : bool :=
  match v with JNull => false | _ => true end.

(** [a or b] *)
Definition py_or (a b : json) : json := if truthy a then a else b.

(** ** Exceptions and the state of the process *)

Inductive exn : Type :=
| HTTPException (status_code : Z) (detail : string)
| KeyError
| IndexError
| AttributeError
| ZeroDivisionError
| ValueError
| OSError
| RecursionError
| GenerationError.

Inductive outcome (A : Type) : Type :=
| Returned (a : A)
| Raised (e : exn).
Arguments Returned {A} a.
Arguments Raised {A} e.

(** What [_generate_from_image] hands back. *)
Record raw_output : Type := mkRaw {
  text : string;
  generation_time_s : float;
  tokens_per_second : option float;
  peak_memory_gb : option float
}.

Record gen_stats : Type := mkStats {
  st_generation_time_s : float;
  st_tokens_per_second : option float;
  st_peak_memory_gb : option float
}.

(** The dictionary [result] of [extract], which is also the cached value. *)
Record result : Type := mkResult {
  status : string;
  extraction : json;
  raw_text : string;
  stats : gen_stats
}.

Inductive cache_tag : Type := hit | miss.

(** The response of [extract]: the result's fields, then ["cache"] and
    ["content_hash"]. *)
Record response : Type := mkResponse {
  body : result;
  cache : cache_tag;
  content_hash : string
}.

(** The module globals.  [model_calls] is a ghost counter of the calls to
    the model collaborator. *)
Record state : Type := mkState {
  _model : bool;
  _load_time : float;
  _content_cache : PyDict.dict result;
  _cache_hits : Z;
  _cache_misses : Z;
  _fast_path_hits : Z;
  model_calls : nat
}.

(** The globals as the module leaves them at import time. *)
Definition initial_state : state :=
  mkState false PrimFloat.zero [] 0 0 0 0.

(** State and exception monad of the request handlers. *)
Definition M (A : Type) : Type := state -> outcome A * state.

Definition ret {A} (a : A) : M A := fun s => (Returned a, s).
Definition raise {A} (e : exn) : M A := fun s => (Raised e, s).
Definition bind {A B} (m : M A) (k : A -> M B) : M B :=
  fun s => match m s with
           | (Returned a, s') => k a s'
           | (Raised e, s') => (Raised e, s')
           end.
Definition gets {A} (f : state -> A) : M A := fun s => (Returned (f s), s).
Definition modify (f : state -> state) : M unit := fun s => (Returned tt, f s).

Declare Scope py_scope.
Delimit Scope py_scope with py.
Notation "x <- m ;; k" := (bind m (fun x => k))
  (at level 61, m at next level, right associativity) : py_scope.
Notation "m ;;; k" := (bind m (fun _ => k))
  (at level 61, right associativity) : py_scope.
Local Open Scope py_scope.

Definition set_cache (c : PyDict.dict result) (s : state) : state :=
  mkState (_model s) (_load_time s) c (_cache_hits s) (_cache_misses s)
          (_fast_path_hits s) (model_calls s).
Definition incr_hits (s : state) : state :=
  mkState (_model s) (_load_time s) (_content_cache s) (_cache_hits s + 1)
          (_cache_misses s) (_fast_path_hits s) (model_calls s).
Definition incr_misses (s : state) : state :=
  mkState (_model s) (_load_time s) (_content_cache s) (_cache_hits s)
          (_cache_misses s + 1) (_fast_path_hits s) (model_calls s).
Definition incr_fast_path (s : state) : state :=
  mkState (_model s) (_load_time s) (_content_cache s) (_cache_hits s)
          (_cache_misses s) (_fast_path_hits s + 1) (model_calls s).
Definition incr_model_calls (s : state) : state :=
  mkState (_model s) (_load_time s) (_content_cache s) (_cache_hits s)
          (_cache_misses s) (_fast_path_hits s) (S (model_calls s)).

(** ** The content cache *)

(** [_cache_get] *)
Definition _cache_get (key : string) : M (option result) :=
  c <- gets _content_cache ;;
  if PyDict.contains key c then
    match PyDict.move_to_end key c with
    | None => raise KeyError
    | Some c' =>
        modify (set_cache c') ;;;
        modify incr_hits ;;;
        c'' <- gets _content_cache ;;
        match PyDict.get key c'' with
        | Some v => ret (Some v)
        | None => raise KeyError
        end
    end
  else ret None.

(** The loop [while len(_content_cache) > MAX_CACHE_SIZE: popitem(last=False)].
    Each round drops the oldest entry; on an empty dictionary [popitem]
    raises [KeyError], which a negative capacity reaches. *)
Fixpoint evict (max_size : Z) (c : PyDict.dict result)
  : outcome unit * PyDict.dict result :=
  if (Z.of_nat (List.length c) >? max_size)%Z then
    match c with
    | [] => (Raised KeyError, [])
    | _ :: c' => evict max_size c'
    end
  else (Returned tt, c).

(** [_cache_put] *)
Definition _cache_put (MAX_CACHE_SIZE : Z) (key : string) (value : result)
  : M unit :=
  modify incr_misses ;;;
  c <- gets _content_cache ;;
  modify (set_cache (PyDict.set key value c)) ;;;
  c1 <- gets _content_cache ;;
  match PyDict.move_to_end key c1 with
  | None => raise KeyError
  | Some c2 =>
      modify (set_cache c2) ;;;
      c3 <- gets _content_cache ;;
      fun s => let (o, c4) := evict MAX_CACHE_SIZE c3 in (o, set_cache c4 s)
  end.

(** ** Fast-path merchant recognition *)

Section StrMethods.

(** The methods [str.lower] and [str.strip] of the interpreter. *)
Variable str_lower : string -> string.
Variable str_strip : string -> string.

Record FastPathRule : Type := mkRule {
  merchant : string;
  category : string;
  currency : string
}.

(** [FAST_PATH_MERCHANTS], in the order the dictionary literal lists it. *)
Definition FAST_PATH_MERCHANTS : list (string * FastPathRule) :=
  [ ("pingo doce", mkRule "Pingo Doce" "Supermercado" "EUR");
    ("continente", mkRule "Continente" "Supermercado" "EUR");
    ("lidl", mkRule "Lidl" "Supermercado" "EUR");
    ("aldi", mkRule "Aldi" "Supermercado" "EUR");
    ("mercadona", mkRule "Mercadona" "Supermercado" "EUR");
    ("edp", mkRule "EDP" "Serviços" "EUR");
    ("galp", mkRule "Galp" "Transportes" "EUR");
    ("meo", mkRule "MEO" "Serviços" "EUR");
    ("vodafone", mkRule "Vodafone" "Serviços" "EUR");
    ("nos", mkRule "NOS" "Serviços" "EUR");
    ("uber", mkRule "Uber" "Transportes" "EUR");
    ("bolt", mkRule "Bolt" "Transportes" "EUR");
    ("worten", mkRule "Worten" "Tecnologia" "EUR");
    ("fnac", mkRule "FNAC" "Tecnologia" "EUR");
    ("zara", mkRule "Zara" "Vestuário" "EUR");
    ("primark", mkRule "Primark" "Vestuário" "EUR");
    ("mcdonald", mkRule "McDonald's" "Restaurante" "EUR");
    ("burger king", mkRule "Burger King" "Restaurante" "EUR");
    ("ikea", mkRule "IKEA" "Outros" "EUR") ].

(** The loop [for key, meta in FAST_PATH_MERCHANTS.items()] of
    [_try_fast_path], over the lower-cased text. *)
Fixpoint scan_rules (rules : list (string * FastPathRule)) (text_lower : string)
  : option FastPathRule :=
  match rules with
  | [] => None
  | (key, meta) :: rest =>
      if PyStr.str_in key text_lower then Some meta
      else scan_rules rest text_lower
  end.

(** [_try_fast_path].  The argument is whatever [extract] passes; a value
    that is not a [str] has no [lower] method. *)
Definition _try_fast_path (raw_text : json) : M (option FastPathRule) :=
  match raw_text with
  | JStr s =>
      match scan_rules FAST_PATH_MERCHANTS (str_lower s) with
      | Some meta => modify incr_fast_path ;;; ret (Some meta)
      | None => ret None
      end
  | _ => raise AttributeError
  end.

(** ** Response parsing *)

Definition fence : string := "```".
Definition json_fence : string := "```json".

Definition lift_index {A} (o : option A) : outcome A :=
  match o with
  | Some a => Returned a
  | None => Raised IndexError
  end.

(** The fence stripping of [extract]: the string handed to [json.loads]. *)
Definition candidate (text : string) : outcome string :=
  if PyStr.str_in json_fence text then
    match lift_index (PyStr.last_item (PyStr.split json_fence text)) with
    | Returned t =>
        match lift_index (PyStr.item 0 (PyStr.split fence t)) with
        | Returned u => Returned (str_strip u)
        | Raised e => Raised e
        end
    | Raised e => Raised e
    end
  else if PyStr.str_in fence text then
    match lift_index (PyStr.item 1 (PyStr.split fence text)) with
    | Returned t =>
        match lift_index (PyStr.item 0 (PyStr.split fence t)) with
        | Returned u => Returned (str_strip u)
        | Raised e => Raised e
        end
    | Raised e => Raised e
    end
  else Returned text.

(** [extracted.get("merchant", "")] *)
Definition get_default (key : string) (default : json)
  (d : PyDict.dict json) : json :=
  match PyDict.get key d with
  | Some v => v
  | None => default
  end.

(** [extracted.get(key)] *)
Definition get_or_none (key : string) (d : PyDict.dict json) : json :=
  get_default key JNull d.

(** The three assignments made when a rule matched. *)
Definition apply_rule (meta : FastPathRule) (d : PyDict.dict json)
  : PyDict.dict json :=
  let d1 := PyDict.set "merchant" (JStr (merchant meta)) d in
  let d2 := if negb (truthy (get_or_none "category" d1))
            then PyDict.set "category" (JStr (category meta)) d1 else d1 in
  if negb (truthy (get_or_none "currency" d2))
  then PyDict.set "currency" (JStr (currency meta)) d2 else d2.

(** The block [if extracted and isinstance(extracted, dict): ...]. *)
Definition enrich (extracted : json) : M json :=
  match extracted with
  | JObj d =>
      if truthy extracted then
        let merchant_str := py_or (get_default "merchant" (JStr "") d) (JStr "") in
        fast_meta <- _try_fast_path merchant_str ;;
        match fast_meta with
        | Some meta => ret (JObj (apply_rule meta d))
        | None => ret extracted
        end
      else ret extracted
  | _ => ret extracted
  end.

End StrMethods.

(** ** Requests, the prompt and the endpoints *)

Record ExtractRequest : Type := mkRequest {
  image : string;
  mime_type : string;
  prompt : option string;
  max_tokens : Z
}.

Definition quoted (s : string) : string := PyStr.dq ++ s ++ PyStr.dq.

Definition EXTRACT_SYSTEM_PROMPT : string :=
  "You are a receipt and invoice data extractor for a personal finance system.
Analyze the image and return ONLY valid JSON with this exact structure:
{
  " ++ quoted "merchant" ++ ": " ++ quoted "store or company name" ++ ",
  " ++ quoted "total" ++ ": 0.00,
  " ++ quoted "currency" ++ ": " ++ quoted "EUR" ++ ",
  " ++ quoted "date" ++ ": " ++ quoted "YYYY-MM-DD or null" ++ ",
  " ++ quoted "category" ++ ": " ++ quoted "best-fit category" ++ ",
  " ++ quoted "items" ++ ": [
    {" ++ quoted "name" ++ ": " ++ quoted "item description" ++ ", "
      ++ quoted "quantity" ++ ": 1, " ++ quoted "price" ++ ": 0.00}
  ]
}
Rules:
- Extract ALL visible items with their prices.
- Use the exact merchant name as printed.
- Infer currency from symbols (€=EUR, $=USD, £=GBP) or context.
- Date format: YYYY-MM-DD. Use null if not visible.
- Category: one of Supermercado, Restaurante, Transportes, Saúde, Tecnologia, Serviços, Vestuário, Entretenimento, Educação, Outros.
- Never invent data not visible in the image.".

(** [req.prompt or EXTRACT_SYSTEM_PROMPT] *)
Definition prompt_or_default (p : option string) : string :=
  match p with
  | Some s => if String.eqb s "" then EXTRACT_SYSTEM_PROMPT else s
  | None => EXTRACT_SYSTEM_PROMPT
  end.

(** [req.mime_type.split("/")[-1].replace("jpeg", "jpg")] *)
Definition file_extension (mime : string) : outcome string :=
  match lift_index (PyStr.last_item (PyStr.split "/" mime)) with
  | Returned t => Returned (PyStr.replace "jpeg" "jpg" t)
  | Raised e => Raised e
  end.

Record cache_report : Type := mkCacheReport {
  size : Z;
  max_size : Z;
  hits : Z;
  misses : Z;
  fast_path_hits : Z;
  hit_rate : float
}.

Record health_report : Type := mkHealth {
  h_status : string;
  role : string;
  model : string;
  load_time_s : float;
  ready : bool;
  h_cache : cache_report
}.

(** The dictionary literal [result = {...}] of [extract]. *)
Definition make_result (raw : raw_output) (extracted : json) : result :=
  mkResult "ok" extracted (text raw)
    (mkStats (generation_time_s raw) (tokens_per_second raw)
       (peak_memory_gb raw)).

(** The ways [json.loads] ends on a text: it returns the decoded value, or
    raises [json.JSONDecodeError] on a text that is not a JSON document, or
    raises something else on a document it cannot build: [RecursionError]
    on nesting deeper than the interpreter's stack, [ValueError] on an
    integer literal longer than the conversion limit. *)
Inductive loads_result : Type :=
| Decoded (v : json)
| JSONDecodeError
| LoadsRecursionError
| LoadsValueError.

(** What becomes of the temporary file of a request.  [Written]: the file
    is created with the bytes written, and removed again when the request
    ends.  [NotRemoved]: the file is created and written, but [os.unlink]
    raises [OSError] when the request ends.  Otherwise the file system
    refuses to create it: [ValueError] on a suffix with a null character,
    [OSError] on a name it cannot create or on a failed write. *)
Inductive temp_file_result : Type :=
| Written
| NotRemoved
| TempValueError
| TempOSError.

(** The file exists while the model runs. *)
Definition created (r : temp_file_result) : bool :=
  match r with
  | Written | NotRemoved => true
  | TempValueError | TempOSError => false
  end.

Section Sidecar.

(** Configuration read from the environment. *)
Variable MODEL_ID : string.
Variable MAX_CACHE_SIZE : Z.

(** Library functions the handlers call.  [str_lower] and [str_strip] are
    the two string methods; [b64decode] is [None] where [base64.b64decode]
    raises; [json_loads] tells how [json.loads] ends; [truediv a b] is the
    float [a / b] of two integers for [b <> 0]; [round_ndigits] is the
    two-argument [round]. *)
Variable str_lower : string -> string.
Variable str_strip : string -> string.
Variable b64decode : string -> option (list Byte.byte).
Variable _sha256 : list Byte.byte -> string.
Variable json_loads : string -> loads_result.
Variable truediv : Z -> Z -> float.
Variable round_ndigits : float -> Z -> float.

(** The file system behind [tempfile.NamedTemporaryFile(suffix=...,
    delete=False)], [f.write(image_bytes)] and [os.unlink(tmp_path)].  It
    is handed the suffix and the bytes; the leading number is the count of
    earlier model calls, so that it may answer differently from one request
    to the next. *)
Variable temp_file : nat -> string -> list Byte.byte -> temp_file_result.

(** The model collaborator behind [_generate_from_image].  It is handed the
    contents and the suffix of the temporary file, the prompt and the token
    budget; the leading number is the count of earlier calls, so that two
    calls on the same image may answer differently.  [None] stands for an
    exception raised by the collaborator. *)
Variable _generate_from_image :
  nat -> list Byte.byte -> string -> string -> Z -> option raw_output.

Definition call_model (image_bytes : list Byte.byte) (ext prompt : string)
  (max_tokens : Z) : M raw_output :=
  n <- gets model_calls ;;
  modify incr_model_calls ;;;
  match _generate_from_image n image_bytes ext prompt max_tokens with
  | Some raw => ret raw
  | None => raise GenerationError
  end.

Definition lift {A} (o : outcome A) : M A :=
  match o with
  | Returned a => ret a
  | Raised e => raise e
  end.

(** [a / b] on integers. *)
Definition int_truediv (a b : Z) : outcome float :=
  if (b =? 0)%Z then Raised ZeroDivisionError else Returned (truediv a b).

(** The two statements [try: extracted = json.loads(text) / except
    json.JSONDecodeError: extracted = None].  The handler names one
    exception class; the other two pass through it. *)
Definition loads_or_none (text : string) : outcome json :=
  match json_loads text with
  | Decoded v => Returned v
  | JSONDecodeError => Returned JNull
  | LoadsRecursionError => Raised RecursionError
  | LoadsValueError => Raised ValueError
  end.

(** The statements of [extract] from [extracted = None] to the end of the
    [try]/[except]: fence stripping, then decoding. *)
Definition parse_output (raw_text : string) : outcome json :=
  match candidate str_strip raw_text with
  | Returned t => loads_or_none t
  | Raised e => Raised e
  end.

(** [GET /health] *)
Definition health : M health_report :=
  s <- gets (fun s => s) ;;
  rate <- lift (int_truediv (_cache_hits s)
                  (Z.max 1 (_cache_hits s + _cache_misses s))) ;;
  ret (mkHealth "ok" "ocr-only" MODEL_ID
         (round_ndigits (_load_time s) 2)
         (_model s)
         (mkCacheReport (Z.of_nat (List.length (_content_cache s)))
            MAX_CACHE_SIZE (_cache_hits s) (_cache_misses s)
            (_fast_path_hits s) (round_ndigits rate 3))).

(** The [try] block of [extract]: from the model call to the response
    tagged ["miss"]. *)
Definition extract_try (req : ExtractRequest) (image_bytes : list Byte.byte)
  (ext content_hash : string) : M response :=
  raw <- call_model image_bytes ext (prompt_or_default (prompt req))
           (max_tokens req) ;;
  parsed <- lift (parse_output (text raw)) ;;
  extracted <- enrich str_lower parsed ;;
  let result := make_result raw extracted in
  (if is_not_none extracted
   then _cache_put MAX_CACHE_SIZE content_hash result
   else ret tt) ;;;
  ret (mkResponse result miss (PyStr.take 16 content_hash)).

(** [try: ... finally: os.unlink(tmp_path)] when [os.unlink] raises: the
    block has run, and the [OSError] of the clause replaces what the block
    returned or raised. *)
Definition unlink_raises {A} (m : M A) : M A :=
  fun s => (Raised OSError, snd (m s)).

(** The part of [extract] after a cache miss.  The statements [with
    tempfile.NamedTemporaryFile(suffix=f".{ext}", delete=False) as f:
    f.write(image_bytes); tmp_path = f.name] stand before the [try], so
    what they raise leaves [extract] as it is; the [finally] clause runs
    however the [try] block ends. *)
Definition extract_miss (req : ExtractRequest) (image_bytes : list Byte.byte)
  (content_hash : string) : M response :=
  ext <- lift (file_extension (mime_type req)) ;;
  n <- gets model_calls ;;
  match temp_file n ("." ++ ext) image_bytes with
  | Written => extract_try req image_bytes ext content_hash
  | NotRemoved => unlink_raises (extract_try req image_bytes ext content_hash)
  | TempValueError => raise ValueError
  | TempOSError => raise OSError
  end.

(** [POST /extract] *)
Definition extract (req : ExtractRequest) : M response :=
  loaded <- gets _model ;;
  if negb loaded then raise (HTTPException 503 "Model not loaded")
  else
    match b64decode (image req) with
    | None => raise (HTTPException 400 "Invalid base64 image data")
    | Some image_bytes =>
        let content_hash := _sha256 image_bytes in
        cached <- _cache_get content_hash ;;
        match cached with
        | Some c => ret (mkResponse c hit (PyStr.take 16 content_hash))
        | None => extract_miss req image_bytes content_hash
        end
    end.

(** The states the process can be in: the module globals after start-up
    (model loaded or not, nothing cached, counters at zero), and whatever a
    request leaves behind. *)
Inductive reachable : state -> Prop :=
| reach_start (loaded : bool) (t : float) :
    reachable (mkState loaded t [] 0 0 0 0)
| reach_extract (s : state) (req : ExtractRequest) :
    reachable s -> reachable (snd (extract req s))
| reach_health (s : state) :
    reachable s -> reachable (snd (health s)).

End Sidecar.

(** ** Test doubles for the collaborators

    Executable stand-ins for the library functions and the model, used to
    run the handlers on concrete requests. *)

Module Demo.

Definition is_json_ws (c : ascii) : bool :=
  let n := nat_of_ascii c in
  (n =? 32)%nat || (n =? 9)%nat || (n =? 10)%nat || (n =? 13)%nat.

Fixpoint skip_ws (s : string) : string :=
  match s with
  | String c s' => if is_json_ws c then skip_ws s' else s
  | EmptyString => EmptyString
  end.

(** The characters of a string literal up to its closing quote; escapes
    and control characters are not handled and make the decoder give up. *)
Fixpoint string_body (s : string) : option (string * string) :=
  match s with
  | EmptyString => None
  | String c s' =>
      let n := nat_of_ascii c in
      if (n =? 34)%nat then Some (EmptyString, s')
      else if (n =? 92)%nat || (n <? 32)%nat then None
      else match string_body s' with
           | Some (a, b) => Some (String c a, b)
           | None => None
           end
  end.

Definition digit_of (c : ascii) : option Z :=
  let n := nat_of_ascii c in
  if (48 <=? n)%nat && (n <=? 57)%nat then Some (Z.of_nat (n - 48)) else None.

Fixpoint digits (acc : Z) (s : string) : Z * string :=
  match s with
  | String c s' =>
      match digit_of c with
      | Some d => digits (10 * acc + d) s'
      | None => (acc, s)
      end
  | EmptyString => (acc, s)
  end.

(** An integer literal without fraction or exponent. *)
Definition natural (s : string) : option (Z * string) :=
  match s with
  | String c s' =>
      match digit_of c with
      | Some 0%Z =>
          match s' with
          | String c' _ =>
              match digit_of c' with
              | Some _ => None
              | None => Some (0%Z, s')
              end
          | EmptyString => Some (0%Z, s')
          end
      | Some d => Some (digits d s')
      | None => None
      end
  | EmptyString => None
  end.

Definition after_number (s : string) : bool :=
  match s with
  | String c _ =>
      negb (Ascii.eqb c "." || Ascii.eqb c "e" || Ascii.eqb c "E")%char
  | EmptyString => true
  end.

Definition expect (p s : string) : option string :=
  if PyStr.startswith p s then Some (PyStr.drop (String.length p) s) else None.

Fixpoint value (fuel : nat) (s : string) : option (json * string) :=
  match fuel with
  | O => None
  | S f =>
      match skip_ws s with
      | EmptyString => None
      | String c r as s0 =>
          let n := nat_of_ascii c in
          if (n =? 123)%nat then
            match skip_ws r with
            | String c' r' as r0 =>
                if (nat_of_ascii c' =? 125)%nat then Some (JObj [], r')
                else match members f r0 with
                     | Some (m, rest) => Some (JObj m, rest)
                     | None => None
                     end
            | EmptyString => None
            end
          else if (n =? 91)%nat then
            match skip_ws r with
            | String c' r' as r0 =>
                if (nat_of_ascii c' =? 93)%nat then Some (JArr [], r')
                else match elements f r0 with
                     | Some (l, rest) => Some (JArr l, rest)
                     | None => None
                     end
            | EmptyString => None
            end
          else if (n =? 34)%nat then
            match string_body r with
            | Some (str, rest) => Some (JStr str, rest)
            | None => None
            end
          else if (n =? 45)%nat then
            match natural r with
            | Some (z, rest) =>
                if after_number rest then Some (JInt (- z), rest) else None
            | None => None
            end
          else if PyStr.startswith "true" s0 then Some (JBool true, PyStr.drop 4 s0)
          else if PyStr.startswith "false" s0 then Some (JBool false, PyStr.drop 5 s0)
          else if PyStr.startswith "null" s0 then Some (JNull, PyStr.drop 4 s0)
          else match natural s0 with
               | Some (z, rest) =>
                   if after_number rest then Some (JInt z, rest) else None
               | None => None
               end
      end
  end
with elements (fuel : nat) (s : string) : option (list json * string) :=
  match fuel with
  | O => None
  | S f =>
      match value f s with
      | Some (v, rest) =>
          match skip_ws rest with
          | String c r =>
              if (nat_of_ascii c =? 93)%nat then Some ([v], r)
              else if (nat_of_ascii c =? 44)%nat then
                match elements f r with
                | Some (l, rest') => Some (v :: l, rest')
                | None => None
                end
              else None
          | EmptyString => None
          end
      | None => None
      end
  end
with members (fuel : nat) (s : string)
  : option (PyDict.dict json * string) :=
  match fuel with
  | O => None
  | S f =>
      match expect PyStr.dq (skip_ws s) with
      | Some r =>
          match string_body r with
          | Some (key, r1) =>
              match expect ":" (skip_ws r1) with
              | Some r2 =>
                  match value f r2 with
                  | Some (v, rest) =>
                      match skip_ws rest with
                      | String c r3 =>
                          if (nat_of_ascii c =? 125)%nat then Some ([(key, v)], r3)
                          else if (nat_of_ascii c =? 44)%nat then
                            match members f r3 with
                            | Some (m, rest') =>
                                let v' := match PyDict.get key m with
                                          | Some w => w
                                          | None => v
                                          end in
                                Some ((key, v') :: PyDict.remove key m, rest')
                            | None => None
                            end
                          else None
                      | EmptyString => None
                      end
                  | None => None
                  end
              | None => None
              end
          | None => None
          end
      | None => None
      end
  end.

(** A decoder for the JSON documents made of objects, arrays, strings
    without escapes, integers, [true], [false] and [null]. *)
Definition decode (s : string) : option json :=
  match value (2 * String.length s + 2) s with
  | Some (v, rest) =>
      match skip_ws rest with
      | EmptyString => Some v
      | _ => None
      end
  | None => None
  end.

(** The longest run of decimal digits in a text. *)
Fixpoint longest_digit_run (run best : nat) (s : string) : nat :=
  match s with
  | EmptyString => Nat.max run best
  | String c s' =>
      match digit_of c with
      | Some _ => longest_digit_run (S run) best s'
      | None => longest_digit_run 0 (Nat.max run best) s'
      end
  end.

(** [json.loads] over the decoder: an integer literal of more than 4300
    digits is refused with [ValueError], anything else the decoder gives up
    on with [JSONDecodeError]. *)
Definition json_loads (s : string) : loads_result :=
  match decode s with
  | Some v =>
      if (4300 <? longest_digit_run 0 0 s)%nat then LoadsValueError
      else Decoded v
  | None => JSONDecodeError
  end.

(** A file system that creates every temporary file but those whose suffix
    holds a null character. *)
Fixpoint has_null (s : string) : bool :=
  match s with
  | EmptyString => false
  | String c s' => (nat_of_ascii c =? 0)%nat || has_null s'
  end.

Definition temp_file (_ : nat) (suffix : string) (_ : list Byte.byte)
  : temp_file_result :=
  if has_null suffix then TempValueError else Written.

(** Base64 in the lenient manner of [base64.b64decode]: characters outside
    the alphabet are skipped, decoding stops at sufficient padding, and a
    dangling group is an error. *)
Definition sextet (c : ascii) : option N :=
  let n := N_of_ascii c in
  if (65 <=? n)%N && (n <=? 90)%N then Some (n - 65)%N
  else if (97 <=? n)%N && (n <=? 122)%N then Some (n - 71)%N
  else if (48 <=? n)%N && (n <=? 57)%N then Some (n + 4)%N
  else if (n =? 43)%N then Some 62%N
  else if (n =? 47)%N then Some 63%N
  else None.

Fixpoint sextets (quad_pos pads : nat) (s : string) : list N * bool :=
  match s with
  | EmptyString => ([], false)
  | String c s' =>
      if (nat_of_ascii c =? 61)%nat then
        if (2 <=? quad_pos)%nat && (4 <=? quad_pos + S pads)%nat then ([], true)
        else sextets quad_pos (S pads) s'
      else match sextet c with
           | Some v =>
               let (l, padded) := sextets (S quad_pos mod 4) 0 s' in
               (v :: l, padded)
           | None => sextets quad_pos pads s'
           end
  end.

Definition byte_of (n : N) : Byte.byte :=
  match Byte.of_N (n mod 256) with
  | Some b => b
  | None => Byte.x00
  end.

Fixpoint octets (fuel : nat) (l : list N) : option (list Byte.byte) :=
  match fuel with
  | O => None
  | S f =>
      match l with
      | [] => Some []
      | [_] => None
      | [a; b] => Some [byte_of (a * 4 + b / 16)]
      | [a; b; c] =>
          Some [byte_of (a * 4 + b / 16); byte_of (b * 16 + c / 4)]
      | a :: b :: c :: d :: rest =>
          match octets f rest with
          | Some bs =>
              Some (byte_of (a * 4 + b / 16) :: byte_of (b * 16 + c / 4)
                      :: byte_of (c * 64 + d) :: bs)
          | None => None
          end
      end
  end.

Definition b64decode (s : string) : option (list Byte.byte) :=
  let (l, padded) := sextets 0 0 s in
  if padded || (List.length l mod 4 =? 0)%nat
  then octets (S (List.length l)) l
  else None.

(** A stand-in for the digest: the bytes in hexadecimal.  It is injective,
    which is all the handlers rely on. *)
Definition hex_digit (n : N) : ascii :=
  if (n <? 10)%N then ascii_of_N (48 + n) else ascii_of_N (87 + n).

Fixpoint hexdigest (data : list Byte.byte) : string :=
  match data with
  | [] => EmptyString
  | b :: rest =>
      let n := Byte.to_N b in
      String (hex_digit (n / 16)) (String (hex_digit (n mod 16)) (hexdigest rest))
  end.

Definition float_of_Z (z : Z) : float :=
  let m := PrimFloat.of_uint63 (Uint63.of_Z (Z.abs z)) in
  if (z <? 0)%Z then PrimFloat.opp m else m.

(** Float quotient of two integers below [2^53]. *)
Definition truediv (a b : Z) : float :=
  PrimFloat.div (float_of_Z a) (float_of_Z b).

(** Rounding by scaling, for magnitudes below [2^51]: the sum with [2^52]
    is rounded to an integer by the hardware, ties to even. *)
Definition round_ndigits (x : float) (ndigits : Z) : float :=
  let scale := float_of_Z (10 ^ ndigits) in
  let big := float_of_Z (2 ^ 52) in
  let y := PrimFloat.mul x scale in
  let r := if PrimFloat.ltb y PrimFloat.zero
           then PrimFloat.add (PrimFloat.sub y big) big
           else PrimFloat.sub (PrimFloat.add y big) big in
  PrimFloat.div r scale.

(** A scripted model: the [n]-th call answers with the [n]-th text of the
    script and raises once the script is exhausted. *)
Definition scripted (script : list string) (n : nat) (_ : list Byte.byte)
  (_ _ : string) (_ : Z) : option raw_output :=
  match nth_error script n with
  | Some t => Some (mkRaw t PrimFloat.one None None)
  | None => None
  end.

(** A state with the model loaded and nothing cached. *)
Definition ready_state : state := mkState true PrimFloat.one [] 0 0 0 0.

End Demo.

(** ** Vocabulary of the properties *)

(** [s] reads [a], then [sep], then [b], and no occurrence of [sep] starts
    further left. *)
Definition first_occurrence (sep s a b : string) : Prop :=
  s = (a ++ sep ++ b)%string /\
  forall a' b', s = (a' ++ sep ++ b')%string -> (String.length a <= String.length a')%nat.

(** [b] is what follows an occurrence of [sep] in [s] and holds no further
    occurrence. *)
Definition last_occurrence (sep s a b : string) : Prop :=
  s = (a ++ sep ++ b)%string /\ PyStr.str_in sep b = false.

(** [body] is [s] up to the next [sep], or all of [s] when none follows. *)
Definition up_to_next (sep s body : string) : Prop :=
  (PyStr.str_in sep s = false /\ body = s) \/
  (exists rest, first_occurrence sep s body rest).

(** The text after the rightmost occurrence of [sep]. *)
Fixpoint after_last (sep s : string) : option string :=
  match s with
  | EmptyString => None
  | String _ s' =>
      match after_last sep s' with
      | Some r => Some r
      | None =>
          if PyStr.startswith sep s
          then Some (PyStr.drop (String.length sep) s) else None
      end
  end.

(** The content between an opening marker and the fence that follows it,
    verbatim, for the leftmost or the rightmost opening marker. *)
Definition between_leftmost (opening closing text : string) : option string :=
  match PyStr.cut opening text with
  | Some (_, rest) =>
      match PyStr.cut closing rest with
      | Some (content, _) => Some content
      | None => None
      end
  | None => None
  end.

Definition between_rightmost (opening closing text : string) : option string :=
  match after_last opening text with
  | Some rest =>
      match PyStr.cut closing rest with
      | Some (content, _) => Some content
      | None => None
      end
  | None => None
  end.

(** The cache holds each key once, and no stored result has a null
    extraction. *)
Definition unique_keys (c : PyDict.dict result) : Prop :=
  NoDup (PyDict.keys c).

Definition no_null_cached (c : PyDict.dict result) : Prop :=
  Forall (fun kv => extraction (snd kv) <> JNull) c.

(** A key of a decoded object counts as populated by the model when it is
    present with a value Python takes as true. *)
Definition populated (key : string) (d : PyDict.dict json) : Prop :=
  exists v, PyDict.get key d = Some v /\ truthy v = true.

(** [sub] occurs in [s] when letter case is ignored, that is, in what
    [str.lower] makes of [s]. *)
Definition occurs_ignoring_case (str_lower : string -> string)
  (sub s : string) : Prop :=
  exists a b, str_lower s = (a ++ sub ++ b)%string.

(** A string that does not begin, or does not end, with ASCII white
    space. *)
Definition starts_clean (s : string) : Prop :=
  match s with
  | EmptyString => True
  | String c _ => PyStr.ascii_isspace c = false
  end.

Fixpoint ends_clean (s : string) : Prop :=
  match s with
  | EmptyString => True
  | String c EmptyString => PyStr.ascii_isspace c = false
  | String _ s' => ends_clean s'
  end.

(** What the properties rely on of the two string methods: on a string of
    ASCII characters they are the ASCII functions; [str.strip] returns a
    part of its argument, which neither begins nor ends with ASCII white
    space. *)
Definition lower_on_ascii (str_lower : string -> string) : Prop :=
  forall s, PyStr.is_ascii s = true -> str_lower s = PyStr.ascii_lower s.

Definition strip_on_ascii (str_strip : string -> string) : Prop :=
  forall s, PyStr.is_ascii s = true -> str_strip s = PyStr.ascii_strip s.

Definition strip_keeps_a_part (str_strip : string -> string) : Prop :=
  forall s, exists a b, s = (a ++ str_strip s ++ b)%string.

Definition strip_clears_ascii_space (str_strip : string -> string) : Prop :=
  forall s, starts_clean (str_strip s) /\ ends_clean (str_strip s).

(** What is kept of a text up to its next fence. *)
Definition body_of (after : string) : string :=
  match PyStr.cut fence after with
  | Some (a, _) => a
  | None => after
  end.

(** The cache after [_content_cache[key] = value] and [move_to_end(key)]. *)
Definition stored (key : string) (value : result) (c : PyDict.dict result)
  : PyDict.dict result :=
  PyDict.remove key (PyDict.set key value c) ++ [(key, value)].

(** A run of [_cache_put] calls, one per pair, in list order. *)
Fixpoint put_all (MAX_CACHE_SIZE : Z) (kvs : list (string * result)) : M unit :=
  match kvs with
  | [] => ret tt
  | (k, v) :: rest => _cache_put MAX_CACHE_SIZE k v ;;; put_all MAX_CACHE_SIZE rest
  end.

(** Sample values for running the handlers. *)
Definition sample_result (merchant_name : string) : result :=
  mkResult "ok" (JObj [("merchant", JStr merchant_name)]) merchant_name
    (mkStats PrimFloat.one None None).

Definition state_with_cache (c : PyDict.dict result) : state :=
  mkState true PrimFloat.one c 0 0 0 0.

(** The invariant of the cache in every state the process reaches. *)
Definition cache_inv (st : state) : Prop :=
  unique_keys (_content_cache st) /\ no_null_cached (_content_cache st).

(** Model texts used as examples. *)
Definition merchant_x_json : string :=
  "{" ++ quoted "merchant" ++ ":" ++ quoted "X" ++ "}".

Definition example_fenced : string :=
  "prefix ```json " ++ merchant_x_json ++ " ``` suffix".

Definition two_blocks : string :=
  "```json {" ++ quoted "a" ++ ":1} ``` then ```json {" ++ quoted "b" ++ ":2} ```".

(** The handlers over the test doubles, with the default capacity. *)
Definition demo_extract_at (capacity : Z) (script : list string)
  : ExtractRequest -> M response :=
  extract capacity PyStr.ascii_lower PyStr.ascii_strip Demo.b64decode
    Demo.hexdigest Demo.json_loads Demo.temp_file (Demo.scripted script).

Definition demo_extract (script : list string) : ExtractRequest -> M response :=
  demo_extract_at 256 script.

Definition demo_health : M health_report :=
  health "demo-model" 256 Demo.truediv Demo.round_ndigits.

Definition demo_request (image_b64 : string) : ExtractRequest :=
  mkRequest image_b64 "image/jpeg" None 1024.

(** A request whose file type is the null character. *)
Definition request_with_null_suffix (image_b64 : string) : ExtractRequest :=
  mkRequest image_b64 ("image/" ++ String (ascii_of_nat 0) "") None 1024.

Definition lidl_receipt : string :=
  "{" ++ quoted "merchant" ++ ":" ++ quoted "LIDL Portugal" ++ ","
      ++ quoted "total" ++ ":12}".

(** ** Start-up and serving *)

(** [_load_model].  The argument stands for the call [load(MODEL_ID)] and
    the two clock readings around it: [Some t] when the model loads, in [t]
    seconds; [None] when [load] raises, in which case the assignment to the
    globals is not reached. *)
Definition _load_model (loaded_in : option float) : M unit :=
  match loaded_in with
  | Some t =>
      modify (fun s =>
                mkState true t (_content_cache s) (_cache_hits s)
                  (_cache_misses s) (_fast_path_hits s) (model_calls s))
  | None => raise GenerationError
  end.

Section Serving.

Variable MODEL_ID : string.
Variable MAX_CACHE_SIZE : Z.
Variable str_lower : string -> string.
Variable str_strip : string -> string.
Variable b64decode : string -> option (list Byte.byte).
Variable _sha256 : list Byte.byte -> string.
Variable json_loads : string -> loads_result.
Variable truediv : Z -> Z -> float.
Variable round_ndigits : float -> Z -> float.
Variable temp_file : nat -> string -> list Byte.byte -> temp_file_result.
Variable _generate_from_image :
  nat -> list Byte.byte -> string -> string -> Z -> option raw_output.

(** [serves s s']: the requests handled since state [s] leave the process in
    state [s']. *)
Inductive serves (s : state) : state -> Prop :=
| serves_nothing : serves s s
| serves_extract (s' : state) (req : ExtractRequest) :
    serves s s' ->
    serves s
      (snd (extract MAX_CACHE_SIZE str_lower str_strip b64decode _sha256
              json_loads temp_file _generate_from_image req s'))
| serves_health (s' : state) :
    serves s s' ->
    serves s (snd (health MODEL_ID MAX_CACHE_SIZE truediv round_ndigits s')).

End Serving.

(** The counters of a state, as integers, in the order hits, misses,
    fast-path hits, model calls. *)
Definition counters (s : state) : Z * Z * Z * Z :=
  (_cache_hits s, _cache_misses s, _fast_path_hits s, Z.of_nat (model_calls s)).

(** All cached results carry the status ["ok"]. *)
Definition all_ok (c : PyDict.dict result) : Prop :=
  Forall (fun kv => status (snd kv) = "ok"%string) c.

(** The state after the model call and the enrichment of a miss. *)
Definition after_model (st st2 : state) : Prop :=
  st2 = incr_model_calls st \/ st2 = incr_fast_path (incr_model_calls st).

(** No proper, non-empty end of the separator begins it again. *)
Definition unbordered (sep : string) : Prop :=
  forall x z, sep = (x ++ z)%string -> x <> ""%string -> z <> ""%string ->
              PyStr.startswith z sep = false.

(** ** The run-time patches of [patch_transformers.py]

    The patched library is a collaborator: its functions are parameters,
    and what they raise is told apart as far as the handlers of the patch
    do. *)

Module Patch.

(** The exception classes the [except] clauses distinguish; [ImportError]
    and [KeyError] stand for their subclasses too, [OtherError] for every
    other [Exception]. *)
Inductive error : Type := ImportError | TypeError | KeyError | OtherError.

Inductive res (A : Type) : Type :=
| Ok (a : A)
| Err (e : error).
Arguments Ok {A} a.
Arguments Err {A} e.

(** [except (KeyError, ImportError)] and [except (ImportError, TypeError)] *)
Definition missing_backend (e : error) : bool :=
  match e with
  | KeyError | ImportError => true
  | _ => false
  end.

Definition import_or_type (e : error) : bool :=
  match e with
  | ImportError | TypeError => true
  | _ => false
  end.

Section Loader.

(** Python objects: keyword-argument values, loaded sub-processors,
    auto-classes and processor classes. *)
Variable Val : Type.
Variable Proc : Type.
Variable AutoCls : Type.
Variable ProcClass : Type.

(** The values [False] and [""]. *)
Variable py_false : Val.
Variable py_empty_str : Val.

(** [cls.__name__] and [cls.get_attributes()] *)
Variable cls_name : string.
Variable get_attributes : list string.

Variable _get_modality_for_attribute : string -> string.
(** [MODALITY_TO_AUTOPROCESSOR_MAPPING[...]] *)
Variable MODALITY_TO_AUTOPROCESSOR_MAPPING : string -> res AutoCls.
(** [auto_cls.from_pretrained(path, subfolder=..., **kwargs)] *)
Variable from_pretrained : AutoCls -> Val -> Val -> PyDict.dict Val -> res Proc.
(** [cls._load_tokenizer_from_pretrained(type, path, subfolder=..., **kwargs)] *)
Variable _load_tokenizer_from_pretrained :
  string -> Val -> Val -> PyDict.dict Val -> res Proc.
(** The import of [TokenizersBackend] and its [from_pretrained]. *)
Variable tokenizers_backend_from_pretrained :
  Val -> Val -> PyDict.dict Val -> res Proc.
Variable get_possibly_dynamic_module : json -> res ProcClass.
(** [proc_class] called with the entries of [sub_config] as keywords. *)
Variable instantiate : ProcClass -> PyDict.dict json -> res Proc.

(** [kwargs.pop("subfolder", "")] *)
Definition pop_subfolder (kwargs : PyDict.dict Val) : Val * PyDict.dict Val :=
  match PyDict.get "subfolder" kwargs with
  | Some v => (v, PyDict.remove "subfolder" kwargs)
  | None => (py_empty_str, kwargs)
  end.

(** One round of the loop of [_safe_get_args]: what is appended to [args]
    for the sub-processor type [t], or the exception that escapes. *)
Definition slot (path subfolder : Val) (kwargs : PyDict.dict Val)
  (processor_dict : PyDict.dict json) (t : string) : res (option Proc) :=
  let modality := _get_modality_for_attribute t in
  let is_primary := String.eqb t modality in
  if PyStr.str_in "tokenizer" t then
    match (if PyStr.str_in "PixtralProcessor" cls_name
           then tokenizers_backend_from_pretrained path subfolder kwargs
           else _load_tokenizer_from_pretrained t path subfolder kwargs) with
    | Ok tokenizer => Ok (Some tokenizer)
    | Err e => Err e
    end
  else if is_primary then
    match MODALITY_TO_AUTOPROCESSOR_MAPPING t with
    | Err e => if missing_backend e then Ok None else Err e
    | Ok auto_cls =>
        match from_pretrained auto_cls path subfolder kwargs with
        | Ok sub_proc => Ok (Some sub_proc)
        | Err e =>
            if import_or_type e then
              if PyStr.str_in "image" t then
                let fallback_kwargs := PyDict.set "use_fast" py_false kwargs in
                match from_pretrained auto_cls path subfolder fallback_kwargs with
                | Ok sub_proc => Ok (Some sub_proc)
                | Err _ => Ok None
                end
              else Ok None
            else Err e
        end
    end
  else if PyDict.contains t processor_dict then
    match PyDict.get t processor_dict with
    | None => Err KeyError
    | Some (JObj sub_config) =>
        let type_key := (modality ++ "_type")%string in
        match PyDict.get type_key sub_config with
        | None => Ok None
        | Some JNull => Ok None
        | Some class_name =>
            match get_possibly_dynamic_module class_name with
            | Err e => if import_or_type e then Ok None else Err e
            | Ok proc_class =>
                match instantiate proc_class sub_config with
                | Ok p => Ok (Some p)
                | Err e => if import_or_type e then Ok None else Err e
                end
            end
        end
    | Some _ => Ok None
    end
  else Ok None.

(** The loop [for sub_processor_type in sub_processors], appending to
    [args]. *)
Fixpoint fill (path subfolder : Val) (kwargs : PyDict.dict Val)
  (processor_dict : PyDict.dict json) (sub_processors : list string)
  (args : list (option Proc)) : res (list (option Proc)) :=
  match sub_processors with
  | [] => Ok args
  | t :: rest =>
      match slot path subfolder kwargs processor_dict t with
      | Ok a => fill path subfolder kwargs processor_dict rest (args ++ [a])
      | Err e => Err e
      end
  end.

(** [_safe_get_args] *)
Definition _safe_get_args (pretrained_model_name_or_path : Val)
  (processor_dict : option (PyDict.dict json)) (kwargs : PyDict.dict Val)
  : res (list (option Proc)) :=
  let processor_dict :=
    match processor_dict with
    | Some d => d
    | None => []
    end in
  let (subfolder, kwargs) := pop_subfolder kwargs in
  fill pretrained_model_name_or_path subfolder kwargs processor_dict
    get_attributes [].

(** [check_argument_for_proper_class(self, argument_name, argument)], with
    [None] for the argument [None]. *)
Definition check_fn : Type := string -> option Val -> res (option Val).

(** [_safe_check] around [_original_check] *)
Definition _safe_check (_original_check : check_fn) : check_fn :=
  fun argument_name argument =>
    match argument with
    | None => Ok None
    | Some a => _original_check argument_name (Some a)
    end.

Definition get_args_fn : Type :=
  Val -> option (PyDict.dict json) -> PyDict.dict Val -> res (list (option Proc)).

(** The flag [_PATCHED] and the two attributes of [ProcessorMixin] that
    [apply] replaces. *)
Record patched : Type := mkPatched {
  _PATCHED : bool;
  check_argument_for_proper_class : check_fn;
  _get_arguments_from_pretrained : get_args_fn
}.

(** [apply] *)
Definition apply (s : patched) : patched :=
  if _PATCHED s then s
  else mkPatched true (_safe_check (check_argument_for_proper_class s))
         _safe_get_args.

End Loader.

End Patch.

(** A stand-in for the patched library: a processor with an image
    processor, a tokenizer and a video processor.  The fast image processor
    and the video processor need a backend that is not installed. *)
Module PatchDemo.

Definition attributes : list string :=
  ["image_processor"; "tokenizer"; "video_processor"]%string.

Definition mapping (t : string) : Patch.res string :=
  if String.eqb t "image_processor" then Patch.Ok "AutoImageProcessor"%string
  else if String.eqb t "video_processor" then Patch.Err Patch.ImportError
  else Patch.Err Patch.KeyError.

Definition from_pretrained (auto_cls : string) (_ _ : json)
  (kwargs : PyDict.dict json) : Patch.res string :=
  match PyDict.get "use_fast" kwargs with
  | Some (JBool false) => Patch.Ok ("slow " ++ auto_cls)%string
  | _ => Patch.Err Patch.ImportError
  end.

Definition load_tokenizer (works : bool) (t : string) (_ _ : json)
  (_ : PyDict.dict json) : Patch.res string :=
  if works then Patch.Ok t else Patch.Err Patch.ImportError.

Definition no_backend (_ _ : json) (_ : PyDict.dict json) : Patch.res string :=
  Patch.Err Patch.ImportError.

Definition no_module (_ : json) : Patch.res string :=
  Patch.Err Patch.ImportError.

Definition no_instance (_ : string) (_ : PyDict.dict json) : Patch.res string :=
  Patch.Err Patch.TypeError.

(** [_safe_get_args] for this processor; [works] says whether the
    tokenizer loads. *)
Definition safe_get_args (works : bool) :
  json -> option (PyDict.dict json) -> PyDict.dict json ->
  Patch.res (list (option string)) :=
  Patch._safe_get_args (JBool false) (JStr "") "Qwen3VLProcessor" attributes
    (fun t => t) mapping from_pretrained (load_tokenizer works) no_backend
    no_module no_instance.

(** The library before the patch: a check that rejects everything. *)
Definition unpatched : Patch.patched json string :=
  Patch.mkPatched false (fun _ _ => Patch.Err Patch.TypeError)
    (fun _ _ _ => Patch.Err Patch.ImportError).

Definition apply : Patch.patched json string -> Patch.patched json string :=
  Patch.apply (JBool false) (JStr "") "Qwen3VLProcessor" attributes
    (fun t => t) mapping from_pretrained (load_tokenizer true) no_backend
    no_module no_instance.

End PatchDemo.

(** A model text whose merchant is a number. *)
Definition numeric_merchant : string :=
  "{" ++ quoted "merchant" ++ ":5}".

(** A model text that is one integer literal of 4301 digits, one more than
    the interpreter converts. *)
Fixpoint repeat_char (c : ascii) (n : nat) : string :=
  match n with
  | O => EmptyString
  | S k => String c (repeat_char c k)
  end.

Definition long_integer : string := repeat_char "1"%char 4301.

(** * Properties *)

Unset Implicit Arguments.

(** ** Strings *)

Module PyStrFacts.
Import PyStr.

Lemma append_nil_r (s : string) : (s ++ "")%string = s.
Proof. induction s as [|c s IH]; simpl; [reflexivity | now rewrite IH]. Qed.

Lemma append_assoc (a b c : string) :
  ((a ++ b) ++ c)%string = (a ++ (b ++ c))%string.
Proof. induction a as [|x a IH]; simpl; [reflexivity | now rewrite IH]. Qed.

Lemma length_append (a b : string) :
  String.length (a ++ b) = (String.length a + String.length b)%nat.
Proof. induction a as [|x a IH]; simpl; [reflexivity | now rewrite IH]. Qed.

Lemma drop_append (a b : string) : drop (String.length a) (a ++ b) = b.
Proof. induction a as [|x a IH]; simpl; [reflexivity | exact IH]. Qed.

Lemma startswith_append (p r : string) : startswith p (p ++ r) = true.
Proof.
  induction p as [|c p IH]; simpl; [reflexivity|].
  now rewrite Ascii.eqb_refl, IH.
Qed.

Lemma startswith_inv (p s : string) :
  startswith p s = true -> s = (p ++ drop (String.length p) s)%string.
Proof.
  revert s; induction p as [|c p IH]; intros s H; simpl in *; [reflexivity|].
  destruct s as [|d s]; [discriminate|].
  apply andb_true_iff in H as [Hc Hp].
  apply Ascii.eqb_eq in Hc; subst d.
  now rewrite <- (IH s Hp).
Qed.

Lemma startswith_iff (p s : string) :
  startswith p s = true <-> exists r, s = (p ++ r)%string.
Proof.
  split.
  - intros H; eexists; now apply startswith_inv.
  - intros [r ->]; apply startswith_append.
Qed.

Lemma str_in_unfold (sub s : string) :
  str_in sub s =
  startswith sub s ||
  match s with
  | EmptyString => false
  | String _ s' => str_in sub s'
  end.
Proof. destruct s; reflexivity. Qed.

Lemma str_in_intro (sub a b : string) : str_in sub (a ++ sub ++ b) = true.
Proof.
  induction a as [|c a IH].
  - change ("" ++ sub ++ b)%string with (sub ++ b)%string.
    now rewrite str_in_unfold, startswith_append.
  - simpl. rewrite IH; apply orb_true_r.
Qed.

Lemma str_in_elim (sub s : string) :
  str_in sub s = true -> exists a b, s = (a ++ sub ++ b)%string.
Proof.
  induction s as [|c s IH]; simpl; intros H.
  - rewrite orb_false_r in H. apply startswith_inv in H.
    exists ""%string; eexists; exact H.
  - apply orb_true_iff in H as [H|H].
    + apply startswith_inv in H. exists ""%string; eexists; exact H.
    + destruct (IH H) as (a & b & ->). exists (String c a), b; reflexivity.
Qed.

(** [sub in s] is the existence of an occurrence. *)
Lemma str_in_iff (sub s : string) :
  str_in sub s = true <-> exists a b, s = (a ++ sub ++ b)%string.
Proof.
  split; [apply str_in_elim | intros (a & b & ->); apply str_in_intro].
Qed.

Lemma str_in_tail (sub : string) (c : ascii) (s : string) :
  str_in sub (String c s) = false -> str_in sub s = false.
Proof. simpl; intros H; now apply orb_false_iff in H. Qed.

Lemma str_in_suffix (sub a b : string) :
  str_in sub (a ++ b) = false -> str_in sub b = false.
Proof.
  induction a as [|c a IH]; simpl; [trivial|].
  intros H; apply orb_false_iff in H as [_ H]; auto.
Qed.

Lemma cut_sound (sep s a b : string) :
  cut sep s = Some (a, b) -> s = (a ++ sep ++ b)%string.
Proof.
  revert a b; induction s as [|c s IH]; intros a b; simpl.
  - destruct (startswith sep "") eqn:E; [|discriminate].
    intros [= <- <-]; simpl. now apply startswith_inv.
  - destruct (startswith sep (String c s)) eqn:E.
    + intros [= <- <-]; simpl. now apply startswith_inv.
    + destruct (cut sep s) as [[a0 b0]|]; [|discriminate].
      intros [= <- <-]; simpl. now rewrite <- (IH a0 b0 eq_refl).
Qed.

Lemma cut_leftmost (sep s a b a' b' : string) :
  cut sep s = Some (a, b) -> s = (a' ++ sep ++ b')%string ->
  (String.length a <= String.length a')%nat.
Proof.
  revert a b a'; induction s as [|c s IH]; intros a b a'; simpl.
  - destruct (startswith sep ""); [|discriminate].
    intros [= <- <-] _; simpl; lia.
  - destruct (startswith sep (String c s)) eqn:E.
    + intros [= <- <-] _; simpl; lia.
    + destruct (cut sep s) as [[a0 b0]|] eqn:Ec; [|discriminate].
      intros [= <- <-] Hs. destruct a' as [|d a'].
      * simpl in Hs. rewrite Hs, startswith_append in E; discriminate.
      * simpl in Hs; injection Hs as _ Hs. simpl.
        apply le_n_S. eapply IH; eauto.
Qed.

Lemma cut_first_occurrence (sep s a b : string) :
  cut sep s = Some (a, b) -> first_occurrence sep s a b.
Proof.
  intros H; split; [now apply cut_sound|].
  intros a' b' Hs; eapply cut_leftmost; eauto.
Qed.

Lemma cut_none_iff (sep s : string) :
  cut sep s = None <-> str_in sep s = false.
Proof.
  induction s as [|c s IH]; simpl.
  - destruct (startswith sep ""); simpl; split; congruence.
  - destruct (startswith sep (String c s)); simpl.
    + split; congruence.
    + destruct (cut sep s) as [[a b]|].
      * split; [discriminate|]. intros H. apply IH in H; discriminate.
      * split; [intros _; now apply IH | reflexivity].
Qed.

Lemma cut_some_iff (sep s : string) :
  str_in sep s = true <-> exists a b, cut sep s = Some (a, b).
Proof.
  split.
  - intros H. destruct (cut sep s) as [[a b]|] eqn:E; [eauto|].
    apply cut_none_iff in E; congruence.
  - intros (a & b & H). destruct (str_in sep s) eqn:E; [reflexivity|].
    apply cut_none_iff in E; congruence.
Qed.

Lemma cut_shorter (sep s a b : string) :
  sep <> ""%string -> cut sep s = Some (a, b) ->
  (String.length b < String.length s)%nat.
Proof.
  intros Hsep H. apply cut_sound in H. subst s.
  rewrite !length_append. destruct sep; [congruence|simpl; lia].
Qed.

(** The piece before the first separator holds no separator, not even
    one that runs into the separator itself. *)
Lemma cut_before_clean (sep s a b : string) :
  sep <> ""%string -> cut sep s = Some (a, b) -> str_in sep a = false.
Proof.
  intros Hsep H. destruct (str_in sep a) eqn:E; [|reflexivity].
  apply str_in_elim in E as (x & y & ->).
  pose proof H as Hs. apply cut_sound in Hs.
  rewrite !append_assoc in Hs.
  pose proof H as Hl. eapply cut_leftmost in Hl; [|exact Hs].
  rewrite !length_append in Hl.
  destruct sep; [congruence | simpl in Hl; lia].
Qed.

End PyStrFacts.

Module SplitFacts.
Import PyStr PyStrFacts.

Lemma split_fuel_head (fuel : nat) (sep s : string) :
  item 0 (split_fuel fuel sep s) =
  Some (match cut sep s with Some (a, _) => a | None => s end).
Proof.
  destruct fuel; simpl; destruct (cut sep s) as [[a b]|]; reflexivity.
Qed.

Lemma split_head (sep s : string) :
  item 0 (split sep s) =
  Some (match cut sep s with Some (a, _) => a | None => s end).
Proof. apply split_fuel_head. Qed.

Lemma split_second (sep s a b : string) :
  sep <> ""%string -> cut sep s = Some (a, b) ->
  item 1 (split sep s) =
  Some (match cut sep b with Some (a2, _) => a2 | None => b end).
Proof.
  intros Hsep H. unfold split.
  pose proof (cut_shorter sep s a b Hsep H) as Hlen.
  destruct (String.length s) as [|k] eqn:E; [lia|].
  simpl. rewrite H. unfold item; simpl.
  apply split_fuel_head.
Qed.

Lemma last_item_cons (a : string) (l : list string) :
  l <> [] -> last_item (a :: l) = last_item l.
Proof.
  intros Hl. unfold last_item. simpl.
  destruct (rev l) as [|x r] eqn:E; [|reflexivity].
  apply (f_equal (@rev string)) in E. rewrite rev_involutive in E.
  simpl in E; congruence.
Qed.

Lemma split_fuel_nonempty (fuel : nat) (sep s : string) :
  split_fuel fuel sep s <> [].
Proof.
  destruct fuel; simpl; destruct (cut sep s) as [[a b]|]; discriminate.
Qed.

(** The last piece follows the last separator the scan consumes and holds
    no separator; a text without separator is its own last piece. *)
Lemma split_fuel_last (sep : string) :
  sep <> ""%string ->
  forall (fuel : nat) (s : string),
    (String.length s <= fuel)%nat ->
    exists r,
      last_item (split_fuel fuel sep s) = Some r /\
      str_in sep r = false /\
      (str_in sep s = false /\ r = s \/
       exists p, s = (p ++ sep ++ r)%string).
Proof.
  intros Hsep. induction fuel as [|k IH]; intros s Hlen.
  - destruct s; [|simpl in Hlen; lia].
    assert (Hc : cut sep "" = None).
    { destruct sep; [congruence | reflexivity]. }
    cbn [split_fuel]. rewrite Hc. exists ""%string.
    split; [reflexivity|]. apply cut_none_iff in Hc. auto.
  - cbn [split_fuel]. destruct (cut sep s) as [[a b]|] eqn:Hc.
    + pose proof (cut_shorter sep s a b Hsep Hc) as Hb.
      destruct (IH b) as (r & Hr & Hclean & Hshape); [lia|].
      exists r. rewrite last_item_cons by apply split_fuel_nonempty.
      split; [exact Hr|]. split; [exact Hclean|]. right.
      apply cut_sound in Hc.
      destruct Hshape as [[_ ->]|[p ->]].
      * exists a; exact Hc.
      * exists (a ++ sep ++ p)%string. rewrite Hc.
        now rewrite !append_assoc.
    + exists s. split; [reflexivity|].
      apply cut_none_iff in Hc. auto.
Qed.

Lemma split_last (sep s : string) :
  sep <> ""%string ->
  exists r,
    last_item (split sep s) = Some r /\
    str_in sep r = false /\
    (str_in sep s = false /\ r = s \/ exists p, s = (p ++ sep ++ r)%string).
Proof. intros Hsep. apply split_fuel_last; [exact Hsep | apply le_n]. Qed.

End SplitFacts.

(** ** The fence stripping *)

Module ParserFacts.
Import PyStr PyStrFacts SplitFacts.

Lemma fence_nonempty : fence <> ""%string.
Proof. discriminate. Qed.

Lemma json_fence_nonempty : json_fence <> ""%string.
Proof. discriminate. Qed.

Lemma json_fence_has_fence (text : string) :
  str_in json_fence text = true -> str_in fence text = true.
Proof.
  intros H. apply str_in_elim in H as (a & b & ->).
  change json_fence with (fence ++ "json")%string.
  rewrite append_assoc. apply str_in_intro.
Qed.

Lemma head_of_clean (sep t : string) :
  str_in sep t = false -> item 0 (split sep t) = Some t.
Proof.
  intros H. rewrite split_head.
  apply cut_none_iff in H. now rewrite H.
Qed.

Lemma body_of_up_to_next (after : string) :
  up_to_next fence after (body_of after).
Proof.
  unfold body_of, up_to_next.
  destruct (cut fence after) as [[a b]|] eqn:E.
  - right. exists b. now apply cut_first_occurrence.
  - left. split; [now apply cut_none_iff | reflexivity].
Qed.

Lemma body_of_clean (after : string) : str_in fence (body_of after) = false.
Proof.
  unfold body_of. destruct (cut fence after) as [[a b]|] eqn:E.
  - eapply cut_before_clean; [apply fence_nonempty | exact E].
  - now apply cut_none_iff.
Qed.

Section Candidate.
Variable str_strip : string -> string.

Lemma candidate_json (text : string) :
  str_in json_fence text = true ->
  exists pre after body,
    last_occurrence json_fence text pre after /\
    up_to_next fence after body /\
    candidate str_strip text = Returned (str_strip body).
Proof.
  intros H. unfold candidate. rewrite H.
  destruct (split_last json_fence text json_fence_nonempty)
    as (r & Hr & Hclean & [[Hno _]|[p Hp]]); [congruence|].
  rewrite Hr. cbn [lift_index]. rewrite split_head. cbn [lift_index].
  exists p, r, (body_of r). split; [split; assumption|].
  split; [apply body_of_up_to_next | reflexivity].
Qed.

Lemma candidate_fence (text : string) :
  str_in json_fence text = false -> str_in fence text = true ->
  exists pre after body,
    first_occurrence fence text pre after /\
    up_to_next fence after body /\
    candidate str_strip text = Returned (str_strip body).
Proof.
  intros Hj Hf. unfold candidate. rewrite Hj, Hf.
  apply cut_some_iff in Hf as (a & b & Hc).
  rewrite (split_second fence text a b fence_nonempty Hc).
  cbn [lift_index]. fold (body_of b).
  rewrite (head_of_clean fence (body_of b) (body_of_clean b)).
  cbn [lift_index].
  exists a, b, (body_of b). split; [now apply cut_first_occurrence|].
  split; [apply body_of_up_to_next | reflexivity].
Qed.

Lemma candidate_plain (text : string) :
  str_in fence text = false -> candidate str_strip text = Returned text.
Proof.
  intros Hf. unfold candidate. rewrite Hf.
  destruct (str_in json_fence text) eqn:Hj; [|reflexivity].
  apply json_fence_has_fence in Hj; congruence.
Qed.

(** The fence stripping never raises. *)
Lemma candidate_total (text : string) : exists t, candidate str_strip text = Returned t.
Proof.
  destruct (str_in json_fence text) eqn:Hj.
  - destruct (candidate_json text Hj) as (_ & _ & body & _ & _ & ->); eauto.
  - destruct (str_in fence text) eqn:Hf.
    + destruct (candidate_fence text Hj Hf) as (_ & _ & body & _ & _ & ->); eauto.
    + rewrite (candidate_plain text Hf); eauto.
Qed.

End Candidate.

Lemma file_extension_total (mime : string) :
  exists ext, file_extension mime = Returned ext.
Proof.
  unfold file_extension.
  destruct (split_last "/" mime) as (r & Hr & _); [discriminate|].
  rewrite Hr. cbn [lift_index]. eauto.
Qed.

End ParserFacts.

(** ** Dictionaries *)

Module DictFacts.
Section Facts.
Variable V : Type.
Implicit Types (d : PyDict.dict V) (k : string) (v : V).

Lemma contains_get k d :
  PyDict.contains k d = true <-> exists v, PyDict.get k d = Some v.
Proof.
  induction d as [|[k0 v0] d IH]; simpl.
  - split; [discriminate | intros [v H]; discriminate].
  - destruct (String.eqb k k0); simpl; [split; eauto | exact IH].
Qed.

Lemma contains_false_get k d :
  PyDict.contains k d = false <-> PyDict.get k d = None.
Proof.
  induction d as [|[k0 v0] d IH]; simpl; [tauto|].
  destruct (String.eqb k k0); simpl; [split; discriminate | exact IH].
Qed.

Lemma contains_in_keys k d :
  PyDict.contains k d = true <-> In k (PyDict.keys d).
Proof.
  induction d as [|[k0 v0] d IH]; simpl; [split; [discriminate | tauto]|].
  destruct (String.eqb_spec k k0) as [->|Hne]; simpl.
  - tauto.
  - rewrite IH. split; [tauto | intros [H|H]; congruence].
Qed.

Lemma get_none_not_in k d :
  PyDict.get k d = None <-> ~ In k (PyDict.keys d).
Proof.
  rewrite <- contains_false_get, <- contains_in_keys.
  destruct (PyDict.contains k d); split; congruence.
Qed.

Lemma get_set_same k v d : PyDict.get k (PyDict.set k v d) = Some v.
Proof.
  induction d as [|[k0 v0] d IH]; simpl.
  - now rewrite String.eqb_refl.
  - destruct (String.eqb k k0) eqn:E; simpl; rewrite E; [reflexivity | exact IH].
Qed.

Lemma get_set_other k k' v d :
  k' <> k -> PyDict.get k' (PyDict.set k v d) = PyDict.get k' d.
Proof.
  intros Hne. induction d as [|[k0 v0] d IH]; simpl.
  - apply String.eqb_neq in Hne. now rewrite Hne.
  - destruct (String.eqb_spec k k0) as [->|Hk]; simpl.
    + apply String.eqb_neq in Hne. now rewrite Hne.
    + now rewrite IH.
Qed.

Lemma set_absent k v d :
  PyDict.get k d = None -> PyDict.set k v d = d ++ [(k, v)].
Proof.
  induction d as [|[k0 v0] d IH]; simpl; [reflexivity|].
  destruct (String.eqb k k0); [discriminate|].
  intros H. now rewrite IH.
Qed.

Lemma keys_set_present k v d :
  PyDict.contains k d = true -> PyDict.keys (PyDict.set k v d) = PyDict.keys d.
Proof.
  induction d as [|[k0 v0] d IH]; simpl; [discriminate|].
  destruct (String.eqb k k0); simpl; [reflexivity|].
  intros H. now rewrite IH.
Qed.

Lemma keys_app d1 d2 :
  PyDict.keys (d1 ++ d2) = PyDict.keys d1 ++ PyDict.keys d2.
Proof. apply map_app. Qed.

Lemma get_app k d1 d2 :
  PyDict.get k (d1 ++ d2) =
  match PyDict.get k d1 with
  | Some v => Some v
  | None => PyDict.get k d2
  end.
Proof.
  induction d1 as [|[k0 v0] d1 IH]; simpl; [reflexivity|].
  destruct (String.eqb k k0); [reflexivity | exact IH].
Qed.

Lemma remove_absent k d : PyDict.get k d = None -> PyDict.remove k d = d.
Proof.
  induction d as [|[k0 v0] d IH]; simpl; [reflexivity|].
  destruct (String.eqb k k0); [discriminate|].
  intros H. now rewrite IH.
Qed.

Lemma keys_remove_incl k d x :
  In x (PyDict.keys (PyDict.remove k d)) -> In x (PyDict.keys d).
Proof.
  induction d as [|[k0 v0] d IH]; simpl; [tauto|].
  destruct (String.eqb k k0); simpl; [tauto|].
  intros [H|H]; [left; exact H | right; auto].
Qed.

Lemma get_remove_other k k' d :
  k' <> k -> PyDict.get k' (PyDict.remove k d) = PyDict.get k' d.
Proof.
  intros Hne. induction d as [|[k0 v0] d IH]; simpl; [reflexivity|].
  destruct (String.eqb_spec k k0) as [->|Hk]; simpl.
  - apply String.eqb_neq in Hne. now rewrite Hne.
  - now rewrite IH.
Qed.

Lemma nodup_remove k d :
  NoDup (PyDict.keys d) -> NoDup (PyDict.keys (PyDict.remove k d)).
Proof.
  induction d as [|[k0 v0] d IH]; simpl; [trivial|].
  intros H. inversion H as [|? ? Hnin Hnd]; subst.
  destruct (String.eqb k k0); simpl; [exact Hnd|].
  constructor; [|auto]. intros Hin. apply Hnin.
  eapply keys_remove_incl; eauto.
Qed.

Lemma get_remove_same k d :
  NoDup (PyDict.keys d) -> PyDict.get k (PyDict.remove k d) = None.
Proof.
  induction d as [|[k0 v0] d IH]; simpl; [reflexivity|].
  intros H. inversion H as [|? ? Hnin Hnd]; subst.
  destruct (String.eqb_spec k k0) as [->|Hk]; simpl.
  - now apply get_none_not_in.
  - apply String.eqb_neq in Hk. rewrite Hk. auto.
Qed.

Lemma length_remove k d v :
  PyDict.get k d = Some v -> S (List.length (PyDict.remove k d)) = List.length d.
Proof.
  induction d as [|[k0 v0] d IH]; simpl; [discriminate|].
  destruct (String.eqb k k0); simpl; [reflexivity|].
  intros H. now rewrite IH.
Qed.

Lemma nodup_set k v d :
  NoDup (PyDict.keys d) -> NoDup (PyDict.keys (PyDict.set k v d)).
Proof.
  intros H. destruct (PyDict.contains k d) eqn:E.
  - now rewrite keys_set_present.
  - apply contains_false_get in E. rewrite (set_absent k v d E), keys_app.
    simpl. apply NoDup_app; [exact H | repeat constructor; simpl; tauto |].
    intros x Hx [<-|[]]. apply get_none_not_in in E; auto.
Qed.

(** [d[k] = v] followed by [d.move_to_end(k)]. *)
Lemma move_to_end_set k v d :
  PyDict.move_to_end k (PyDict.set k v d) =
  Some (PyDict.remove k (PyDict.set k v d) ++ [(k, v)]).
Proof. unfold PyDict.move_to_end. now rewrite get_set_same. Qed.

Lemma remove_set_absent k v d :
  PyDict.get k d = None -> PyDict.remove k (PyDict.set k v d) = d.
Proof.
  induction d as [|[k0 v0] d IH]; simpl.
  - now rewrite String.eqb_refl.
  - destruct (String.eqb k k0) eqn:E; [discriminate|].
    intros H. simpl. rewrite E. now rewrite IH.
Qed.

Lemma remove_set_present k v d :
  PyDict.remove k (PyDict.set k v d) = PyDict.remove k d.
Proof.
  induction d as [|[k0 v0] d IH]; simpl.
  - now rewrite String.eqb_refl.
  - destruct (String.eqb k k0) eqn:E; simpl; rewrite E; [reflexivity|].
    now rewrite IH.
Qed.

(** After a move to the end the key is found with its value. *)
Lemma get_moved k v d :
  NoDup (PyDict.keys d) ->
  PyDict.get k (PyDict.remove k d ++ [(k, v)]) = Some v.
Proof.
  intros H. rewrite get_app, get_remove_same by exact H.
  simpl. now rewrite String.eqb_refl.
Qed.

Lemma get_moved_other k k' v d :
  k' <> k ->
  PyDict.get k' (PyDict.remove k d ++ [(k, v)]) = PyDict.get k' d.
Proof.
  intros Hne. rewrite get_app, get_remove_other by exact Hne.
  destruct (PyDict.get k' d); [reflexivity|].
  simpl. apply String.eqb_neq in Hne. now rewrite Hne.
Qed.

Lemma nodup_moved k v d :
  NoDup (PyDict.keys d) -> NoDup (PyDict.keys (PyDict.remove k d ++ [(k, v)])).
Proof.
  intros H. rewrite keys_app. simpl.
  apply NoDup_app; [now apply nodup_remove | repeat constructor; simpl; tauto |].
  intros x Hx [<-|[]].
  pose proof (get_remove_same k d H) as Hg.
  apply get_none_not_in in Hg. auto.
Qed.

End Facts.
End DictFacts.

(** ** The content cache *)

Module CacheFacts.
Import DictFacts.

Ltac run :=
  unfold bind, gets, modify, ret, raise; cbn [fst snd _content_cache set_cache
    incr_hits incr_misses incr_fast_path incr_model_calls _model _load_time
    _cache_hits _cache_misses _fast_path_hits model_calls].

Ltac run_in H :=
  unfold bind, gets, modify, ret, raise in H; cbn [fst snd _content_cache
    set_cache incr_hits incr_misses incr_fast_path incr_model_calls _model
    _load_time _cache_hits _cache_misses _fast_path_hits model_calls] in H.

Lemma evict_eq (max_size : Z) (c : PyDict.dict result) :
  evict max_size c =
  if (Z.of_nat (List.length c) >? max_size)%Z then
    match c with
    | [] => (Raised KeyError, [])
    | _ :: c' => evict max_size c'
    end
  else (Returned tt, c).
Proof. destruct c; reflexivity. Qed.

(** With a capacity that is not negative the loop ends normally, having
    dropped the oldest entries in excess. *)
Lemma evict_spec (max_size : Z) (c : PyDict.dict result) :
  (0 <= max_size)%Z ->
  evict max_size c =
  (Returned tt, skipn (List.length c - Z.to_nat max_size) c).
Proof.
  intros Hmax. induction c as [|x c IH]; rewrite evict_eq.
  - simpl List.length. destruct (Z.gtb_spec (Z.of_nat 0) max_size); [lia|].
    reflexivity.
  - destruct (Z.gtb_spec (Z.of_nat (List.length (x :: c))) max_size) as [H|H].
    + rewrite IH. simpl List.length in *.
      replace (S (List.length c) - Z.to_nat max_size)%nat
        with (S (List.length c - Z.to_nat max_size))%nat by lia.
      reflexivity.
    + simpl List.length in *.
      replace (S (List.length c) - Z.to_nat max_size)%nat with 0%nat by lia.
      reflexivity.
Qed.

(** A negative capacity empties the cache and ends in [KeyError]. *)
Lemma evict_negative (max_size : Z) (c : PyDict.dict result) :
  (max_size < 0)%Z -> evict max_size c = (Raised KeyError, []).
Proof.
  intros Hmax. induction c as [|x c IH]; rewrite evict_eq.
  - simpl List.length. destruct (Z.gtb_spec (Z.of_nat 0) max_size); [|lia].
    reflexivity.
  - destruct (Z.gtb_spec (Z.of_nat (List.length (x :: c))) max_size); [|lia].
    exact IH.
Qed.

Lemma cache_get_absent (key : string) (st : state) :
  PyDict.get key (_content_cache st) = None ->
  _cache_get key st = (Returned None, st).
Proof.
  intros H. unfold _cache_get. run.
  apply contains_false_get in H. now rewrite H.
Qed.

Lemma cache_get_present (key : string) (v : result) (st : state) :
  unique_keys (_content_cache st) ->
  PyDict.get key (_content_cache st) = Some v ->
  _cache_get key st =
  (Returned (Some v),
   incr_hits (set_cache (PyDict.remove key (_content_cache st) ++ [(key, v)]) st)).
Proof.
  intros Hu H. unfold _cache_get. run.
  assert (Hc : PyDict.contains key (_content_cache st) = true).
  { apply contains_get; eauto. }
  rewrite Hc. unfold PyDict.move_to_end. rewrite H. run.
  now rewrite (get_moved result key v (_content_cache st) Hu).
Qed.

Lemma cache_put_eq (MAX_CACHE_SIZE : Z) (key : string) (value : result)
  (st : state) :
  _cache_put MAX_CACHE_SIZE key value st =
  (fst (evict MAX_CACHE_SIZE (stored key value (_content_cache st))),
   set_cache (snd (evict MAX_CACHE_SIZE (stored key value (_content_cache st))))
     (incr_misses st)).
Proof.
  unfold _cache_put. run. rewrite move_to_end_set. run.
  fold (stored key value (_content_cache st)).
  destruct (evict MAX_CACHE_SIZE (stored key value (_content_cache st)))
    as [o c4].
  destruct st; reflexivity.
Qed.

Lemma stored_new (key : string) (value : result) (c : PyDict.dict result) :
  PyDict.get key c = None -> stored key value c = c ++ [(key, value)].
Proof. intros H. unfold stored. now rewrite remove_set_absent. Qed.

Lemma stored_old (key : string) (value : result) (c : PyDict.dict result) :
  stored key value c = PyDict.remove key c ++ [(key, value)].
Proof. unfold stored. now rewrite remove_set_present. Qed.

Lemma stored_length (key : string) (value : result) (c : PyDict.dict result) :
  List.length (stored key value c) =
  match PyDict.get key c with
  | Some _ => List.length c
  | None => S (List.length c)
  end.
Proof.
  rewrite stored_old, length_app. simpl.
  destruct (PyDict.get key c) eqn:E.
  - pose proof (length_remove result key c r E). lia.
  - rewrite remove_absent by exact E. lia.
Qed.

Lemma stored_unique (key : string) (value : result) (c : PyDict.dict result) :
  unique_keys c -> unique_keys (stored key value c).
Proof. intros H. rewrite stored_old. now apply nodup_moved. Qed.

Lemma skipn_unique (n : nat) (c : PyDict.dict result) :
  unique_keys c -> unique_keys (skipn n c).
Proof.
  unfold unique_keys, PyDict.keys. revert c.
  induction n as [|n IH]; intros c H; [exact H|].
  destruct c as [|x c]; [exact H|]. simpl. apply IH.
  now inversion H.
Qed.

Lemma cache_put_returns (MAX_CACHE_SIZE : Z) (key : string) (value : result)
  (st : state) :
  (0 <= MAX_CACHE_SIZE)%Z ->
  _cache_put MAX_CACHE_SIZE key value st =
  (Returned tt,
   set_cache
     (skipn (List.length (stored key value (_content_cache st))
             - Z.to_nat MAX_CACHE_SIZE)
        (stored key value (_content_cache st)))
     (incr_misses st)).
Proof. intros H. rewrite cache_put_eq, evict_spec by exact H. reflexivity. Qed.

End CacheFacts.

(** ** Least-recently-used eviction *)

Module LruFacts.
Import DictFacts CacheFacts.

Lemma skipn_app_short {A} (a : nat) (l r : list A) :
  (a <= List.length l)%nat -> skipn a l ++ r = skipn a (l ++ r).
Proof.
  intros H. rewrite skipn_app.
  replace (a - List.length l)%nat with 0%nat by lia. reflexivity.
Qed.

Lemma nodup_skipn_app {A} (a : nat) (l r : list A) :
  NoDup (l ++ r) -> NoDup (skipn a l ++ r).
Proof.
  intros H. rewrite <- (firstn_skipn a l), <- app_assoc in H.
  now apply NoDup_app_remove_l in H.
Qed.

Lemma keys_skipn (a : nat) (c : PyDict.dict result) :
  PyDict.keys (skipn a c) = skipn a (PyDict.keys c).
Proof. unfold PyDict.keys. symmetry. apply skipn_map. Qed.

Lemma put_all_returns (MAX_CACHE_SIZE : Z) (kvs : list (string * result)) :
  (0 <= MAX_CACHE_SIZE)%Z ->
  forall st, fst (put_all MAX_CACHE_SIZE kvs st) = Returned tt.
Proof.
  intros Hmax. induction kvs as [|[k v] kvs IH]; intros st; [reflexivity|].
  cbn [put_all]. unfold bind. rewrite cache_put_returns by exact Hmax.
  apply IH.
Qed.

(** Puts of fresh, distinct keys keep the newest entries, in the order of
    insertion. *)
Lemma put_all_fresh (MAX_CACHE_SIZE : Z) (kvs : list (string * result)) :
  (0 <= MAX_CACHE_SIZE)%Z ->
  forall st,
    NoDup (PyDict.keys (_content_cache st) ++ map fst kvs) ->
    (List.length (_content_cache st) <= Z.to_nat MAX_CACHE_SIZE)%nat ->
    _content_cache (snd (put_all MAX_CACHE_SIZE kvs st)) =
    skipn (List.length (_content_cache st ++ kvs) - Z.to_nat MAX_CACHE_SIZE)
      (_content_cache st ++ kvs).
Proof.
  intros Hmax. set (m := Z.to_nat MAX_CACHE_SIZE).
  induction kvs as [|[k v] kvs IH]; intros st Hnd Hlen.
  - cbn [put_all ret snd]. rewrite app_nil_r.
    replace (List.length (_content_cache st) - m)%nat with 0%nat by lia.
    reflexivity.
  - cbn [put_all]. unfold bind.
    rewrite cache_put_returns by exact Hmax. fold m.
    assert (Hnew : PyDict.get k (_content_cache st) = None).
    { apply get_none_not_in. intros Hin.
      simpl in Hnd. apply NoDup_remove_2 in Hnd. apply Hnd.
      apply in_or_app. left; exact Hin. }
    rewrite (stored_new k v _ Hnew).
    set (c := _content_cache st) in *.
    set (a := (List.length (c ++ [(k, v)]) - m)%nat).
    assert (Ha : (a <= List.length (c ++ [(k, v)]))%nat) by (unfold a; lia).
    assert (Hc1 : (List.length (skipn a (c ++ [(k, v)])) <= m)%nat).
    { rewrite length_skipn. unfold a. rewrite length_app. simpl. lia. }
    rewrite IH; cbn [_content_cache set_cache incr_misses].
    + rewrite (skipn_app_short a _ kvs Ha), skipn_skipn, <- app_assoc.
      simpl app. f_equal.
      rewrite length_skipn, !length_app. unfold a.
      rewrite !length_app in *. simpl in *. lia.
    + rewrite keys_skipn, keys_app. simpl.
      apply nodup_skipn_app. rewrite <- app_assoc. exact Hnd.
    + exact Hc1.
Qed.

(** Inserting capacity + 1 distinct keys into an empty cache loses the
    first one and nothing else. *)
Lemma put_all_overflow (MAX_CACHE_SIZE : Z) (kvs : list (string * result))
  (st : state) :
  (0 <= MAX_CACHE_SIZE)%Z ->
  _content_cache st = [] ->
  NoDup (map fst kvs) ->
  Z.of_nat (List.length kvs) = (MAX_CACHE_SIZE + 1)%Z ->
  _content_cache (snd (put_all MAX_CACHE_SIZE kvs st)) = tl kvs.
Proof.
  intros Hmax Hc Hnd Hlen.
  rewrite put_all_fresh; rewrite ?Hc; simpl; try assumption; try lia.
  replace (List.length kvs - Z.to_nat MAX_CACHE_SIZE)%nat with 1%nat by lia.
  destruct kvs; reflexivity.
Qed.

(** One put of a fresh key into a full cache drops the oldest entry only. *)
Lemma put_full (MAX_CACHE_SIZE : Z) (k : string) (v : result) (st : state) :
  (0 <= MAX_CACHE_SIZE)%Z ->
  Z.of_nat (List.length (_content_cache st)) = MAX_CACHE_SIZE ->
  PyDict.get k (_content_cache st) = None ->
  _content_cache (snd (_cache_put MAX_CACHE_SIZE k v st)) =
  tl (_content_cache st ++ [(k, v)]).
Proof.
  intros Hmax Hlen Hnew. rewrite cache_put_returns by exact Hmax.
  cbn [snd _content_cache set_cache]. rewrite (stored_new k v _ Hnew).
  rewrite length_app. simpl.
  replace (List.length (_content_cache st) + 1 - Z.to_nat MAX_CACHE_SIZE)%nat
    with 1%nat by lia.
  destruct (_content_cache st); reflexivity.
Qed.

Lemma put_bounded (MAX_CACHE_SIZE : Z) (k : string) (v : result) (st : state) :
  (0 <= MAX_CACHE_SIZE)%Z ->
  exists st',
    _cache_put MAX_CACHE_SIZE k v st = (Returned tt, st') /\
    (Z.of_nat (List.length (_content_cache st')) <= MAX_CACHE_SIZE)%Z.
Proof.
  intros Hmax. eexists. split; [now apply cache_put_returns|].
  cbn [_content_cache set_cache]. rewrite length_skipn. lia.
Qed.

(** A hit moves the key to the newest end; with at least two entries in a
    full cache, the put of a fresh key that follows evicts another key. *)
Lemma get_then_put (MAX_CACHE_SIZE : Z) (k k' : string) (v v' : result)
  (st : state) :
  (2 <= MAX_CACHE_SIZE)%Z ->
  unique_keys (_content_cache st) ->
  Z.of_nat (List.length (_content_cache st)) = MAX_CACHE_SIZE ->
  PyDict.get k (_content_cache st) = Some v ->
  PyDict.get k' (_content_cache st) = None ->
  let st1 := snd (_cache_get k st) in
  let st2 := snd (_cache_put MAX_CACHE_SIZE k' v' st1) in
  _content_cache st1 = PyDict.remove k (_content_cache st) ++ [(k, v)] /\
  _content_cache st2 =
    tl (PyDict.remove k (_content_cache st)) ++ [(k, v); (k', v')] /\
  PyDict.get k (_content_cache st2) = Some v.
Proof.
  intros Hmax Hu Hlen Hk Hk' st1 st2.
  assert (H1 : _content_cache st1 =
               PyDict.remove k (_content_cache st) ++ [(k, v)]).
  { unfold st1. now rewrite (cache_get_present k v st Hu Hk). }
  assert (Hne : k' <> k) by (intros ->; congruence).
  pose proof (length_remove result k _ v Hk) as Hr.
  assert (H2 : _content_cache st2 =
               tl (PyDict.remove k (_content_cache st)) ++ [(k, v); (k', v')]).
  { unfold st2. rewrite put_full.
    - rewrite H1, <- app_assoc. simpl app.
      destruct (PyDict.remove k (_content_cache st)); [simpl in Hr; lia|].
      reflexivity.
    - lia.
    - rewrite H1, length_app. simpl. lia.
    - rewrite H1, get_moved_other by exact Hne. exact Hk'. }
  split; [exact H1|]. split; [exact H2|].
  rewrite H2, get_app.
  pose proof (get_remove_same result k _ Hu) as Hg.
  assert (Ht : PyDict.get k (tl (PyDict.remove k (_content_cache st))) = None).
  { apply get_none_not_in. apply get_none_not_in in Hg.
    intros Hin. apply Hg.
    destruct (PyDict.remove k (_content_cache st)); [exact Hin|].
    right; exact Hin. }
  rewrite Ht. simpl. now rewrite String.eqb_refl.
Qed.

End LruFacts.

(** ** Claims on the cache discipline *)

Ltac distinct_keys :=
  unfold unique_keys; simpl;
  repeat (constructor; [simpl; intuition discriminate|]); constructor.

(** C3, as the code has it.  For a capacity that is not negative: every
    [_cache_put] returns and leaves at most [MAX_CACHE_SIZE] entries;
    inserting capacity + 1 distinct keys into an empty cache evicts the
    first-inserted, least recently used key and keeps all the others, as
    the put of one fresh key into a full cache evicts its oldest entry and
    no other; and,
    when the capacity is at least two, a [_cache_get] hit on a key of a full
    cache makes it the most recently used entry, so that the put of a fresh
    key that follows evicts the oldest of the other entries and the touched
    key stays. *)
Theorem lru_discipline (MAX_CACHE_SIZE : Z) :
  (0 <= MAX_CACHE_SIZE)%Z ->
  (forall k v st,
      exists st',
        _cache_put MAX_CACHE_SIZE k v st = (Returned tt, st') /\
        (Z.of_nat (List.length (_content_cache st')) <= MAX_CACHE_SIZE)%Z) /\
  (forall kvs st,
      _content_cache st = [] ->
      NoDup (map fst kvs) ->
      Z.of_nat (List.length kvs) = (MAX_CACHE_SIZE + 1)%Z ->
      fst (put_all MAX_CACHE_SIZE kvs st) = Returned tt /\
      _content_cache (snd (put_all MAX_CACHE_SIZE kvs st)) = tl kvs) /\
  (forall k v st,
      Z.of_nat (List.length (_content_cache st)) = MAX_CACHE_SIZE ->
      PyDict.get k (_content_cache st) = None ->
      _content_cache (snd (_cache_put MAX_CACHE_SIZE k v st)) =
      tl (_content_cache st ++ [(k, v)])) /\
  (forall k k' v v' st,
      (2 <= MAX_CACHE_SIZE)%Z ->
      unique_keys (_content_cache st) ->
      Z.of_nat (List.length (_content_cache st)) = MAX_CACHE_SIZE ->
      PyDict.get k (_content_cache st) = Some v ->
      PyDict.get k' (_content_cache st) = None ->
      let st1 := snd (_cache_get k st) in
      let st2 := snd (_cache_put MAX_CACHE_SIZE k' v' st1) in
      _content_cache st1 = PyDict.remove k (_content_cache st) ++ [(k, v)] /\
      _content_cache st2 =
        tl (PyDict.remove k (_content_cache st)) ++ [(k, v); (k', v')] /\
      PyDict.get k (_content_cache st2) = Some v).
Proof.
  intros Hmax. split; [|split; [|split]].
  - intros k v st. now apply LruFacts.put_bounded.
  - intros kvs st Hc Hnd Hlen. split.
    + now apply LruFacts.put_all_returns.
    + now apply LruFacts.put_all_overflow.
  - intros k v st Hlen Hk. now apply LruFacts.put_full.
  - intros k k' v v' st H2 Hu Hlen Hk Hk'.
    now apply LruFacts.get_then_put.
Qed.

(** The three parts of [lru_discipline] at capacity 2: a put into a full
    cache, the insertion of three keys, and a hit on ["a"] before the put
    of ["c"]. *)
Lemma lru_discipline_witness :
  (0 <= 2)%Z /\
  (exists st',
      _cache_put 2 "c" (sample_result "c")
        (state_with_cache [("a", sample_result "a"); ("b", sample_result "b")])
      = (Returned tt, st') /\
      (Z.of_nat (List.length (_content_cache st')) <= 2)%Z) /\
  _content_cache
    (snd (put_all 2 [("a", sample_result "a"); ("b", sample_result "b");
                     ("c", sample_result "c")] (state_with_cache [])))
  = [("b", sample_result "b"); ("c", sample_result "c")] /\
  PyDict.get "a"
    (_content_cache
       (snd (_cache_put 2 "c" (sample_result "c")
               (snd (_cache_get "a"
                       (state_with_cache
                          [("a", sample_result "a"); ("b", sample_result "b")]))))))
  = Some (sample_result "a").
Proof.
  assert (H0 : (0 <= 2)%Z) by lia.
  destruct (lru_discipline 2 H0) as (Hbound & Hover & _ & Hprot).
  split; [exact H0|]. split; [apply Hbound|]. split.
  - apply (Hover [("a", sample_result "a"); ("b", sample_result "b");
                  ("c", sample_result "c")] (state_with_cache []));
      [reflexivity | distinct_keys | reflexivity].
  - apply (Hprot "a" "c" (sample_result "a") (sample_result "c")
             (state_with_cache
                [("a", sample_result "a"); ("b", sample_result "b")]));
      [lia | distinct_keys | reflexivity | reflexivity | reflexivity].
Defined.

(** C3 as stated fails at capacity 1: the cache holds the single key
    ["a"]; a hit on ["a"] is followed by the put of the fresh key ["b"],
    which evicts ["a"], the key just touched. *)
Lemma lru_touch_unprotected_at_capacity_one :
  let st := state_with_cache [("a", sample_result "a")] in
  let st1 := snd (_cache_get "a" st) in
  let st2 := snd (_cache_put 1 "b" (sample_result "b") st1) in
  fst (_cache_get "a" st) = Returned (Some (sample_result "a")) /\
  _content_cache st1 = [("a", sample_result "a")] /\
  PyDict.contains "a" (_content_cache st2) = false /\
  _content_cache st2 = [("b", sample_result "b")].
Proof. repeat split; reflexivity. Qed.

(** ** Enrichment and the request pipeline *)

Module EnrichFacts.
Import DictFacts CacheFacts.

Section Enrich.
Variable str_lower : string -> string.

Lemma try_fast_path_str (s : string) (st : state) :
  _try_fast_path str_lower (JStr s) st =
  match scan_rules FAST_PATH_MERCHANTS (str_lower s) with
  | Some meta => (Returned (Some meta), incr_fast_path st)
  | None => (Returned None, st)
  end.
Proof.
  unfold _try_fast_path.
  destruct (scan_rules FAST_PATH_MERCHANTS (str_lower s)); reflexivity.
Qed.

(** Only the fast-path counter can change during enrichment. *)
Lemma try_fast_path_state (v : json) (st st' : state)
  (o : outcome (option FastPathRule)) :
  _try_fast_path str_lower v st = (o, st') ->
  st' = st \/ st' = incr_fast_path st.
Proof.
  destruct v as [| | | |s| |];
    try (unfold _try_fast_path, raise; intros [= <- <-]; now left).
  rewrite try_fast_path_str.
  destruct (scan_rules FAST_PATH_MERCHANTS (str_lower s));
    intros [= <- <-]; auto.
Qed.

Lemma enrich_object (d : PyDict.dict json) (st : state) :
  d <> [] ->
  enrich str_lower (JObj d) st =
  match _try_fast_path str_lower (py_or (get_default "merchant" (JStr "") d) (JStr "")) st with
  | (Returned (Some meta), st') => (Returned (JObj (apply_rule meta d)), st')
  | (Returned None, st') => (Returned (JObj d), st')
  | (Raised e, st') => (Raised e, st')
  end.
Proof.
  intros Hd. unfold enrich. destruct d as [|x d]; [congruence|].
  cbn [truthy]. unfold bind.
  destruct (_try_fast_path str_lower _ st) as [[[meta|]|e] st']; reflexivity.
Qed.

Lemma enrich_other (v : json) (st : state) :
  (forall d, v = JObj d -> d = []) -> enrich str_lower v st = (Returned v, st).
Proof.
  intros H. destruct v; try reflexivity.
  rewrite (H fields eq_refl). reflexivity.
Qed.

Lemma enrich_state (v : json) (st st' : state) (o : outcome json) :
  enrich str_lower v st = (o, st') -> st' = st \/ st' = incr_fast_path st.
Proof.
  destruct v; try (intros [= <- <-]; now left).
  destruct fields as [|x d]; [intros [= <- <-]; now left|].
  rewrite enrich_object by discriminate.
  destruct (_try_fast_path str_lower _ st) as [[[meta|]|e] st1] eqn:E;
    intros [= <- <-]; eapply try_fast_path_state; eauto.
Qed.

(** Enrichment turns no value into [None] and leaves [None] alone. *)
Lemma enrich_not_none (v e : json) (st st' : state) :
  enrich str_lower v st = (Returned e, st') -> is_not_none e = is_not_none v.
Proof.
  destruct v; try (intros [= <- <-]; reflexivity).
  destruct fields as [|x d]; [intros [= <- <-]; reflexivity|].
  rewrite enrich_object by discriminate.
  destruct (_try_fast_path str_lower _ st) as [[[meta|]|err] st1];
    intros [= <- <-]; reflexivity.
Qed.

End Enrich.

Lemma is_not_none_iff (v : json) : is_not_none v = true <-> v <> JNull.
Proof. destruct v; simpl; split; congruence. Qed.

End EnrichFacts.

Section PipelineFacts.
Import DictFacts CacheFacts EnrichFacts ParserFacts.

Variable MODEL_ID : string.
Variable MAX_CACHE_SIZE : Z.
Variable str_lower : string -> string.
Variable str_strip : string -> string.
Variable b64decode : string -> option (list Byte.byte).
Variable _sha256 : list Byte.byte -> string.
Variable json_loads : string -> loads_result.
Variable truediv : Z -> Z -> float.
Variable round_ndigits : float -> Z -> float.
Variable temp_file : nat -> string -> list Byte.byte -> temp_file_result.
Variable _generate_from_image :
  nat -> list Byte.byte -> string -> string -> Z -> option raw_output.

Local Abbreviation extract_ :=
  (extract MAX_CACHE_SIZE str_lower str_strip b64decode _sha256 json_loads
     temp_file _generate_from_image).
Local Abbreviation extract_miss_ :=
  (extract_miss MAX_CACHE_SIZE str_lower str_strip json_loads temp_file
     _generate_from_image).
Local Abbreviation extract_try_ :=
  (extract_try MAX_CACHE_SIZE str_lower str_strip json_loads
     _generate_from_image).
Local Abbreviation health_ :=
  (health MODEL_ID MAX_CACHE_SIZE truediv round_ndigits).
Local Abbreviation reachable_ :=
  (reachable MODEL_ID MAX_CACHE_SIZE str_lower str_strip b64decode _sha256
     json_loads truediv round_ndigits temp_file _generate_from_image).

(** Parsing is the decoding of the candidate; it raises what the decoder
    lets through. *)
Lemma parse_output_eq (raw_text : string) :
  exists t, candidate str_strip raw_text = Returned t /\
            parse_output str_strip json_loads raw_text
            = loads_or_none json_loads t.
Proof.
  unfold parse_output.
  destruct (candidate_total str_strip raw_text) as [t ->]. eauto.
Qed.

Lemma loads_or_none_raises (t : string) (e : exn) :
  loads_or_none json_loads t = Raised e ->
  e = RecursionError \/ e = ValueError.
Proof.
  unfold loads_or_none.
  destruct (json_loads t); intros [= <-]; auto; discriminate.
Qed.

Lemma parse_output_raises (raw_text : string) (e : exn) :
  parse_output str_strip json_loads raw_text = Raised e ->
  e = RecursionError \/ e = ValueError.
Proof.
  destruct (parse_output_eq raw_text) as (t & _ & ->).
  apply loads_or_none_raises.
Qed.

Lemma parse_output_invalid (raw_text t : string) :
  candidate str_strip raw_text = Returned t ->
  json_loads t = JSONDecodeError ->
  parse_output str_strip json_loads raw_text = Returned JNull.
Proof.
  intros Hc Hj. unfold parse_output, loads_or_none. now rewrite Hc, Hj.
Qed.

Lemma extract_not_loaded (req : ExtractRequest) (st : state) :
  _model st = false ->
  extract_ req st = (Raised (HTTPException 503 "Model not loaded"), st).
Proof. intros H. unfold extract. run. now rewrite H. Qed.

Lemma extract_bad_image (req : ExtractRequest) (st : state) :
  _model st = true -> b64decode (image req) = None ->
  extract_ req st = (Raised (HTTPException 400 "Invalid base64 image data"), st).
Proof. intros H Hd. unfold extract. run. now rewrite H, Hd. Qed.

Lemma extract_hit (req : ExtractRequest) (st : state)
  (image_bytes : list Byte.byte) (v : result) :
  _model st = true ->
  b64decode (image req) = Some image_bytes ->
  unique_keys (_content_cache st) ->
  PyDict.get (_sha256 image_bytes) (_content_cache st) = Some v ->
  extract_ req st =
  (Returned (mkResponse v hit (PyStr.take 16 (_sha256 image_bytes))),
   incr_hits
     (set_cache
        (PyDict.remove (_sha256 image_bytes) (_content_cache st)
         ++ [(_sha256 image_bytes, v)]) st)).
Proof.
  intros H Hd Hu Hg. unfold extract. unfold bind at 1. unfold gets at 1.
  rewrite H, Hd. cbn [negb]. unfold bind.
  now rewrite (cache_get_present _ v st Hu Hg).
Qed.

Lemma extract_to_miss (req : ExtractRequest) (st : state)
  (image_bytes : list Byte.byte) :
  _model st = true ->
  b64decode (image req) = Some image_bytes ->
  PyDict.get (_sha256 image_bytes) (_content_cache st) = None ->
  extract_ req st = extract_miss_ req image_bytes (_sha256 image_bytes) st.
Proof.
  intros H Hd Hg. unfold extract. unfold bind at 1. unfold gets at 1.
  rewrite H, Hd. cbn [negb]. unfold bind.
  now rewrite (cache_get_absent _ st Hg).
Qed.

(** The [try] block, once the model has answered and the answer is
    parsed. *)
Lemma extract_try_eq (req : ExtractRequest) (image_bytes : list Byte.byte)
  (ext key : string) (st : state) :
  extract_try_ req image_bytes ext key st =
  match _generate_from_image (model_calls st) image_bytes ext
          (prompt_or_default (prompt req)) (max_tokens req) with
  | None => (Raised GenerationError, incr_model_calls st)
  | Some raw =>
      match parse_output str_strip json_loads (text raw) with
      | Raised e => (Raised e, incr_model_calls st)
      | Returned parsed =>
          match enrich str_lower parsed (incr_model_calls st) with
          | (Raised e, st2) => (Raised e, st2)
          | (Returned extracted, st2) =>
              let resp := mkResponse (make_result raw extracted) miss
                            (PyStr.take 16 key) in
              if is_not_none extracted then
                match _cache_put MAX_CACHE_SIZE key
                        (make_result raw extracted) st2 with
                | (Returned _, st3) => (Returned resp, st3)
                | (Raised e, st3) => (Raised e, st3)
                end
              else (Returned resp, st2)
          end
      end
  end.
Proof.
  unfold extract_try, call_model, lift.
  unfold bind at 1. unfold bind at 1. unfold gets at 1.
  unfold bind at 1. unfold modify at 1.
  destruct (_generate_from_image _ _ _ _ _) as [raw|]; [|reflexivity].
  unfold ret at 1.
  unfold bind at 1.
  destruct (parse_output str_strip json_loads (text raw)) as [parsed|e]; [|reflexivity].
  unfold ret at 1. unfold bind at 1.
  destruct (enrich str_lower parsed (incr_model_calls st)) as [[extracted|e] st2];
    [|reflexivity].
  unfold bind at 1.
  destruct (is_not_none extracted).
  - destruct (_cache_put _ _ _ st2) as [[u|e] st3]; reflexivity.
  - reflexivity.
Qed.

(** The miss path, by what becomes of the temporary file. *)
Lemma extract_miss_eq (req : ExtractRequest) (image_bytes : list Byte.byte)
  (key : string) (st : state) :
  exists ext,
    file_extension (mime_type req) = Returned ext /\
    extract_miss_ req image_bytes key st =
    match temp_file (model_calls st) ("." ++ ext) image_bytes with
    | Written => extract_try_ req image_bytes ext key st
    | NotRemoved =>
        (Raised OSError, snd (extract_try_ req image_bytes ext key st))
    | TempValueError => (Raised ValueError, st)
    | TempOSError => (Raised OSError, st)
    end.
Proof.
  destruct (file_extension_total (mime_type req)) as [ext Hext].
  exists ext. split; [exact Hext|].
  unfold extract_miss, lift. rewrite Hext.
  unfold bind at 1. unfold ret at 1.
  unfold bind at 1. unfold gets at 1.
  destruct (temp_file _ _ _); reflexivity.
Qed.

(** *** Invariants of the cache *)

Lemma get_in (k : string) (v : result) (c : PyDict.dict result) :
  PyDict.get k c = Some v -> In (k, v) c.
Proof.
  induction c as [|[k0 v0] c IH]; simpl; [discriminate|].
  destruct (String.eqb_spec k k0) as [->|Hne].
  - intros [= ->]. now left.
  - intros H. right. auto.
Qed.

Lemma forall_remove (P : string * result -> Prop) (k : string)
  (c : PyDict.dict result) :
  Forall P c -> Forall P (PyDict.remove k c).
Proof.
  induction c as [|[k0 v0] c IH]; simpl; [trivial|].
  intros H. inversion H; subst.
  destruct (String.eqb k k0); [assumption | constructor; auto].
Qed.

Lemma forall_skipn (P : string * result -> Prop) (n : nat)
  (c : PyDict.dict result) :
  Forall P c -> Forall P (skipn n c).
Proof.
  intros H. rewrite <- (firstn_skipn n c) in H.
  now apply Forall_app in H.
Qed.

Lemma evict_suffix (max_size : Z) (c : PyDict.dict result) :
  exists n, snd (evict max_size c) = skipn n c.
Proof.
  destruct (Z_le_gt_dec 0 max_size) as [H|H].
  - rewrite evict_spec by exact H. eexists; reflexivity.
  - rewrite evict_negative by lia. exists (List.length c).
    simpl. now rewrite skipn_all.
Qed.

Lemma cache_inv_same_cache (st st' : state) :
  _content_cache st' = _content_cache st -> cache_inv st -> cache_inv st'.
Proof. unfold cache_inv. intros ->. trivial. Qed.

Lemma cache_put_inv (key : string) (value : result) (st : state)
  (o : outcome unit) (st' : state) :
  extraction value <> JNull ->
  cache_inv st ->
  _cache_put MAX_CACHE_SIZE key value st = (o, st') ->
  cache_inv st'.
Proof.
  intros Hv [Hu Hn]. rewrite cache_put_eq. intros [= _ <-].
  cbn [_content_cache set_cache].
  destruct (evict_suffix MAX_CACHE_SIZE (stored key value (_content_cache st)))
    as [n ->].
  split.
  - apply skipn_unique. now apply stored_unique.
  - apply forall_skipn. rewrite stored_old. apply Forall_app. split.
    + now apply forall_remove.
    + constructor; [exact Hv | constructor].
Qed.

Lemma enrich_cache (v : json) (st st' : state) (o : outcome json) :
  enrich str_lower v st = (o, st') ->
  _content_cache st' = _content_cache st /\
  model_calls st' = model_calls st /\
  _model st' = _model st /\
  _cache_hits st' = _cache_hits st /\
  _cache_misses st' = _cache_misses st.
Proof.
  intros H. apply enrich_state in H as [->| ->]; repeat split; reflexivity.
Qed.

Lemma extract_try_inv (req : ExtractRequest) (image_bytes : list Byte.byte)
  (ext key : string) (st : state) :
  cache_inv st -> cache_inv (snd (extract_try_ req image_bytes ext key st)).
Proof.
  intros Hinv. rewrite extract_try_eq.
  destruct (_generate_from_image _ _ _ _ _) as [raw|]; [|exact Hinv].
  destruct (parse_output str_strip json_loads (text raw)) as [parsed|e];
    [|exact Hinv].
  destruct (enrich str_lower parsed (incr_model_calls st))
    as [[extracted|e] st2] eqn:He;
    apply enrich_cache in He as (Hc & _);
    assert (Hinv2 : cache_inv st2)
      by (apply (cache_inv_same_cache st); [rewrite Hc; reflexivity | exact Hinv]).
  + cbv zeta. destruct (is_not_none extracted) eqn:Hnn; [|exact Hinv2].
    destruct (_cache_put _ _ _ st2) as [[u|e] st3] eqn:Hp;
      cbn [snd]; eapply cache_put_inv; eauto;
      cbn [extraction make_result]; now apply is_not_none_iff.
  + exact Hinv2.
Qed.

Lemma extract_inv (req : ExtractRequest) (st : state) :
  cache_inv st -> cache_inv (snd (extract_ req st)).
Proof.
  intros Hinv. destruct (_model st) eqn:Hm.
  2:{ now rewrite extract_not_loaded. }
  destruct (b64decode (image req)) as [image_bytes|] eqn:Hd.
  2:{ now rewrite extract_bad_image. }
  destruct (PyDict.get (_sha256 image_bytes) (_content_cache st)) as [v|] eqn:Hg.
  - destruct Hinv as [Hu Hn].
    rewrite (extract_hit req st image_bytes v Hm Hd Hu Hg).
    cbn [snd]. split; cbn [_content_cache incr_hits set_cache].
    + now apply nodup_moved.
    + apply Forall_app. split; [now apply forall_remove|].
      constructor; [|constructor].
      apply get_in in Hg. unfold no_null_cached in Hn.
      rewrite Forall_forall in Hn. exact (Hn _ Hg).
  - rewrite (extract_to_miss req st image_bytes Hm Hd Hg).
    destruct (extract_miss_eq req image_bytes (_sha256 image_bytes) st)
      as (ext & _ & ->).
    destruct (temp_file _ _ _); cbn [snd];
      try exact Hinv; now apply extract_try_inv.
Qed.

Lemma health_state (st : state) : snd (health_ st) = st.
Proof.
  unfold health, lift, int_truediv. run.
  destruct (Z.max 1 (_cache_hits st + _cache_misses st) =? 0)%Z; reflexivity.
Qed.

(** Every state the process reaches has a cache with unique keys and no
    null extraction. *)
Lemma reachable_inv (st : state) : reachable_ st -> cache_inv st.
Proof.
  induction 1 as [loaded t | s req _ IH | s _ IH].
  - split; [constructor | constructor].
  - now apply extract_inv.
  - now rewrite health_state.
Qed.

(** *** Single steps of [extract] *)

Lemma get_after_evict (key : string) (value : result) (c : PyDict.dict result) :
  (1 <= MAX_CACHE_SIZE)%Z ->
  unique_keys c ->
  PyDict.get key
    (skipn (List.length (stored key value c) - Z.to_nat MAX_CACHE_SIZE)
       (stored key value c)) = Some value.
Proof.
  intros Hmax Hu. rewrite stored_old.
  set (rest := PyDict.remove key c).
  assert (Hn : (List.length (rest ++ [(key, value)]) - Z.to_nat MAX_CACHE_SIZE
                <= List.length rest)%nat).
  { rewrite length_app. simpl. lia. }
  rewrite <- LruFacts.skipn_app_short by exact Hn.
  rewrite get_app.
  assert (Hg : PyDict.get key
                 (skipn (List.length (rest ++ [(key, value)])
                         - Z.to_nat MAX_CACHE_SIZE) rest) = None).
  { apply get_none_not_in. rewrite LruFacts.keys_skipn. intros Hin.
    pose proof (get_remove_same result key c Hu) as Hr.
    apply get_none_not_in in Hr. apply Hr.
    fold rest. rewrite <- (firstn_skipn
      (List.length (rest ++ [(key, value)]) - Z.to_nat MAX_CACHE_SIZE)
      (PyDict.keys rest)).
    apply in_or_app. now right. }
  rewrite Hg. simpl. now rewrite String.eqb_refl.
Qed.

(** With room for at least one entry, what [_cache_put] stores is found
    again under its key. *)
Lemma put_then_get (key : string) (value : result) (st : state) :
  (1 <= MAX_CACHE_SIZE)%Z ->
  unique_keys (_content_cache st) ->
  exists st',
    _cache_put MAX_CACHE_SIZE key value st = (Returned tt, st') /\
    PyDict.get key (_content_cache st') = Some value /\
    unique_keys (_content_cache st') /\
    _model st' = _model st /\
    model_calls st' = model_calls st /\
    _fast_path_hits st' = _fast_path_hits st.
Proof.
  intros Hmax Hu. eexists. split; [apply cache_put_returns; lia|].
  cbn [_content_cache set_cache incr_misses _model model_calls _fast_path_hits].
  split; [now apply get_after_evict|].
  split; [|repeat split].
  apply skipn_unique. now apply stored_unique.
Qed.

Lemma cache_put_frame (key : string) (value : result) (st st' : state)
  (o : outcome unit) :
  _cache_put MAX_CACHE_SIZE key value st = (o, st') ->
  model_calls st' = model_calls st /\ _model st' = _model st /\
  (o = Returned tt \/ o = Raised KeyError).
Proof.
  rewrite cache_put_eq. intros [= <- <-]. repeat split.
  destruct (Z_le_gt_dec 0 MAX_CACHE_SIZE) as [H|H].
  - rewrite evict_spec by exact H. now left.
  - rewrite evict_negative by lia. now right.
Qed.

Lemma enrich_raises (v : json) (st st' : state) (e : exn) :
  enrich str_lower v st = (Raised e, st') -> e = AttributeError.
Proof.
  destruct v; try discriminate.
  destruct fields as [|x d]; [discriminate|].
  rewrite enrich_object by discriminate.
  destruct (py_or (get_default "merchant" (JStr "") (x :: d)) (JStr ""))
    as [| | | |s| |]; try (cbn; intros [= <- _]; reflexivity).
  rewrite try_fast_path_str.
  destruct (scan_rules FAST_PATH_MERCHANTS (str_lower s)); discriminate.
Qed.

(** The [try] block calls the model once, whatever happens afterwards. *)
Lemma extract_try_calls (req : ExtractRequest) (image_bytes : list Byte.byte)
  (ext key : string) (st : state) :
  model_calls (snd (extract_try_ req image_bytes ext key st))
  = S (model_calls st).
Proof.
  rewrite extract_try_eq.
  destruct (_generate_from_image _ _ _ _ _) as [raw|]; [|reflexivity].
  destruct (parse_output str_strip json_loads (text raw)) as [parsed|e];
    [|reflexivity].
  destruct (enrich str_lower parsed (incr_model_calls st))
    as [[extracted|e] st2] eqn:He;
    apply enrich_cache in He as (_ & Hc & _); [|exact Hc].
  cbv zeta. destruct (is_not_none extracted); [|exact Hc].
  destruct (_cache_put _ _ _ st2) as [[u|e] st3] eqn:Hp;
    apply cache_put_frame in Hp as (Hp & _); cbn [snd]; rewrite Hp; exact Hc.
Qed.

(** A miss whose temporary file is created calls the model once, whatever
    happens afterwards. *)
Lemma extract_miss_calls (req : ExtractRequest) (image_bytes : list Byte.byte)
  (key ext : string) (st : state) :
  file_extension (mime_type req) = Returned ext ->
  created (temp_file (model_calls st) ("." ++ ext) image_bytes) = true ->
  model_calls (snd (extract_miss_ req image_bytes key st)) = S (model_calls st).
Proof.
  intros Hext Hw.
  destruct (extract_miss_eq req image_bytes key st) as (ext' & Hext' & ->).
  assert (ext' = ext) by congruence. subst ext'.
  destruct (temp_file _ _ _); try discriminate; cbn [snd];
    apply extract_try_calls.
Qed.

(** A miss whose temporary file is not created raises what the file system
    raised; the model is not called and the state is left alone. *)
Lemma extract_miss_no_file (req : ExtractRequest)
  (image_bytes : list Byte.byte) (key ext : string) (st : state) :
  file_extension (mime_type req) = Returned ext ->
  created (temp_file (model_calls st) ("." ++ ext) image_bytes) = false ->
  exists e, (e = ValueError \/ e = OSError) /\
            extract_miss_ req image_bytes key st = (Raised e, st).
Proof.
  intros Hext Hw.
  destruct (extract_miss_eq req image_bytes key st) as (ext' & Hext' & ->).
  assert (ext' = ext) by congruence. subst ext'.
  destruct (temp_file _ _ _); try discriminate; eauto.
Qed.

(** A miss whose temporary file is created and removed is the [try]
    block. *)
Lemma extract_miss_written (req : ExtractRequest)
  (image_bytes : list Byte.byte) (key ext : string) (st : state) :
  file_extension (mime_type req) = Returned ext ->
  temp_file (model_calls st) ("." ++ ext) image_bytes = Written ->
  extract_miss_ req image_bytes key st
  = extract_try_ req image_bytes ext key st.
Proof.
  intros Hext Hw.
  destruct (extract_miss_eq req image_bytes key st) as (ext' & Hext' & ->).
  assert (ext' = ext) by congruence. subst ext'. now rewrite Hw.
Qed.

(** A miss that answers: the shape of the answer and of the state. *)
Lemma extract_miss_returned (req : ExtractRequest)
  (image_bytes : list Byte.byte) (key : string) (st st' : state)
  (resp : response) :
  extract_miss_ req image_bytes key st = (Returned resp, st') ->
  exists ext raw parsed extracted st2,
    file_extension (mime_type req) = Returned ext /\
    temp_file (model_calls st) ("." ++ ext) image_bytes = Written /\
    _generate_from_image (model_calls st) image_bytes ext
      (prompt_or_default (prompt req)) (max_tokens req) = Some raw /\
    parse_output str_strip json_loads (text raw) = Returned parsed /\
    enrich str_lower parsed (incr_model_calls st) = (Returned extracted, st2) /\
    resp = mkResponse (make_result raw extracted) miss (PyStr.take 16 key) /\
    (if is_not_none extracted
     then _cache_put MAX_CACHE_SIZE key (make_result raw extracted) st2
          = (Returned tt, st')
     else st' = st2).
Proof.
  destruct (extract_miss_eq req image_bytes key st) as (ext & Hext & ->).
  destruct (temp_file _ _ _) eqn:Hw; [|discriminate..].
  rewrite extract_try_eq.
  destruct (_generate_from_image _ _ _ _ _) as [raw|] eqn:Hg; [|discriminate].
  destruct (parse_output str_strip json_loads (text raw)) as [parsed|e] eqn:Hp;
    [|discriminate].
  destruct (enrich str_lower parsed (incr_model_calls st))
    as [[extracted|e] st2] eqn:He; [|discriminate].
  cbv zeta. intros H.
  exists ext, raw, parsed, extracted, st2.
  repeat (split; [assumption || reflexivity|]).
  destruct (is_not_none extracted).
  - destruct (_cache_put _ _ _ st2) as [[[]|e] st3]; [|discriminate].
    injection H as <- <-. auto.
  - injection H as <- <-. auto.
Qed.

(** A model answer that the decoder rejects as invalid JSON: the request
    succeeds with a null extraction, the raw text is kept, and nothing is
    stored. *)
Lemma extract_unparseable (req : ExtractRequest) (st : state)
  (image_bytes : list Byte.byte) (ext t : string) (raw : raw_output) :
  _model st = true ->
  b64decode (image req) = Some image_bytes ->
  PyDict.get (_sha256 image_bytes) (_content_cache st) = None ->
  file_extension (mime_type req) = Returned ext ->
  temp_file (model_calls st) ("." ++ ext) image_bytes = Written ->
  _generate_from_image (model_calls st) image_bytes ext
    (prompt_or_default (prompt req)) (max_tokens req) = Some raw ->
  candidate str_strip (text raw) = Returned t ->
  json_loads t = JSONDecodeError ->
  extract_ req st =
  (Returned (mkResponse (make_result raw JNull) miss
               (PyStr.take 16 (_sha256 image_bytes))),
   incr_model_calls st).
Proof.
  intros Hm Hd Hg Hext Hw Hgen Hc Hj.
  rewrite (extract_to_miss req st image_bytes Hm Hd Hg).
  rewrite (extract_miss_written req image_bytes _ ext st Hext Hw).
  rewrite extract_try_eq, Hgen, (parse_output_invalid (text raw) t Hc Hj).
  reflexivity.
Qed.

Lemma extract_returned (req : ExtractRequest) (st st' : state)
  (resp : response) :
  extract_ req st = (Returned resp, st') ->
  _model st = true /\
  exists image_bytes, b64decode (image req) = Some image_bytes.
Proof.
  intros H. destruct (_model st) eqn:Hm.
  - split; [reflexivity|].
    destruct (b64decode (image req)) as [image_bytes|] eqn:Hd; [eauto|].
    rewrite extract_bad_image in H by assumption. discriminate.
  - rewrite extract_not_loaded in H by assumption. discriminate.
Qed.

(** *** Claims on the pipeline *)

(** C1, as the code has it.  Let a first [extract] call answer with an
    extraction that is not null, in a cache with unique keys and a capacity
    of at least one.  Then a second call whose image decodes to the same
    bytes answers with the same body (so the same extraction and raw text)
    and the same content hash, is tagged [hit], and leaves the count of
    model calls where it was. *)
Theorem second_call_is_a_hit (req1 req2 : ExtractRequest)
  (image_bytes : list Byte.byte) (st st1 : state) (resp1 : response) :
  (1 <= MAX_CACHE_SIZE)%Z ->
  unique_keys (_content_cache st) ->
  b64decode (image req1) = Some image_bytes ->
  b64decode (image req2) = Some image_bytes ->
  extract_ req1 st = (Returned resp1, st1) ->
  extraction (body resp1) <> JNull ->
  exists resp2 st2,
    extract_ req2 st1 = (Returned resp2, st2) /\
    extraction (body resp2) = extraction (body resp1) /\
    raw_text (body resp2) = raw_text (body resp1) /\
    content_hash resp2 = content_hash resp1 /\
    cache resp2 = hit /\
    model_calls st2 = model_calls st1.
Proof.
  intros Hmax Hu Hd1 Hd2 H1 Hnn.
  pose proof (extract_returned req1 st st1 resp1 H1) as (Hm & _).
  assert (Hafter : PyDict.get (_sha256 image_bytes) (_content_cache st1) = Some (body resp1) /\
                   unique_keys (_content_cache st1) /\ _model st1 = true /\
                   content_hash resp1 = PyStr.take 16 (_sha256 image_bytes)).
  { destruct (PyDict.get (_sha256 image_bytes) (_content_cache st)) as [v|] eqn:Hg.
    - rewrite (extract_hit req1 st image_bytes v Hm Hd1 Hu Hg) in H1.
      injection H1 as <- <-.
      cbn [_content_cache incr_hits set_cache _model body content_hash].
      split; [now apply get_moved|].
      split; [now apply nodup_moved|]. auto.
    - rewrite (extract_to_miss req1 st image_bytes Hm Hd1 Hg) in H1.
      apply extract_miss_returned in H1
        as (ext & raw & parsed & extracted & st2 & _ & _ & _ & _ & He & -> & Hput).
      cbn [body extraction make_result content_hash] in *.
      apply is_not_none_iff in Hnn. rewrite Hnn in Hput.
      apply enrich_cache in He as (Hc & _ & Hm2 & _).
      cbn [_model incr_model_calls _content_cache] in Hc, Hm2.
      destruct (put_then_get (_sha256 image_bytes) (make_result raw extracted) st2 Hmax)
        as (st' & Hp & Hget & Hu' & Hm' & _).
      { now rewrite Hc. }
      rewrite Hp in Hput. injection Hput as <-.
      repeat split; try assumption; congruence. }
  destruct Hafter as (Hget & Hu1 & Hm1 & Hh).
  rewrite (extract_hit req2 st1 image_bytes (body resp1) Hm1 Hd2 Hu1 Hget).
  do 2 eexists. split; [reflexivity|].
  cbn [body content_hash cache model_calls incr_hits set_cache].
  repeat split; auto.
Qed.

(** C2, as the code has it.  A model answer that fails to decode leaves the
    cache as it was: a miss that answers with a null extraction stores
    nothing.  In every state the process reaches, a response tagged [hit]
    carries an extraction that is not null.  And after such a failed
    request, a request for the same image bytes is never a hit: it calls the
    model once more when its temporary file is created, and otherwise it
    raises what the file system raised, without a call of the model. *)
Theorem never_cache_null :
  (forall req st image_bytes ext raw t,
      _model st = true ->
      b64decode (image req) = Some image_bytes ->
      PyDict.get (_sha256 image_bytes) (_content_cache st) = None ->
      file_extension (mime_type req) = Returned ext ->
      temp_file (model_calls st) ("." ++ ext) image_bytes = Written ->
      _generate_from_image (model_calls st) image_bytes ext
        (prompt_or_default (prompt req)) (max_tokens req) = Some raw ->
      candidate str_strip (text raw) = Returned t ->
      json_loads t = JSONDecodeError ->
      exists resp st',
        extract_ req st = (Returned resp, st') /\
        extraction (body resp) = JNull /\
        cache resp = miss /\
        _content_cache st' = _content_cache st) /\
  (forall req st resp st',
      extract_ req st = (Returned resp, st') ->
      cache resp = miss ->
      extraction (body resp) = JNull ->
      _content_cache st' = _content_cache st) /\
  (forall req st resp st',
      reachable_ st ->
      extract_ req st = (Returned resp, st') ->
      cache resp = hit ->
      extraction (body resp) <> JNull) /\
  (forall req1 req2 image_bytes ext2 st resp1 st1,
      b64decode (image req1) = Some image_bytes ->
      b64decode (image req2) = Some image_bytes ->
      extract_ req1 st = (Returned resp1, st1) ->
      cache resp1 = miss ->
      extraction (body resp1) = JNull ->
      file_extension (mime_type req2) = Returned ext2 ->
      (forall resp2, fst (extract_ req2 st1) = Returned resp2 ->
                     cache resp2 = miss) /\
      (created (temp_file (model_calls st1) ("." ++ ext2) image_bytes) = true ->
       model_calls (snd (extract_ req2 st1)) = S (model_calls st1)) /\
      (created (temp_file (model_calls st1) ("." ++ ext2) image_bytes) = false ->
       exists e, (e = ValueError \/ e = OSError) /\
                 extract_ req2 st1 = (Raised e, st1))).
Proof.
  assert (Hmiss : forall req st resp st' image_bytes,
             b64decode (image req) = Some image_bytes ->
             extract_ req st = (Returned resp, st') ->
             cache resp = miss ->
             PyDict.get (_sha256 image_bytes) (_content_cache st) = None /\
             extract_miss_ req image_bytes (_sha256 image_bytes) st
             = (Returned resp, st')).
  { intros req st resp st' image_bytes Hd H Hc.
    pose proof (extract_returned req st st' resp H) as (Hm & _).
    destruct (PyDict.get (_sha256 image_bytes) (_content_cache st))
      as [v|] eqn:Hg.
    - exfalso. unfold extract in H. unfold bind at 1 in H.
      unfold gets at 1 in H. rewrite Hm, Hd in H. cbn [negb] in H.
      unfold bind at 1 in H.
      destruct (_cache_get (_sha256 image_bytes) st) as [[[c|]|e] s1] eqn:Eg.
      + unfold ret in H. injection H as <- _. discriminate.
      + unfold _cache_get in Eg. run_in Eg.
        assert (Hc' : PyDict.contains (_sha256 image_bytes) (_content_cache st)
                      = true) by (apply contains_get; eauto).
        rewrite Hc' in Eg.
        destruct (PyDict.move_to_end _ _); [|discriminate].
        destruct (PyDict.get _ _); discriminate.
      + discriminate.
    - split; [reflexivity|].
      now rewrite <- (extract_to_miss req st image_bytes Hm Hd Hg). }
  split; [|split; [|split]].
  - intros req st image_bytes ext raw t Hm Hd Hg Hext Hw Hgen Hc Hj.
    rewrite (extract_unparseable req st image_bytes ext t raw
               Hm Hd Hg Hext Hw Hgen Hc Hj).
    do 2 eexists. split; [reflexivity|]. repeat split.
  - intros req st resp st' H Hc Hnull.
    pose proof (extract_returned req st st' resp H) as (_ & image_bytes & Hd).
    destruct (Hmiss req st resp st' image_bytes Hd H Hc) as (_ & H').
    apply extract_miss_returned in H'
      as (ext & raw & parsed & extracted & st2 & _ & _ & _ & _ & He & -> & Hput).
    cbn [body extraction make_result] in Hnull. subst extracted.
    cbn [is_not_none] in Hput. subst st'.
    now apply enrich_cache in He as (Hc' & _).
  - intros req st resp st' Hr H Hc.
    pose proof (extract_returned req st st' resp H) as (Hm & image_bytes & Hd).
    apply reachable_inv in Hr as [Hu Hn].
    destruct (PyDict.get (_sha256 image_bytes) (_content_cache st))
      as [v|] eqn:Hg.
    + rewrite (extract_hit req st image_bytes v Hm Hd Hu Hg) in H.
      injection H as <- _. cbn [body].
      apply get_in in Hg. unfold no_null_cached in Hn.
      rewrite Forall_forall in Hn. exact (Hn _ Hg).
    + rewrite (extract_to_miss req st image_bytes Hm Hd Hg) in H.
      apply extract_miss_returned in H
        as (ext & raw & parsed & extracted & st2 & _ & _ & _ & _ & _ & -> & _).
      discriminate.
  - intros req1 req2 image_bytes ext2 st resp1 st1 Hd1 Hd2 H Hc Hnull Hext2.
    pose proof (extract_returned req1 st st1 resp1 H) as (Hm & _).
    destruct (Hmiss req1 st resp1 st1 image_bytes Hd1 H Hc) as (Hg & H').
    apply extract_miss_returned in H'
      as (ext & raw & parsed & extracted & st2 & _ & _ & _ & _ & He & -> & Hput).
    cbn [body extraction make_result] in Hnull. subst extracted.
    cbn [is_not_none] in Hput. subst st1.
    apply enrich_cache in He as (Hc' & _ & Hm' & _).
    cbn [_content_cache _model incr_model_calls] in Hc', Hm'.
    assert (Hg2 : PyDict.get (_sha256 image_bytes) (_content_cache st2) = None)
      by congruence.
    assert (Hm2 : _model st2 = true) by congruence.
    rewrite (extract_to_miss req2 st2 image_bytes Hm2 Hd2 Hg2).
    split; [|split].
    + intros resp2 H2.
      destruct (extract_miss_ req2 image_bytes (_sha256 image_bytes) st2)
        as [o st3] eqn:E.
      cbn [fst] in H2. subst o.
      apply extract_miss_returned in E
        as (? & ? & ? & ? & ? & _ & _ & _ & _ & _ & -> & _).
      reflexivity.
    + intros Hw. now apply (extract_miss_calls req2 image_bytes _ ext2).
    + intros Hw. now apply (extract_miss_no_file req2 image_bytes _ ext2).
Qed.

(** The exceptions [extract] can end in. *)
Lemma extract_raises (req : ExtractRequest) (st st' : state) (e : exn) :
  extract_ req st = (Raised e, st') ->
  (_model st = false /\ e = HTTPException 503 "Model not loaded") \/
  (_model st = true /\ b64decode (image req) = None /\
   e = HTTPException 400 "Invalid base64 image data") \/
  (_model st = true /\ b64decode (image req) <> None /\
   (e = ValueError \/ e = OSError \/ e = RecursionError \/
    e = GenerationError \/ e = AttributeError \/ e = KeyError)).
Proof.
  intros H. destruct (_model st) eqn:Hm.
  2:{ rewrite extract_not_loaded in H by assumption.
      injection H as <- _. left. auto. }
  destruct (b64decode (image req)) as [image_bytes|] eqn:Hd.
  2:{ rewrite extract_bad_image in H by assumption.
      injection H as <- _. right. left. auto. }
  right. right. split; [reflexivity|]. split; [discriminate|].
  destruct (PyDict.get (_sha256 image_bytes) (_content_cache st)) as [v|] eqn:Hg.
  - exfalso. unfold extract in H. unfold bind at 1 in H.
    unfold gets at 1 in H. rewrite Hm, Hd in H. cbn [negb] in H.
    unfold bind at 1 in H. unfold _cache_get in H. run_in H.
    assert (Hc : PyDict.contains (_sha256 image_bytes) (_content_cache st)
                 = true) by (apply contains_get; eauto).
    rewrite Hc in H. unfold PyDict.move_to_end in H. rewrite Hg in H.
    destruct (PyDict.get _ _) eqn:Hg2 in H; [discriminate|].
    rewrite get_app in Hg2.
    destruct (PyDict.get (_sha256 image_bytes)
                (PyDict.remove (_sha256 image_bytes) (_content_cache st)));
      [discriminate|].
    simpl in Hg2. rewrite String.eqb_refl in Hg2. discriminate.
  - rewrite (extract_to_miss req st image_bytes Hm Hd Hg) in H.
    destruct (extract_miss_eq req image_bytes (_sha256 image_bytes) st)
      as (ext & _ & Heq).
    rewrite Heq in H. clear Heq.
    destruct (temp_file _ _ _); [|injection H as <- _; auto..].
    rewrite extract_try_eq in H.
    destruct (_generate_from_image _ _ _ _ _) as [raw|].
    2:{ injection H as <- _. auto 7. }
    destruct (parse_output str_strip json_loads (text raw))
      as [parsed|e'] eqn:Hp.
    2:{ injection H as <- _.
        apply parse_output_raises in Hp as [->| ->]; auto 7. }
    destruct (enrich str_lower parsed (incr_model_calls st))
      as [[extracted|e'] st2] eqn:He.
    + cbv zeta in H. destruct (is_not_none extracted); [|discriminate].
      destruct (_cache_put _ _ _ st2) as [[u|e'] st3] eqn:Hput; [discriminate|].
      injection H as <- _.
      apply cache_put_frame in Hput as (_ & _ & [Ho|Ho]);
        [discriminate | injection Ho as ->; auto 7].
    + injection H as <- _. apply enrich_raises in He. auto 7.
Qed.


(** What [_cache_put] leaves in a cache without room. *)
Lemma put_at_capacity_zero (key : string) (value : result) (st : state) :
  MAX_CACHE_SIZE = 0%Z ->
  exists st',
    _cache_put MAX_CACHE_SIZE key value st = (Returned tt, st') /\
    _content_cache st' = [] /\
    _fast_path_hits st' = _fast_path_hits st.
Proof.
  intros H0. eexists. split; [apply cache_put_returns; lia|].
  cbn [_content_cache set_cache incr_misses _fast_path_hits].
  split; [|reflexivity].
  rewrite H0. change (Z.to_nat 0) with 0%nat. rewrite Nat.sub_0_r.
  apply skipn_all.
Qed.


Lemma candidate_example :
  strip_on_ascii str_strip ->
  candidate str_strip example_fenced = Returned merchant_x_json.
Proof.
  intros Hs.
  assert (H : candidate str_strip example_fenced
              = Returned (str_strip (" " ++ merchant_x_json ++ " "))).
  { vm_compute. reflexivity. }
  rewrite H, Hs by reflexivity. reflexivity.
Qed.

(** C5, as the code has it.  If the text holds a JSON-tagged fence marker,
    the candidate is what follows the last such marker, up to the next
    fence marker or to the end of the text when there is none, with white
    space stripped at both ends by [str.strip].  Otherwise, if it holds a
    fence marker, the candidate is what follows the first marker, up to the
    next one or to the end, stripped likewise.  Otherwise it is the whole
    text, as it is.  The text [example_fenced] parses to the object with
    merchant ["X"] whenever the decoder reads [merchant_x_json] so; and a
    text without fences that the decoder rejects as invalid JSON parses to
    null, without raising, and the request answers with a null
    extraction. *)
Theorem fence_stripping_policy :
  (forall text,
      PyStr.str_in json_fence text = true ->
      exists pre after body,
        last_occurrence json_fence text pre after /\
        up_to_next fence after body /\
        candidate str_strip text = Returned (str_strip body)) /\
  (forall text,
      PyStr.str_in json_fence text = false ->
      PyStr.str_in fence text = true ->
      exists pre after body,
        first_occurrence fence text pre after /\
        up_to_next fence after body /\
        candidate str_strip text = Returned (str_strip body)) /\
  (forall text,
      PyStr.str_in fence text = false ->
      candidate str_strip text = Returned text) /\
  (strip_on_ascii str_strip ->
   json_loads merchant_x_json = Decoded (JObj [("merchant", JStr "X")]) ->
   parse_output str_strip json_loads example_fenced
   = Returned (JObj [("merchant", JStr "X")])) /\
  (forall text,
      PyStr.str_in fence text = false ->
      json_loads text = JSONDecodeError ->
      parse_output str_strip json_loads text = Returned JNull) /\
  (forall req st image_bytes ext raw,
      _model st = true ->
      b64decode (image req) = Some image_bytes ->
      PyDict.get (_sha256 image_bytes) (_content_cache st) = None ->
      file_extension (mime_type req) = Returned ext ->
      temp_file (model_calls st) ("." ++ ext) image_bytes = Written ->
      _generate_from_image (model_calls st) image_bytes ext
        (prompt_or_default (prompt req)) (max_tokens req) = Some raw ->
      PyStr.str_in fence (text raw) = false ->
      json_loads (text raw) = JSONDecodeError ->
      exists resp st',
        extract_ req st = (Returned resp, st') /\
        extraction (body resp) = JNull /\
        raw_text (body resp) = text raw).
Proof.
  split; [exact (candidate_json str_strip)|].
  split; [exact (candidate_fence str_strip)|].
  split; [exact (candidate_plain str_strip)|].
  split; [|split].
  - intros Hs H. unfold parse_output, loads_or_none.
    rewrite (candidate_example Hs). now rewrite H.
  - intros text Hf Hj.
    exact (parse_output_invalid text text (candidate_plain str_strip text Hf) Hj).
  - intros req st image_bytes ext raw Hm Hd Hg Hext Hw Hgen Hf Hj.
    rewrite (extract_unparseable req st image_bytes ext (text raw) raw
               Hm Hd Hg Hext Hw Hgen
               (candidate_plain str_strip (text raw) Hf) Hj).
    do 2 eexists. split; [reflexivity|]. split; reflexivity.
Qed.

(** *** The health report *)

Lemma health_eq (st : state) :
  health_ st =
  (Returned
     (mkHealth "ok" "ocr-only" MODEL_ID (round_ndigits (_load_time st) 2)
        (_model st)
        (mkCacheReport (Z.of_nat (List.length (_content_cache st)))
           MAX_CACHE_SIZE (_cache_hits st) (_cache_misses st)
           (_fast_path_hits st)
           (round_ndigits
              (truediv (_cache_hits st)
                 (Z.max 1 (_cache_hits st + _cache_misses st))) 3))),
   st).
Proof.
  unfold health, lift, int_truediv. run.
  destruct (Z.eqb_spec (Z.max 1 (_cache_hits st + _cache_misses st)) 0) as [H|H];
    [lia | reflexivity].
Qed.

(** C10.  The divisor of the hit rate is never zero, so the division of
    [health] does not raise: for all values of the counters [health]
    returns a report and leaves the state alone.  With both counters at
    zero the rate is the rounding of [0 / 1], which is zero as soon as the
    float library divides and rounds zero to zero. *)
Theorem health_never_raises (st : state) :
  round_ndigits (truediv 0 1) 3 = PrimFloat.zero ->
  Z.max 1 (_cache_hits st + _cache_misses st) <> 0%Z /\
  int_truediv truediv (_cache_hits st)
    (Z.max 1 (_cache_hits st + _cache_misses st))
  = Returned (truediv (_cache_hits st)
                (Z.max 1 (_cache_hits st + _cache_misses st))) /\
  exists report,
    health_ st = (Returned report, st) /\
    (_cache_hits st = 0%Z -> _cache_misses st = 0%Z ->
     hit_rate (h_cache report) = PrimFloat.zero).
Proof.
  intros Hzero. split; [lia|]. split.
  - unfold int_truediv.
    destruct (Z.eqb_spec (Z.max 1 (_cache_hits st + _cache_misses st)) 0);
      [lia | reflexivity].
  - eexists. split; [apply health_eq|].
    intros Hh Hmi. cbn [hit_rate h_cache]. rewrite Hh, Hmi. exact Hzero.
Qed.

(** *** Counters *)

Lemma cache_put_counters (key : string) (value : result) (st : state) :
  _cache_hits (snd (_cache_put MAX_CACHE_SIZE key value st)) = _cache_hits st /\
  _cache_misses (snd (_cache_put MAX_CACHE_SIZE key value st))
  = (_cache_misses st + 1)%Z.
Proof. rewrite cache_put_eq. split; reflexivity. Qed.

(** C4, where the code departs from it.  [_cache_get] on an absent key
    returns nothing and changes no counter; the miss counter is only touched
    by [_cache_put].  So a request that answers [miss] with a null
    extraction, for which nothing is stored, leaves both counters where they
    were, and [health] afterwards reports the misses it reported before. *)
Theorem null_miss_is_not_counted (req : ExtractRequest) (st st' : state)
  (resp : response) :
  extract_ req st = (Returned resp, st') ->
  cache resp = miss ->
  extraction (body resp) = JNull ->
  (forall key, PyDict.get key (_content_cache st) = None ->
               _cache_get key st = (Returned None, st)) /\
  _cache_misses st' = _cache_misses st /\
  _cache_hits st' = _cache_hits st /\
  exists report,
    health_ st' = (Returned report, st') /\
    misses (h_cache report) = _cache_misses st /\
    hits (h_cache report) = _cache_hits st.
Proof.
  intros H Hc Hnull.
  split; [intros key Hg; now apply cache_get_absent|].
  assert (Hst : _cache_misses st' = _cache_misses st /\
                _cache_hits st' = _cache_hits st).
  { pose proof (extract_returned req st st' resp H) as (Hm & image_bytes & Hd).
    destruct (PyDict.get (_sha256 image_bytes) (_content_cache st))
      as [v|] eqn:Hg.
    - exfalso. unfold extract in H. unfold bind at 1 in H.
      unfold gets at 1 in H. rewrite Hm, Hd in H. cbn [negb] in H.
      unfold bind at 1 in H.
      destruct (_cache_get (_sha256 image_bytes) st) as [[[c|]|e] s1] eqn:Eg.
      + unfold ret in H. injection H as <- _. discriminate.
      + unfold _cache_get in Eg. run_in Eg.
        assert (Hc' : PyDict.contains (_sha256 image_bytes) (_content_cache st)
                      = true) by (apply contains_get; eauto).
        rewrite Hc' in Eg.
        destruct (PyDict.move_to_end _ _); [|discriminate].
        destruct (PyDict.get _ _); discriminate.
      + discriminate.
    - rewrite (extract_to_miss req st image_bytes Hm Hd Hg) in H.
      apply extract_miss_returned in H
        as (ext & raw & parsed & extracted & st2 & _ & _ & _ & _ & He & -> & Hput).
      cbn [body extraction make_result] in Hnull. subst extracted.
      cbn [is_not_none] in Hput. subst st'.
      apply enrich_cache in He as (_ & _ & _ & Hh & Hmi).
      split; [exact Hmi | exact Hh]. }
  destruct Hst as [Hmi Hh]. split; [exact Hmi|]. split; [exact Hh|].
  eexists. split; [apply health_eq|].
  cbn [misses hits h_cache]. auto.
Qed.

End PipelineFacts.

(** ** The fast path *)

Module FastPathFacts.
Import PyStrFacts DictFacts EnrichFacts.

Section Scan.
Variable str_lower : string -> string.

Lemma occurs_iff (key text : string) :
  occurs_ignoring_case str_lower key text <->
  PyStr.str_in key (str_lower text) = true.
Proof. unfold occurs_ignoring_case. symmetry. apply str_in_iff. Qed.

Lemma not_occurs_iff (key text : string) :
  ~ occurs_ignoring_case str_lower key text <->
  PyStr.str_in key (str_lower text) = false.
Proof.
  rewrite occurs_iff. destruct (PyStr.str_in key (str_lower text));
    split; congruence.
Qed.

Lemma scan_first (rules : list (string * FastPathRule)) (text : string)
  (meta : FastPathRule) :
  scan_rules rules (str_lower text) = Some meta <->
  exists pre key post,
    rules = pre ++ (key, meta) :: post /\
    occurs_ignoring_case str_lower key text /\
    Forall (fun km => ~ occurs_ignoring_case str_lower (fst km) text) pre.
Proof.
  induction rules as [|[k m] rules IH]; simpl.
  - split; [discriminate|]. intros (pre & key & post & H & _).
    destruct pre; discriminate.
  - destruct (PyStr.str_in k (str_lower text)) eqn:E.
    + split.
      * intros [= ->]. exists [], k, rules.
        split; [reflexivity|]. split; [now apply occurs_iff | constructor].
      * intros (pre & key & post & H & Hocc & Hpre).
        destruct pre as [|[k' m'] pre]; simpl in H.
        -- now injection H as _ ->.
        -- injection H as -> -> _. inversion Hpre as [|? ? Hno _]; subst.
           apply not_occurs_iff in Hno. simpl in Hno. congruence.
    + rewrite IH. split.
      * intros (pre & key & post & -> & Hocc & Hpre).
        exists ((k, m) :: pre), key, post.
        split; [reflexivity|]. split; [exact Hocc|].
        constructor; [now apply not_occurs_iff | exact Hpre].
      * intros (pre & key & post & H & Hocc & Hpre).
        destruct pre as [|[k' m'] pre]; simpl in H.
        -- injection H as -> -> _. apply occurs_iff in Hocc. congruence.
        -- injection H as _ _ ->. inversion Hpre; subst.
           exists pre, key, post. auto.
Qed.

Lemma scan_none (rules : list (string * FastPathRule)) (text : string) :
  scan_rules rules (str_lower text) = None <->
  Forall (fun km => ~ occurs_ignoring_case str_lower (fst km) text) rules.
Proof.
  induction rules as [|[k m] rules IH]; simpl.
  - split; [constructor | reflexivity].
  - destruct (PyStr.str_in k (str_lower text)) eqn:E.
    + split; [discriminate|]. intros H. inversion H as [|? ? Hno _]; subst.
      apply not_occurs_iff in Hno. simpl in Hno. congruence.
    + rewrite IH. split.
      * intros H. constructor; [now apply not_occurs_iff | exact H].
      * intros H. now inversion H.
Qed.

End Scan.

Lemma get_or_none_set_other (k k' : string) (v : json) (d : PyDict.dict json) :
  k' <> k -> get_or_none k' (PyDict.set k v d) = get_or_none k' d.
Proof.
  intros H. unfold get_or_none, get_default. now rewrite get_set_other.
Qed.

Lemma populated_truthy (key : string) (d : PyDict.dict json) :
  populated key d <-> truthy (get_or_none key d) = true.
Proof.
  unfold populated, get_or_none, get_default.
  destruct (PyDict.get key d) as [v|].
  - split; [intros (w & [= <-] & H); exact H | eauto].
  - split; [intros (w & H & _); discriminate | discriminate].
Qed.

(** What the three assignments do to each key. *)
Lemma apply_rule_lookup (meta : FastPathRule) (d : PyDict.dict json) :
  PyDict.get "merchant" (apply_rule meta d) = Some (JStr (merchant meta)) /\
  PyDict.get "category" (apply_rule meta d) =
    (if truthy (get_or_none "category" d) then PyDict.get "category" d
     else Some (JStr (category meta))) /\
  PyDict.get "currency" (apply_rule meta d) =
    (if truthy (get_or_none "currency" d) then PyDict.get "currency" d
     else Some (JStr (currency meta))) /\
  (forall k, k <> "merchant"%string -> k <> "category"%string ->
             k <> "currency"%string ->
             PyDict.get k (apply_rule meta d) = PyDict.get k d).
Proof.
  unfold apply_rule.
  rewrite (get_or_none_set_other "merchant" "category") by discriminate.
  destruct (truthy (get_or_none "category" d)) eqn:Ecat; cbn [negb];
    rewrite ?(get_or_none_set_other "category" "currency") by discriminate;
    rewrite (get_or_none_set_other "merchant" "currency") by discriminate;
    destruct (truthy (get_or_none "currency" d)) eqn:Ecur; cbn [negb];
    repeat split;
    intros;
    repeat first
      [ rewrite get_set_same
      | rewrite get_set_other by (discriminate || congruence) ];
    reflexivity.
Qed.

End FastPathFacts.

(** C7, as the code has it.  When a rule matches the merchant of a decoded
    object, enrichment sets the merchant to the rule's display name, keeps
    a category and a currency that are present with a value Python takes as
    true, fills each of the two from the rule when it is absent or present
    with a value Python takes as false (null, [false], zero, an empty
    string, list or object), and changes the value of no other key. *)
Theorem enrichment_is_non_destructive (str_lower : string -> string)
  (d : PyDict.dict json) (meta : FastPathRule) (st st' : state) :
  d <> [] ->
  _try_fast_path str_lower
    (py_or (get_default "merchant" (JStr "") d) (JStr "")) st
  = (Returned (Some meta), st') ->
  enrich str_lower (JObj d) st = (Returned (JObj (apply_rule meta d)), st') /\
  PyDict.get "merchant" (apply_rule meta d) = Some (JStr (merchant meta)) /\
  (forall v, PyDict.get "category" d = Some v -> truthy v = true ->
             PyDict.get "category" (apply_rule meta d) = Some v) /\
  (forall v, PyDict.get "currency" d = Some v -> truthy v = true ->
             PyDict.get "currency" (apply_rule meta d) = Some v) /\
  (PyDict.get "category" d = None ->
   PyDict.get "category" (apply_rule meta d) = Some (JStr (category meta))) /\
  (PyDict.get "currency" d = None ->
   PyDict.get "currency" (apply_rule meta d) = Some (JStr (currency meta))) /\
  (forall v, PyDict.get "category" d = Some v -> truthy v = false ->
             PyDict.get "category" (apply_rule meta d)
             = Some (JStr (category meta))) /\
  (forall v, PyDict.get "currency" d = Some v -> truthy v = false ->
             PyDict.get "currency" (apply_rule meta d)
             = Some (JStr (currency meta))) /\
  (forall k, k <> "merchant"%string -> k <> "category"%string ->
             k <> "currency"%string ->
             PyDict.get k (apply_rule meta d) = PyDict.get k d).
Proof.
  intros Hd Hmatch.
  destruct (FastPathFacts.apply_rule_lookup meta d) as (Hm & Hcat & Hcur & Hk).
  split; [rewrite EnrichFacts.enrich_object by exact Hd; now rewrite Hmatch|].
  split; [exact Hm|].
  unfold get_or_none, get_default in Hcat, Hcur.
  repeat split.
  - intros v Hv Ht. rewrite Hcat. now rewrite Hv, Ht.
  - intros v Hv Ht. rewrite Hcur. now rewrite Hv, Ht.
  - intros Hv. rewrite Hcat. now rewrite Hv.
  - intros Hv. rewrite Hcur. now rewrite Hv.
  - intros v Hv Ht. rewrite Hcat. now rewrite Hv, Ht.
  - intros v Hv Ht. rewrite Hcur. now rewrite Hv, Ht.
  - exact Hk.
Qed.

(** C6, as the code has it.  [_try_fast_path] returns the first rule, in
    the order of the rule list, whose keyword occurs in the text when case
    is ignored, that is, in the text as [str.lower] returns it, and nothing
    when no keyword occurs.  A merchant text in which ["lidl"] occurs and
    neither of the two earlier keywords, ["pingo doce"] and ["continente"],
    does is enriched to merchant ["Lidl"], with category ["Supermercado"]
    and currency ["EUR"] where these are not populated.  A merchant text in
    which no keyword occurs leaves the decoded object and the state as they
    are. *)
Theorem fast_path_first_match (str_lower : string -> string) :
  (forall text st,
      _try_fast_path str_lower (JStr text) st =
      match scan_rules FAST_PATH_MERCHANTS (str_lower text) with
      | Some meta => (Returned (Some meta), incr_fast_path st)
      | None => (Returned None, st)
      end) /\
  (forall rules text meta,
      scan_rules rules (str_lower text) = Some meta <->
      exists pre key post,
        rules = pre ++ (key, meta) :: post /\
        occurs_ignoring_case str_lower key text /\
        Forall (fun km => ~ occurs_ignoring_case str_lower (fst km) text) pre) /\
  (forall rules text,
      scan_rules rules (str_lower text) = None <->
      Forall (fun km => ~ occurs_ignoring_case str_lower (fst km) text) rules) /\
  (forall d text st,
      PyDict.get "merchant" d = Some (JStr text) ->
      occurs_ignoring_case str_lower "lidl" text ->
      ~ occurs_ignoring_case str_lower "pingo doce" text ->
      ~ occurs_ignoring_case str_lower "continente" text ->
      ~ populated "category" d ->
      ~ populated "currency" d ->
      exists d',
        enrich str_lower (JObj d) st = (Returned (JObj d'), incr_fast_path st) /\
        PyDict.get "merchant" d' = Some (JStr "Lidl") /\
        PyDict.get "category" d' = Some (JStr "Supermercado") /\
        PyDict.get "currency" d' = Some (JStr "EUR") /\
        (forall k, k <> "merchant"%string -> k <> "category"%string ->
                   k <> "currency"%string ->
                   PyDict.get k d' = PyDict.get k d)) /\
  (forall d text st,
      PyDict.get "merchant" d = Some (JStr text) ->
      Forall (fun km => ~ occurs_ignoring_case str_lower (fst km) text)
        FAST_PATH_MERCHANTS ->
      enrich str_lower (JObj d) st = (Returned (JObj d), st)).
Proof.
  assert (Hmerchant : forall d text,
             PyDict.get "merchant" d = Some (JStr text) ->
             d <> [] /\
             py_or (get_default "merchant" (JStr "") d) (JStr "") = JStr text).
  { intros d text Hg. split; [intros ->; discriminate|].
    unfold py_or, get_default. rewrite Hg. cbn [truthy].
    destruct (String.eqb_spec text "") as [->|Ht]; reflexivity. }
  split; [exact (EnrichFacts.try_fast_path_str str_lower)|].
  split; [exact (FastPathFacts.scan_first str_lower)|].
  split; [exact (FastPathFacts.scan_none str_lower)|].
  split.
  - intros d text st Hg Hlidl Hpd Hco Hcat Hcur.
    destruct (Hmerchant d text Hg) as (Hd & Hpy).
    assert (Hscan : scan_rules FAST_PATH_MERCHANTS (str_lower text)
                    = Some (mkRule "Lidl" "Supermercado" "EUR")).
    { apply FastPathFacts.scan_first.
      exists [("pingo doce", mkRule "Pingo Doce" "Supermercado" "EUR");
              ("continente", mkRule "Continente" "Supermercado" "EUR")],
        "lidl"%string.
      eexists. split; [reflexivity|]. split; [exact Hlidl|].
      repeat constructor; assumption. }
    exists (apply_rule (mkRule "Lidl" "Supermercado" "EUR") d).
    assert (Hrun : _try_fast_path str_lower
                     (py_or (get_default "merchant" (JStr "") d) (JStr "")) st
                   = (Returned (Some (mkRule "Lidl" "Supermercado" "EUR")),
                      incr_fast_path st)).
    { rewrite Hpy, EnrichFacts.try_fast_path_str. now rewrite Hscan. }
    destruct (FastPathFacts.apply_rule_lookup
                (mkRule "Lidl" "Supermercado" "EUR") d)
      as (Hm & Hc1 & Hc2 & Hk).
    split; [rewrite EnrichFacts.enrich_object by exact Hd; now rewrite Hrun|].
    split; [exact Hm|]. split; [|split; [|exact Hk]].
    + rewrite Hc1.
      destruct (truthy (get_or_none "category" d)) eqn:E; [|reflexivity].
      exfalso. apply Hcat. now apply FastPathFacts.populated_truthy.
    + rewrite Hc2.
      destruct (truthy (get_or_none "currency" d)) eqn:E; [|reflexivity].
      exfalso. apply Hcur. now apply FastPathFacts.populated_truthy.
  - intros d text st Hg Hnone.
    destruct (Hmerchant d text Hg) as (Hd & Hpy).
    apply FastPathFacts.scan_none in Hnone.
    rewrite EnrichFacts.enrich_object by exact Hd.
    rewrite Hpy, EnrichFacts.try_fast_path_str. now rewrite Hnone.
Qed.

(** * The claims on concrete requests

    The handlers run over the test doubles of [Demo], with the ASCII
    functions for the two string methods.  The image ["aGk="] decodes to
    the two bytes of ["hi"]. *)

(** [second_call_is_a_hit] on a receipt the model reads as JSON: the first
    call stores the enriched result, the second call is a hit. *)
Lemma second_call_is_a_hit_witness :
  exists resp1 st1,
    demo_extract [lidl_receipt] (demo_request "aGk=") Demo.ready_state
    = (Returned resp1, st1) /\
    extraction (body resp1) <> JNull /\
    exists resp2 st2,
      demo_extract [lidl_receipt] (demo_request "aGk=") st1
      = (Returned resp2, st2) /\
      extraction (body resp2) = extraction (body resp1) /\
      raw_text (body resp2) = raw_text (body resp1) /\
      content_hash resp2 = content_hash resp1 /\
      cache resp2 = hit /\
      model_calls st2 = model_calls st1.
Proof.
  do 2 eexists. split; [vm_compute; reflexivity|].
  split; [discriminate|].
  apply (second_call_is_a_hit 256 PyStr.ascii_lower PyStr.ascii_strip
           Demo.b64decode Demo.hexdigest Demo.json_loads Demo.temp_file
           (Demo.scripted [lidl_receipt])
           (demo_request "aGk=") (demo_request "aGk=")
           [Byte.x68; Byte.x69] Demo.ready_state).
  - lia.
  - constructor.
  - reflexivity.
  - reflexivity.
  - vm_compute. reflexivity.
  - discriminate.
Defined.

(** C1 as stated fails when the model's text does not decode: nothing is
    stored, so the second call on the same image is a miss, calls the model
    again, and returns the new raw text. *)
Lemma second_call_misses_after_failed_parse :
  let script := ["no json here"; "still none"]%string in
  let first := demo_extract script (demo_request "aGk=") Demo.ready_state in
  let second := demo_extract script (demo_request "aGk=") (snd first) in
  (exists resp1 resp2,
      fst first = Returned resp1 /\ fst second = Returned resp2 /\
      cache resp2 = miss /\
      raw_text (body resp2) <> raw_text (body resp1)) /\
  model_calls (snd first) = 1%nat /\
  model_calls (snd second) = 2%nat.
Proof.
  split; [|split; vm_compute; reflexivity].
  do 2 eexists. split; [vm_compute; reflexivity|].
  split; [vm_compute; reflexivity|].
  split; [reflexivity | discriminate].
Qed.

(** [never_cache_null] on a model that answers without JSON twice: the
    first request stores nothing; the second calls the model again when it
    names a file type the file system takes, and raises [ValueError] with
    no call of the model when its file type holds a null character. *)
Lemma never_cache_null_witness :
  let script := ["no json here"; "still none"]%string in
  let first := demo_extract script (demo_request "aGk=") Demo.ready_state in
  (exists resp st',
      first = (Returned resp, st') /\
      extraction (body resp) = JNull /\
      cache resp = miss /\
      _content_cache st' = _content_cache Demo.ready_state) /\
  model_calls (snd (demo_extract script (demo_request "aGk=") (snd first)))
  = S (model_calls (snd first)) /\
  exists e, (e = ValueError \/ e = OSError) /\
            demo_extract script (request_with_null_suffix "aGk=") (snd first)
            = (Raised e, snd first).
Proof.
  intros script first.
  destruct (never_cache_null "demo-model" 256 PyStr.ascii_lower
              PyStr.ascii_strip Demo.b64decode Demo.hexdigest Demo.json_loads
              Demo.truediv Demo.round_ndigits Demo.temp_file
              (Demo.scripted script))
    as (Hfail & _ & _ & Hagain).
  split; [|split].
  - apply (Hfail (demo_request "aGk=") Demo.ready_state [Byte.x68; Byte.x69]
             "jpg"%string (mkRaw "no json here" PrimFloat.one None None)
             "no json here"%string); reflexivity.
  - apply (Hagain (demo_request "aGk=") (demo_request "aGk=")
             [Byte.x68; Byte.x69] "jpg"%string Demo.ready_state
             (mkResponse
                (make_result (mkRaw "no json here" PrimFloat.one None None) JNull)
                miss "6869")
             (snd first)); reflexivity.
  - apply (Hagain (demo_request "aGk=") (request_with_null_suffix "aGk=")
             [Byte.x68; Byte.x69] (String (ascii_of_nat 0) "")
             Demo.ready_state
             (mkResponse
                (make_result (mkRaw "no json here" PrimFloat.one None None) JNull)
                miss "6869")
             (snd first)); reflexivity.
Defined.

(** C2 as stated fails on a repeat whose file type the file system refuses:
    the first request answers with a null extraction and stores nothing;
    the second, for the same image bytes, has a null character in its file
    type, so the temporary file is not created and the request ends in
    [ValueError] before the model is called. *)
Lemma repeat_with_null_suffix_skips_model :
  let script := ["no json here"; "still none"]%string in
  let first := demo_extract script (demo_request "aGk=") Demo.ready_state in
  let second :=
    demo_extract script (request_with_null_suffix "aGk=") (snd first) in
  Demo.b64decode (image (demo_request "aGk="))
  = Demo.b64decode (image (request_with_null_suffix "aGk=")) /\
  (exists resp1,
      fst first = Returned resp1 /\ cache resp1 = miss /\
      extraction (body resp1) = JNull) /\
  _content_cache (snd first) = [] /\
  model_calls (snd first) = 1%nat /\
  fst second = Raised ValueError /\
  model_calls (snd second) = 1%nat.
Proof.
  split; [reflexivity|]. split.
  - eexists. split; [vm_compute; reflexivity|]. split; reflexivity.
  - repeat split; vm_compute; reflexivity.
Qed.





Lemma ascii_strip_on_ascii : strip_on_ascii PyStr.ascii_strip.
Proof. intros s _. reflexivity. Qed.

Lemma ascii_lower_on_ascii : lower_on_ascii PyStr.ascii_lower.
Proof. intros s _. reflexivity. Qed.

(** [fence_stripping_policy] on the fenced example and on a text without
    fences that is no JSON. *)
Lemma fence_stripping_policy_witness :
  parse_output PyStr.ascii_strip Demo.json_loads example_fenced
  = Returned (JObj [("merchant", JStr "X")]) /\
  parse_output PyStr.ascii_strip Demo.json_loads "no json here"
  = Returned JNull /\
  exists pre after body,
    last_occurrence json_fence two_blocks pre after /\
    up_to_next fence after body /\
    candidate PyStr.ascii_strip two_blocks
    = Returned (PyStr.ascii_strip body).
Proof.
  destruct (fence_stripping_policy 256 PyStr.ascii_lower PyStr.ascii_strip
              Demo.b64decode Demo.hexdigest Demo.json_loads Demo.temp_file
              (Demo.scripted []))
    as (Hjson & _ & _ & Hexample & Hplain & _).
  split; [apply Hexample; [exact ascii_strip_on_ascii | reflexivity]|].
  split; [apply Hplain; reflexivity|].
  apply Hjson. reflexivity.
Defined.

(** C5 as stated fails on a text with two JSON-tagged blocks: the content
    between the first marker and the next fence is the first block, the
    candidate the code selects is the second block, stripped, so that the
    decoded values differ; and the candidate is not the verbatim content
    after either marker. *)
Lemma candidate_is_last_block_stripped :
  candidate PyStr.ascii_strip two_blocks
  = Returned ("{" ++ quoted "b" ++ ":2}")%string /\
  between_leftmost json_fence fence two_blocks
  = Some (" {" ++ quoted "a" ++ ":1} ")%string /\
  between_rightmost json_fence fence two_blocks
  = Some (" {" ++ quoted "b" ++ ":2} ")%string /\
  between_leftmost json_fence fence two_blocks
  <> Some ("{" ++ quoted "b" ++ ":2}")%string /\
  between_rightmost json_fence fence two_blocks
  <> Some ("{" ++ quoted "b" ++ ":2}")%string /\
  parse_output PyStr.ascii_strip Demo.json_loads two_blocks
  = Returned (JObj [("b", JInt 2)]) /\
  Demo.json_loads (" {" ++ quoted "a" ++ ":1} ")
  = Decoded (JObj [("a", JInt 1)]).
Proof.
  repeat split; try (vm_compute; reflexivity); vm_compute; discriminate.
Qed.

(** [null_miss_is_not_counted] on two requests for the same image whose
    model text does not decode: both are tagged [miss], the model is called
    twice, and [health] reports no miss and no hit. *)
Lemma null_miss_is_not_counted_witness :
  let script := ["no json here"; "still none"]%string in
  let first := demo_extract script (demo_request "aGk=") Demo.ready_state in
  let second := demo_extract script (demo_request "aGk=") (snd first) in
  (exists resp1 resp2,
      fst first = Returned resp1 /\ cache resp1 = miss /\
      fst second = Returned resp2 /\ cache resp2 = miss) /\
  model_calls (snd second) = 2%nat /\
  exists report,
    demo_health (snd second) = (Returned report, snd second) /\
    misses (h_cache report) = 0%Z /\
    hits (h_cache report) = 0%Z.
Proof.
  intros script first second.
  split; [|split; [vm_compute; reflexivity|]].
  - do 2 eexists. split; [vm_compute; reflexivity|].
    split; [reflexivity|]. split; [vm_compute; reflexivity | reflexivity].
  - destruct (null_miss_is_not_counted "demo-model" 256 PyStr.ascii_lower
                PyStr.ascii_strip Demo.b64decode Demo.hexdigest
                Demo.json_loads Demo.truediv Demo.round_ndigits
                Demo.temp_file (Demo.scripted script)
                (demo_request "aGk=") (snd first) (snd second)
                (mkResponse
                   (make_result (mkRaw "still none" PrimFloat.one None None)
                      JNull)
                   miss "6869"))
      as (_ & _ & _ & report & Hrun & Hmi & Hh);
      [vm_compute; reflexivity | reflexivity | reflexivity |].
    exists report. split; [exact Hrun|]. split; [exact Hmi | exact Hh].
Defined.

(** [fast_path_first_match] on the merchant text ["LIDL Portugal"]. *)
Lemma fast_path_first_match_witness :
  exists d',
    enrich PyStr.ascii_lower
      (JObj [("merchant", JStr "LIDL Portugal"); ("total", JInt 12)])
      Demo.ready_state
    = (Returned (JObj d'), incr_fast_path Demo.ready_state) /\
    PyDict.get "merchant" d' = Some (JStr "Lidl") /\
    PyDict.get "category" d' = Some (JStr "Supermercado") /\
    PyDict.get "currency" d' = Some (JStr "EUR") /\
    PyDict.get "total" d' = Some (JInt 12).
Proof.
  destruct (proj1 (proj2 (proj2 (proj2
              (fast_path_first_match PyStr.ascii_lower))))
              [("merchant", JStr "LIDL Portugal"); ("total", JInt 12)]
              "LIDL Portugal"%string Demo.ready_state)
    as (d' & Hrun & Hm & Hcat & Hcur & Hk).
  - reflexivity.
  - exists ""%string, " portugal"%string. reflexivity.
  - apply FastPathFacts.not_occurs_iff. reflexivity.
  - apply FastPathFacts.not_occurs_iff. reflexivity.
  - intros (v & H & _). discriminate.
  - intros (v & H & _). discriminate.
  - exists d'. repeat (split; [assumption|]).
    rewrite Hk by discriminate. reflexivity.
Defined.

(** C6 as stated fails on a merchant text that holds ["lidl"] after an
    earlier keyword: the text is enriched to the earlier rule's merchant,
    not to ["Lidl"].  The text is ASCII, on which [str.lower] is the ASCII
    function. *)
Lemma lidl_after_continente_is_continente :
  PyStr.is_ascii "Continente Lidl" = true /\
  occurs_ignoring_case PyStr.ascii_lower "lidl" "Continente Lidl" /\
  enrich PyStr.ascii_lower (JObj [("merchant", JStr "Continente Lidl")])
    Demo.ready_state
  = (Returned
       (JObj [("merchant", JStr "Continente");
              ("category", JStr "Supermercado");
              ("currency", JStr "EUR")]),
     incr_fast_path Demo.ready_state).
Proof.
  split; [reflexivity|].
  split; [exists "continente "%string, ""%string; reflexivity | reflexivity].
Qed.

(** [enrichment_is_non_destructive] on an object whose category the model
    set and whose currency it left empty: the merchant is rewritten, the
    category is kept, the currency is filled in, the total is untouched. *)
Lemma enrichment_is_non_destructive_witness :
  let d := [("merchant", JStr "lidl"); ("category", JStr "Outros");
            ("currency", JStr ""); ("total", JInt 3)] in
  let meta := mkRule "Lidl" "Supermercado" "EUR" in
  enrich PyStr.ascii_lower (JObj d) Demo.ready_state
  = (Returned (JObj (apply_rule meta d)), incr_fast_path Demo.ready_state) /\
  PyDict.get "merchant" (apply_rule meta d) = Some (JStr "Lidl") /\
  PyDict.get "category" (apply_rule meta d) = Some (JStr "Outros") /\
  PyDict.get "currency" (apply_rule meta d) = Some (JStr "EUR") /\
  PyDict.get "total" (apply_rule meta d) = Some (JInt 3).
Proof.
  intros d meta.
  destruct (enrichment_is_non_destructive PyStr.ascii_lower d meta
              Demo.ready_state (incr_fast_path Demo.ready_state))
    as (Hrun & Hm & Hcat & _ & _ & _ & _ & Hcur & Hother);
    [discriminate | reflexivity |].
  split; [exact Hrun|]. split; [exact Hm|].
  split; [apply Hcat; reflexivity|].
  split; [apply (Hcur (JStr "")); reflexivity|].
  apply (Hother "total"%string); discriminate.
Defined.

(** C7 as stated fails on a category and a currency that are present with
    a value Python takes as false: the empty category and the zero currency
    the model set are both replaced by the rule's. *)
Lemma falsy_category_is_overwritten :
  let d := [("merchant", JStr "lidl"); ("category", JStr "");
            ("currency", JInt 0)] in
  PyDict.get "category" d = Some (JStr "") /\
  PyDict.get "currency" d = Some (JInt 0) /\
  enrich PyStr.ascii_lower (JObj d) Demo.ready_state
  = (Returned
       (JObj [("merchant", JStr "Lidl");
              ("category", JStr "Supermercado");
              ("currency", JStr "EUR")]),
     incr_fast_path Demo.ready_state).
Proof. repeat split. Qed.

(** [health_never_raises] on a fresh state, with the float doubles. *)
Lemma health_never_raises_witness :
  Demo.round_ndigits (Demo.truediv 0 1) 3 = PrimFloat.zero /\
  exists report,
    demo_health Demo.ready_state = (Returned report, Demo.ready_state) /\
    hit_rate (h_cache report) = PrimFloat.zero.
Proof.
  assert (Hzero : Demo.round_ndigits (Demo.truediv 0 1) 3 = PrimFloat.zero)
    by (vm_compute; reflexivity).
  split; [exact Hzero|].
  destruct (health_never_raises "demo-model" 256 Demo.truediv
              Demo.round_ndigits Demo.ready_state Hzero)
    as (_ & _ & report & Hrun & Hrate).
  exists report. split; [exact Hrun | apply Hrate; reflexivity].
Defined.

(** * Further properties of the sidecar *)

Section PipelineExtras.
Import DictFacts CacheFacts EnrichFacts ParserFacts.

Variable MODEL_ID : string.
Variable MAX_CACHE_SIZE : Z.
Variable str_lower : string -> string.
Variable str_strip : string -> string.
Variable b64decode : string -> option (list Byte.byte).
Variable _sha256 : list Byte.byte -> string.
Variable json_loads : string -> loads_result.
Variable truediv : Z -> Z -> float.
Variable round_ndigits : float -> Z -> float.
Variable temp_file : nat -> string -> list Byte.byte -> temp_file_result.
Variable _generate_from_image :
  nat -> list Byte.byte -> string -> string -> Z -> option raw_output.

Local Abbreviation extract_ :=
  (extract MAX_CACHE_SIZE str_lower str_strip b64decode _sha256 json_loads
     temp_file _generate_from_image).
Local Abbreviation extract_miss_ :=
  (extract_miss MAX_CACHE_SIZE str_lower str_strip json_loads temp_file
     _generate_from_image).
Local Abbreviation extract_try_ :=
  (extract_try MAX_CACHE_SIZE str_lower str_strip json_loads
     _generate_from_image).
Local Abbreviation health_ :=
  (health MODEL_ID MAX_CACHE_SIZE truediv round_ndigits).
Local Abbreviation reachable_ :=
  (reachable MODEL_ID MAX_CACHE_SIZE str_lower str_strip b64decode _sha256
     json_loads truediv round_ndigits temp_file _generate_from_image).
Local Abbreviation serves_ :=
  (serves MODEL_ID MAX_CACHE_SIZE str_lower str_strip b64decode _sha256
     json_loads truediv round_ndigits temp_file _generate_from_image).
Local Abbreviation extract_hit_ :=
  (extract_hit MAX_CACHE_SIZE str_lower str_strip b64decode _sha256
     json_loads temp_file _generate_from_image).
Local Abbreviation extract_to_miss_ :=
  (extract_to_miss MAX_CACHE_SIZE str_lower str_strip b64decode _sha256
     json_loads temp_file _generate_from_image).
Local Abbreviation extract_miss_eq_ :=
  (extract_miss_eq MAX_CACHE_SIZE str_lower str_strip json_loads temp_file
     _generate_from_image).
Local Abbreviation extract_not_loaded_ :=
  (extract_not_loaded MAX_CACHE_SIZE str_lower str_strip b64decode _sha256
     json_loads temp_file _generate_from_image).
Local Abbreviation extract_bad_image_ :=
  (extract_bad_image MAX_CACHE_SIZE str_lower str_strip b64decode _sha256
     json_loads temp_file _generate_from_image).

(** The two ways in which the [try] block can change the state: by a miss
    that stores nothing, by a miss that stores. *)
Lemma extract_try_state (req : ExtractRequest) (image_bytes : list Byte.byte)
  (ext : string) (st : state) :
  (exists st2,
      after_model st st2 /\
      snd (extract_try_ req image_bytes ext (_sha256 image_bytes) st) = st2) \/
  (exists st2 k v,
      after_model st st2 /\
      status v = "ok"%string /\ extraction v <> JNull /\
      snd (extract_try_ req image_bytes ext (_sha256 image_bytes) st) =
      set_cache (snd (evict MAX_CACHE_SIZE (stored k v (_content_cache st))))
        (incr_misses st2)).
Proof.
  rewrite extract_try_eq.
  destruct (_generate_from_image _ _ _ _ _) as [raw|].
  2:{ left. exists (incr_model_calls st). split; [now left | reflexivity]. }
  destruct (parse_output str_strip json_loads (text raw)) as [parsed|e].
  2:{ left. exists (incr_model_calls st). split; [now left | reflexivity]. }
  destruct (enrich str_lower parsed (incr_model_calls st))
    as [[extracted|e] st2] eqn:He;
    pose proof (enrich_state _ _ _ _ _ He) as Hst.
  + cbv zeta. destruct (is_not_none extracted) eqn:Hnn.
    * right. exists st2, (_sha256 image_bytes), (make_result raw extracted).
      split; [exact Hst|]. split; [reflexivity|].
      split; [now apply is_not_none_iff|].
      apply enrich_cache in He as (Hc & _).
      cbn [_content_cache incr_model_calls] in Hc.
      rewrite cache_put_eq, Hc.
      destruct (evict _ _) as [[[]|e] c4]; reflexivity.
    * left. exists st2. split; [exact Hst | reflexivity].
  + left. exists st2. split; [exact Hst | reflexivity].
Qed.

(** The four ways in which [extract] can change the state: not at all, by
    a hit, by a miss that stores nothing, by a miss that stores. *)
Lemma extract_state (req : ExtractRequest) (st : state) :
  unique_keys (_content_cache st) ->
  snd (extract_ req st) = st \/
  (exists k v,
      PyDict.get k (_content_cache st) = Some v /\
      snd (extract_ req st) =
      incr_hits (set_cache (PyDict.remove k (_content_cache st) ++ [(k, v)]) st)) \/
  (exists st2, after_model st st2 /\ snd (extract_ req st) = st2) \/
  (exists st2 k v,
      after_model st st2 /\
      status v = "ok"%string /\ extraction v <> JNull /\
      snd (extract_ req st) =
      set_cache (snd (evict MAX_CACHE_SIZE (stored k v (_content_cache st))))
        (incr_misses st2)).
Proof.
  intros Hu. destruct (_model st) eqn:Hm.
  2:{ left. now rewrite extract_not_loaded_. }
  destruct (b64decode (image req)) as [image_bytes|] eqn:Hd.
  2:{ left. now rewrite extract_bad_image_. }
  destruct (PyDict.get (_sha256 image_bytes) (_content_cache st)) as [v|] eqn:Hg.
  - right. left. exists (_sha256 image_bytes), v. split; [exact Hg|].
    now rewrite (extract_hit_ req st image_bytes v Hm Hd Hu Hg).
  - rewrite (extract_to_miss_ req st image_bytes Hm Hd Hg).
    destruct (extract_miss_eq_ req image_bytes (_sha256 image_bytes) st)
      as (ext & _ & ->).
    destruct (temp_file _ _ _); cbn [snd]; try (now left);
      right; right; apply extract_try_state.
Qed.

(** *** Invariants of the reachable states *)

Lemma length_moved (k : string) (v : result) (c : PyDict.dict result) :
  PyDict.get k c = Some v ->
  List.length (PyDict.remove k c ++ [(k, v)]) = List.length c.
Proof.
  intros H. rewrite length_app. simpl.
  pose proof (length_remove result k c v H). lia.
Qed.

Lemma evict_shrinks (c : PyDict.dict result) :
  (List.length (snd (evict MAX_CACHE_SIZE c)) <= List.length c)%nat.
Proof.
  destruct (evict_suffix MAX_CACHE_SIZE c) as [n ->].
  rewrite length_skipn. lia.
Qed.

Lemma evict_bounded (c : PyDict.dict result) :
  (0 <= MAX_CACHE_SIZE)%Z ->
  (Z.of_nat (List.length (snd (evict MAX_CACHE_SIZE c))) <= MAX_CACHE_SIZE)%Z.
Proof.
  intros H. rewrite evict_spec by exact H. cbn [snd].
  rewrite length_skipn. lia.
Qed.

(** X1.  With a capacity that is not negative, the cache of every state
    the process reaches holds at most [MAX_CACHE_SIZE] entries, hits and
    failed requests included, and [health] reports a size no larger than
    the maximum. *)
Theorem cache_never_exceeds_capacity (st : state) :
  (0 <= MAX_CACHE_SIZE)%Z ->
  reachable_ st ->
  (Z.of_nat (List.length (_content_cache st)) <= MAX_CACHE_SIZE)%Z /\
  exists report,
    health_ st = (Returned report, st) /\
    (size (h_cache report) <= max_size (h_cache report))%Z.
Proof.
  intros Hmax Hr.
  assert (Hsize : (Z.of_nat (List.length (_content_cache st))
                   <= MAX_CACHE_SIZE)%Z).
  { induction Hr as [loaded t | s req Hr IH | s Hr IH].
    - simpl. exact Hmax.
    - pose proof (reachable_inv _ _ _ _ _ _ _ _ _ _ _ _ Hr) as [Hu _].
      destruct (extract_state req s Hu)
        as [-> | [(k & v & Hg & ->) | [(st2 & [-> | ->] & ->)
           | (st2 & k & v & _ & _ & _ & ->)]]];
        cbn [_content_cache incr_hits set_cache incr_model_calls
             incr_fast_path incr_misses];
        try exact IH.
      + now rewrite (length_moved k v _ Hg).
      + now apply evict_bounded.
    - now rewrite health_state. }
  split; [exact Hsize|].
  eexists. split; [apply health_eq|]. exact Hsize.
Qed.

(** X2.  In every state the process reaches, the counters are not
    negative, the cache holds no more entries than misses were counted, and
    neither the misses nor the fast-path hits exceed the number of model
    calls: nothing is stored or enriched without a model call before it. *)
Theorem counters_are_ordered (st : state) :
  reachable_ st ->
  (0 <= _cache_hits st)%Z /\
  (0 <= _fast_path_hits st)%Z /\
  (Z.of_nat (List.length (_content_cache st)) <= _cache_misses st)%Z /\
  (_cache_misses st <= Z.of_nat (model_calls st))%Z /\
  (_fast_path_hits st <= Z.of_nat (model_calls st))%Z.
Proof.
  intros Hr. induction Hr as [loaded t | s req Hr IH | s Hr IH].
  - simpl. lia.
  - pose proof (reachable_inv _ _ _ _ _ _ _ _ _ _ _ _ Hr) as [Hu _].
    destruct IH as (Hh & Hf & Hs & Hm & Hfm).
    destruct (extract_state req s Hu)
      as [-> | [(k & v & Hg & ->) | [(st2 & [-> | ->] & ->)
         | (st2 & k & v & Hst & _ & _ & ->)]]];
      cbn [_content_cache _cache_hits _cache_misses _fast_path_hits
           model_calls incr_hits set_cache incr_model_calls incr_fast_path
           incr_misses];
      try (rewrite ?(length_moved k v _ Hg); repeat split; lia).
    pose proof (evict_shrinks (stored k v (_content_cache s))) as Hev.
    assert (Hst' : (List.length (stored k v (_content_cache s))
                    <= S (List.length (_content_cache s)))%nat).
    { rewrite stored_length. destruct (PyDict.get k (_content_cache s)); lia. }
    destruct Hst as [-> | ->];
      cbn [_content_cache _cache_hits _cache_misses _fast_path_hits
           model_calls incr_model_calls incr_fast_path];
      repeat split; lia.
  - now rewrite health_state.
Qed.

Lemma reachable_all_ok (st : state) :
  reachable_ st -> all_ok (_content_cache st).
Proof.
  intros Hr. induction Hr as [loaded t | s req Hr IH | s Hr IH].
  - constructor.
  - pose proof (reachable_inv _ _ _ _ _ _ _ _ _ _ _ _ Hr) as [Hu _].
    unfold all_ok in *.
    destruct (extract_state req s Hu)
      as [-> | [(k & v & Hg & ->) | [(st2 & [-> | ->] & ->)
         | (st2 & k & v & _ & Hok & _ & ->)]]];
      cbn [_content_cache incr_hits set_cache incr_model_calls
           incr_fast_path incr_misses];
      try exact IH.
    + apply Forall_app. split; [now apply forall_remove|].
      constructor; [|constructor].
      apply get_in in Hg. rewrite Forall_forall in IH. exact (IH _ Hg).
    + destruct (evict_suffix MAX_CACHE_SIZE (stored k v (_content_cache s)))
        as [n ->].
      apply forall_skipn. rewrite stored_old. apply Forall_app.
      split; [now apply forall_remove | constructor; [exact Hok | constructor]].
  - now rewrite health_state.
Qed.

(** X3.  In every state the process reaches, whatever [extract] answers
    carries the status ["ok"], whether the answer is computed or replayed
    from the cache; a computed answer carries the model's text as raw text
    and the model's figures as statistics. *)
Theorem responses_are_ok (req : ExtractRequest) (st st' : state)
  (resp : response) :
  reachable_ st ->
  extract_ req st = (Returned resp, st') ->
  status (body resp) = "ok"%string /\
  (cache resp = miss ->
   exists ext image_bytes raw,
     file_extension (mime_type req) = Returned ext /\
     b64decode (image req) = Some image_bytes /\
     _generate_from_image (model_calls st) image_bytes ext
       (prompt_or_default (prompt req)) (max_tokens req) = Some raw /\
     raw_text (body resp) = text raw /\
     stats (body resp) =
       mkStats (generation_time_s raw) (tokens_per_second raw)
         (peak_memory_gb raw)).
Proof.
  intros Hr H.
  pose proof (reachable_inv _ _ _ _ _ _ _ _ _ _ _ _ Hr) as [Hu _].
  pose proof (reachable_all_ok st Hr) as Hok.
  pose proof (extract_returned _ _ _ _ _ _ _ _ req st st' resp H)
    as (Hm & image_bytes & Hd).
  destruct (PyDict.get (_sha256 image_bytes) (_content_cache st)) as [v|] eqn:Hg.
  - rewrite (extract_hit_ req st image_bytes v Hm Hd Hu Hg) in H.
    injection H as <- _. cbn [body cache]. split; [|discriminate].
    apply get_in in Hg. unfold all_ok in Hok.
    rewrite Forall_forall in Hok. exact (Hok _ Hg).
  - rewrite (extract_to_miss_ req st image_bytes Hm Hd Hg) in H.
    apply extract_miss_returned in H
      as (ext & raw & parsed & extracted & st2 & Hext & _ & Hgen & _ & _ & -> & _).
    cbn [body]. split; [reflexivity|]. intros _.
    exists ext, image_bytes, raw. repeat split; assumption.
Qed.

(** *** Start-up *)

Lemma cache_get_model (key : string) (st : state) :
  _model (snd (_cache_get key st)) = _model st.
Proof.
  unfold _cache_get. run.
  destruct (PyDict.contains key (_content_cache st)); [|reflexivity].
  destruct (PyDict.move_to_end key (_content_cache st)); [|reflexivity].
  cbn [_content_cache set_cache incr_hits].
  destruct (PyDict.get key d); reflexivity.
Qed.

Lemma extract_model (req : ExtractRequest) (st : state) :
  _model (snd (extract_ req st)) = _model st.
Proof.
  destruct (_model st) eqn:Hm.
  2:{ now rewrite extract_not_loaded_. }
  destruct (b64decode (image req)) as [image_bytes|] eqn:Hd.
  2:{ now rewrite extract_bad_image_. }
  unfold extract. unfold bind at 1. unfold gets at 1.
  rewrite Hm, Hd. cbn [negb]. unfold bind at 1.
  pose proof (cache_get_model (_sha256 image_bytes) st) as Hg.
  destruct (_cache_get (_sha256 image_bytes) st) as [[[c|]|e] s1] eqn:Eg;
    cbn [snd] in Hg; try (cbn [snd]; congruence).
  - unfold ret. cbn [snd]. congruence.
  - assert (s1 = st).
    { unfold _cache_get in Eg. run_in Eg.
      destruct (PyDict.contains _ _); [|now injection Eg].
      destruct (PyDict.move_to_end _ _); [|discriminate].
      destruct (PyDict.get _ _); discriminate. }
    subst s1.
    destruct (extract_miss_eq_ req image_bytes (_sha256 image_bytes) st)
      as (ext & _ & ->).
    assert (Htry : _model (snd (extract_try_ req image_bytes ext
                                  (_sha256 image_bytes) st)) = true);
      [|destruct (temp_file _ _ _); cbn [snd]; assumption].
    rewrite (extract_try_eq MAX_CACHE_SIZE str_lower str_strip json_loads
               _generate_from_image).
    destruct (_generate_from_image _ _ _ _ _) as [raw|]; [|exact Hm].
    destruct (parse_output str_strip json_loads (text raw)) as [parsed|e];
      [|exact Hm].
    destruct (enrich str_lower parsed (incr_model_calls st))
      as [[extracted|e] st2] eqn:He;
      apply enrich_cache in He as (_ & _ & Hm2 & _);
      cbn [_model incr_model_calls] in Hm2; [|cbn [snd]; congruence].
    cbv zeta. destruct (is_not_none extracted); [|cbn [snd]; congruence].
    destruct (_cache_put _ _ _ st2) as [[u|e] st3] eqn:Hp;
      apply cache_put_frame in Hp as (_ & Hm3 & _); cbn [snd]; congruence.
Qed.


(** *** Failures *)

Lemma cache_put_key_error (key : string) (value : result) (st st' : state) :
  _cache_put MAX_CACHE_SIZE key value st = (Raised KeyError, st') ->
  (MAX_CACHE_SIZE < 0)%Z.
Proof.
  intros H. destruct (Z_lt_ge_dec MAX_CACHE_SIZE 0) as [Hlt|Hge]; [exact Hlt|].
  rewrite cache_put_returns in H by lia. discriminate.
Qed.

(** X5.  The exceptions [extract] can end in, and where.  The 503 and 400
    errors leave the state as it was.  Every other exception arises on a
    miss.  When the temporary file is not created, it is the [ValueError]
    or the [OSError] of the file system, the model is not called and the
    state is as it was.  Otherwise the model was called once.  When the
    file cannot be removed at the end, the exception is the [OSError] of
    [os.unlink].  When it is removed, the exception is the model's
    failure, or the [RecursionError] or the [ValueError] that the decoder
    raised on the candidate and the handler for [JSONDecodeError] let
    through, or the [AttributeError] of a merchant value without [lower],
    or the [KeyError] of evicting from an empty cache, which needs a
    negative capacity.  A hit never raises, and [extract] never ends in
    [IndexError] or [ZeroDivisionError]. *)
Theorem extract_error_taxonomy (req : ExtractRequest) (st st' : state)
  (e : exn) :
  extract_ req st = (Raised e, st') ->
  (_model st = false /\ e = HTTPException 503 "Model not loaded" /\ st' = st) \/
  (_model st = true /\ b64decode (image req) = None /\
   e = HTTPException 400 "Invalid base64 image data" /\ st' = st) \/
  (exists image_bytes ext,
      _model st = true /\
      b64decode (image req) = Some image_bytes /\
      PyDict.get (_sha256 image_bytes) (_content_cache st) = None /\
      file_extension (mime_type req) = Returned ext /\
      ((temp_file (model_calls st) ("." ++ ext) image_bytes = TempValueError /\
        e = ValueError /\ st' = st) \/
       (temp_file (model_calls st) ("." ++ ext) image_bytes = TempOSError /\
        e = OSError /\ st' = st) \/
       (temp_file (model_calls st) ("." ++ ext) image_bytes = NotRemoved /\
        e = OSError /\ model_calls st' = S (model_calls st)) \/
       (temp_file (model_calls st) ("." ++ ext) image_bytes = Written /\
        model_calls st' = S (model_calls st) /\
        ((_generate_from_image (model_calls st) image_bytes ext
            (prompt_or_default (prompt req)) (max_tokens req) = None /\
          e = GenerationError /\ st' = incr_model_calls st) \/
         (exists raw t,
             _generate_from_image (model_calls st) image_bytes ext
               (prompt_or_default (prompt req)) (max_tokens req) = Some raw /\
             candidate str_strip (text raw) = Returned t /\
             ((json_loads t = LoadsRecursionError /\ e = RecursionError) \/
              (json_loads t = LoadsValueError /\ e = ValueError)) /\
             st' = incr_model_calls st) \/
         e = AttributeError \/
         (e = KeyError /\ (MAX_CACHE_SIZE < 0)%Z))))).
Proof.
  intros H. destruct (_model st) eqn:Hm.
  2:{ rewrite extract_not_loaded_ in H by assumption.
      injection H as <- <-. left. auto. }
  destruct (b64decode (image req)) as [image_bytes|] eqn:Hd.
  2:{ rewrite extract_bad_image_ in H by assumption.
      injection H as <- <-. right. left. auto. }
  right. right. exists image_bytes.
  destruct (PyDict.get (_sha256 image_bytes) (_content_cache st)) as [v|] eqn:Hg.
  - exfalso. unfold extract in H. unfold bind at 1 in H.
    unfold gets at 1 in H. rewrite Hm, Hd in H. cbn [negb] in H.
    unfold bind at 1 in H. unfold _cache_get in H. run_in H.
    assert (Hc : PyDict.contains (_sha256 image_bytes) (_content_cache st)
                 = true) by (apply contains_get; eauto).
    rewrite Hc in H. unfold PyDict.move_to_end in H. rewrite Hg in H.
    destruct (PyDict.get _ _) eqn:Hg2 in H; [discriminate|].
    rewrite get_app in Hg2.
    destruct (PyDict.get (_sha256 image_bytes)
                (PyDict.remove (_sha256 image_bytes) (_content_cache st)));
      [discriminate|].
    simpl in Hg2. rewrite String.eqb_refl in Hg2. discriminate.
  - rewrite (extract_to_miss_ req st image_bytes Hm Hd Hg) in H.
    destruct (extract_miss_eq_ req image_bytes (_sha256 image_bytes) st)
      as (ext & Hext & Heq).
    exists ext. do 4 (split; [reflexivity || exact Hext|]).
    pose proof (extract_try_calls MAX_CACHE_SIZE str_lower str_strip
                  json_loads _generate_from_image req image_bytes ext
                  (_sha256 image_bytes) st) as Hcalls.
    rewrite Heq in H. clear Heq.
    destruct (temp_file (model_calls st) ("." ++ ext) image_bytes) eqn:Hw.
    2:{ injection H as <- <-. right. right. left. auto. }
    2:{ injection H as <- <-. left. auto. }
    2:{ injection H as <- <-. right. left. auto. }
    right. right. right. split; [reflexivity|].
    rewrite H in Hcalls. cbn [snd] in Hcalls. split; [exact Hcalls|].
    rewrite (extract_try_eq MAX_CACHE_SIZE str_lower str_strip json_loads
               _generate_from_image) in H.
    destruct (_generate_from_image _ _ _ _ _) as [raw|] eqn:Hgen.
    2:{ injection H as <- <-. left. auto. }
    destruct (parse_output str_strip json_loads (text raw))
      as [parsed|e'] eqn:Hp.
    2:{ injection H as <- <-. right. left.
        destruct (parse_output_eq str_strip json_loads (text raw))
          as (t & Hc & Hpo).
        rewrite Hpo in Hp. unfold loads_or_none in Hp.
        exists raw, t. split; [reflexivity|]. split; [exact Hc|].
        split; [|reflexivity].
        destruct (json_loads t); try discriminate;
          injection Hp as <-; auto. }
    destruct (enrich str_lower parsed (incr_model_calls st))
      as [[extracted|e'] st2] eqn:He.
    + cbv zeta in H. destruct (is_not_none extracted); [|discriminate].
      destruct (_cache_put _ _ _ st2) as [[u|e'] st3] eqn:Hput; [discriminate|].
      injection H as <- _.
      pose proof Hput as Hk.
      apply cache_put_frame in Hk as (_ & _ & [Ho|Ho]); [discriminate|].
      injection Ho as ->. right. right. right. split; [reflexivity|].
      eapply cache_put_key_error; eauto.
    + injection H as <- _. apply enrich_raises in He. auto.
Qed.

(** X6.  When the model collaborator raises, [extract] ends in that
    failure with the cache and the three counters untouched; only the count
    of model calls has moved.  A retry for the same image is therefore no
    hit, and it calls the model again once its temporary file is
    created. *)
Theorem generation_failure_is_not_cached (req req2 : ExtractRequest)
  (st : state) (image_bytes : list Byte.byte) (ext ext2 : string) :
  _model st = true ->
  b64decode (image req) = Some image_bytes ->
  b64decode (image req2) = Some image_bytes ->
  PyDict.get (_sha256 image_bytes) (_content_cache st) = None ->
  file_extension (mime_type req) = Returned ext ->
  temp_file (model_calls st) ("." ++ ext) image_bytes = Written ->
  _generate_from_image (model_calls st) image_bytes ext
    (prompt_or_default (prompt req)) (max_tokens req) = None ->
  file_extension (mime_type req2) = Returned ext2 ->
  extract_ req st = (Raised GenerationError, incr_model_calls st) /\
  (forall resp2,
      fst (extract_ req2 (incr_model_calls st)) = Returned resp2 ->
      cache resp2 = miss) /\
  (created (temp_file (S (model_calls st)) ("." ++ ext2) image_bytes) = true ->
   model_calls (snd (extract_ req2 (incr_model_calls st)))
   = S (S (model_calls st))).
Proof.
  intros Hm Hd Hd2 Hg Hext Hw Hgen Hext2. split; [|split].
  - rewrite (extract_to_miss_ req st image_bytes Hm Hd Hg).
    rewrite (extract_miss_written MAX_CACHE_SIZE str_lower str_strip
               json_loads temp_file _generate_from_image req image_bytes _
               ext st Hext Hw).
    rewrite (extract_try_eq MAX_CACHE_SIZE str_lower str_strip json_loads
               _generate_from_image).
    now rewrite Hgen.
  - intros resp2 H2.
    rewrite (extract_to_miss_ req2 (incr_model_calls st) image_bytes Hm Hd2 Hg)
      in H2.
    destruct (extract_miss_ req2 image_bytes (_sha256 image_bytes)
                (incr_model_calls st)) as [o st3] eqn:E.
    cbn [fst] in H2. subst o.
    apply extract_miss_returned in E
      as (? & ? & ? & ? & ? & _ & _ & _ & _ & _ & -> & _).
    reflexivity.
  - intros Hw2.
    rewrite (extract_to_miss_ req2 (incr_model_calls st) image_bytes Hm Hd2 Hg).
    now rewrite (extract_miss_calls MAX_CACHE_SIZE str_lower str_strip
                   json_loads temp_file _generate_from_image req2 image_bytes
                   (_sha256 image_bytes) ext2 (incr_model_calls st) Hext2 Hw2).
Qed.

(** X7.  A decoded object whose merchant is a value Python takes as true
    but not a string (a number, a list, an object, [true]) makes [extract]
    end in [AttributeError]: the value has no [lower].  Nothing is stored
    and no counter of the cache moves.  The request is one whose temporary
    file is written, and removed again at the end. *)
Theorem non_string_merchant_raises (req : ExtractRequest) (st : state)
  (image_bytes : list Byte.byte) (ext : string) (raw : raw_output)
  (d : PyDict.dict json) (v : json) :
  _model st = true ->
  b64decode (image req) = Some image_bytes ->
  PyDict.get (_sha256 image_bytes) (_content_cache st) = None ->
  file_extension (mime_type req) = Returned ext ->
  temp_file (model_calls st) ("." ++ ext) image_bytes = Written ->
  _generate_from_image (model_calls st) image_bytes ext
    (prompt_or_default (prompt req)) (max_tokens req) = Some raw ->
  parse_output str_strip json_loads (text raw) = Returned (JObj d) ->
  PyDict.get "merchant" d = Some v ->
  truthy v = true ->
  (forall s, v <> JStr s) ->
  extract_ req st = (Raised AttributeError, incr_model_calls st).
Proof.
  intros Hm Hd Hg Hext Hw Hgen Hp Hv Ht Hns.
  rewrite (extract_to_miss_ req st image_bytes Hm Hd Hg).
  rewrite (extract_miss_written MAX_CACHE_SIZE str_lower str_strip
             json_loads temp_file _generate_from_image req image_bytes _
             ext st Hext Hw).
  rewrite (extract_try_eq MAX_CACHE_SIZE str_lower str_strip json_loads
             _generate_from_image), Hgen, Hp.
  assert (Hd' : d <> []) by (intros ->; discriminate).
  rewrite enrich_object by exact Hd'.
  unfold py_or, get_default. rewrite Hv, Ht.
  destruct v; try reflexivity. now destruct (Hns s).
Qed.


(** *** Reads and overwrites *)

(** X9.  A [_cache_put] on a key the cache already holds, in a cache within
    its capacity, evicts nothing: the entry gets the new value and moves to
    the most recently used end, the size stays, and every other key keeps
    its value. *)
Theorem put_overwrites_in_place (key : string) (old value : result)
  (st : state) :
  unique_keys (_content_cache st) ->
  (Z.of_nat (List.length (_content_cache st)) <= MAX_CACHE_SIZE)%Z ->
  PyDict.get key (_content_cache st) = Some old ->
  exists st',
    _cache_put MAX_CACHE_SIZE key value st = (Returned tt, st') /\
    _content_cache st' = PyDict.remove key (_content_cache st) ++ [(key, value)] /\
    List.length (_content_cache st') = List.length (_content_cache st) /\
    PyDict.get key (_content_cache st') = Some value /\
    (forall k, k <> key ->
               PyDict.get k (_content_cache st') = PyDict.get k (_content_cache st)).
Proof.
  intros Hu Hlen Hg.
  assert (Hc : _content_cache
                 (snd (_cache_put MAX_CACHE_SIZE key value st))
               = PyDict.remove key (_content_cache st) ++ [(key, value)]).
  { rewrite cache_put_returns by lia. cbn [snd _content_cache set_cache].
    rewrite stored_length, Hg, stored_old.
    replace (List.length (_content_cache st) - Z.to_nat MAX_CACHE_SIZE)%nat
      with 0%nat by lia.
    reflexivity. }
  exists (snd (_cache_put MAX_CACHE_SIZE key value st)).
  split; [rewrite cache_put_returns by lia; reflexivity|].
  split; [exact Hc|]. rewrite Hc.
  split; [rewrite length_app; simpl;
          pose proof (length_remove result key _ old Hg); lia|].
  split; [now apply get_moved|].
  intros k Hk. now apply get_moved_other.
Qed.

(** X10.  A [_cache_get] changes the order of the cache at most: whatever
    the key asked for, every key maps to the same value afterwards as
    before, the size is the same, and the keys stay unique. *)
Theorem cache_get_keeps_contents (key : string) (st : state) :
  unique_keys (_content_cache st) ->
  (forall k,
      PyDict.get k (_content_cache (snd (_cache_get key st)))
      = PyDict.get k (_content_cache st)) /\
  List.length (_content_cache (snd (_cache_get key st)))
  = List.length (_content_cache st) /\
  unique_keys (_content_cache (snd (_cache_get key st))) /\
  fst (_cache_get key st) = Returned (PyDict.get key (_content_cache st)).
Proof.
  intros Hu. destruct (PyDict.get key (_content_cache st)) as [v|] eqn:Hg.
  - rewrite (cache_get_present key v st Hu Hg).
    cbn [fst snd _content_cache incr_hits set_cache].
    split; [|split; [|split]].
    + intros k. destruct (String.eqb_spec k key) as [->|Hne].
      * rewrite Hg. now apply get_moved.
      * now apply get_moved_other.
    + now apply length_moved.
    + now apply nodup_moved.
    + reflexivity.
  - rewrite (cache_get_absent key st Hg). repeat split; auto.
Qed.

End PipelineExtras.

(** ** More on strings and on the fence stripping *)

Module OccurrenceFacts.
Import PyStr PyStrFacts SplitFacts ParserFacts.

Lemma append_cancel_l (a b c : string) :
  (a ++ b)%string = (a ++ c)%string -> b = c.
Proof. induction a as [|x a IH]; simpl; [trivial | intros [= H]; auto]. Qed.

(** Two ways of cutting the same string differ by a middle part. *)
Lemma append_eq_split (a b a' b' : string) :
  (a ++ b)%string = (a' ++ b')%string ->
  (String.length a <= String.length a')%nat ->
  exists x, a' = (a ++ x)%string /\ b = (x ++ b')%string.
Proof.
  revert a'. induction a as [|c a IH]; intros a' H Hlen.
  - exists a'. split; [reflexivity | exact H].
  - destruct a' as [|c' a']; [simpl in Hlen; lia|].
    simpl in H. injection H as -> H. simpl in Hlen.
    destruct (IH a' H) as (x & -> & ->); [lia|].
    exists x. split; reflexivity.
Qed.

Lemma first_occurrence_unique (sep s a b a' b' : string) :
  first_occurrence sep s a b -> first_occurrence sep s a' b' ->
  a = a' /\ b = b'.
Proof.
  intros [H1 Hmin1] [H2 Hmin2].
  pose proof (Hmin1 a' b' H2) as L1. pose proof (Hmin2 a b H1) as L2.
  assert (Heq : (a ++ sep ++ b)%string = (a' ++ sep ++ b')%string) by congruence.
  destruct (append_eq_split _ _ _ _ Heq L1) as (x & Ha & Hb).
  assert (x = ""%string).
  { apply (f_equal String.length) in Ha. rewrite length_append in Ha.
    destruct x; [reflexivity | simpl in Ha; lia]. }
  subst x. rewrite append_nil_r in Ha. subst a'. split; [reflexivity|].
  simpl in Hb. now apply append_cancel_l in Hb.
Qed.

Lemma json_fence_unbordered : unbordered json_fence.
Proof.
  intros x z H Hx Hz. unfold json_fence in H.
  repeat (destruct x as [|? x];
          [ simpl in H; try congruence; subst z; reflexivity
          | simpl in H; injection H as <- H ]).
  destruct x; [|discriminate]. simpl in H. now subst z.
Qed.

Lemma startswith_shorter (z sep r : string) :
  startswith z (sep ++ r) = true ->
  (String.length z <= String.length sep)%nat ->
  startswith z sep = true.
Proof.
  revert sep. induction z as [|c z IH]; intros sep H Hlen; [reflexivity|].
  destruct sep as [|d sep]; [simpl in Hlen; lia|].
  simpl in *. apply andb_true_iff in H as [Hc Hz].
  rewrite Hc. simpl. apply IH; [exact Hz | lia].
Qed.

Lemma later_occurrence_contradicts (sep a r a' r' : string) :
  unbordered sep ->
  (a ++ sep ++ r)%string = (a' ++ sep ++ r')%string ->
  (String.length a < String.length a')%nat ->
  str_in sep r = false ->
  False.
Proof.
  intros Hub Heq Hlen Hr.
  destruct (append_eq_split _ _ _ _ Heq (Nat.lt_le_incl _ _ Hlen))
    as (x & -> & Hx).
  rewrite length_append in Hlen.
  assert (Hxne : x <> ""%string) by (intros ->; simpl in Hlen; lia).
  destruct (Nat.le_gt_cases (String.length sep) (String.length x)) as [Hle|Hgt].
  - destruct (append_eq_split _ _ _ _ Hx Hle) as (y & -> & ->).
    rewrite str_in_intro in Hr. discriminate.
  - symmetry in Hx.
    destruct (append_eq_split _ _ _ _ Hx (Nat.lt_le_incl _ _ Hgt))
      as (z & Hsep & Hz).
    assert (Hzne : z <> ""%string).
    { intros ->. rewrite append_nil_r in Hsep. subst x. lia. }
    assert (Hzlen : (String.length z <= String.length sep)%nat).
    { pose proof (f_equal String.length Hsep) as Hl.
      rewrite length_append in Hl. lia. }
    pose proof (Hub x z Hsep Hxne Hzne) as Hb.
    assert (Hs : startswith z (sep ++ r') = true).
    { rewrite Hz. apply startswith_append. }
    rewrite (startswith_shorter z sep r' Hs Hzlen) in Hb. discriminate.
Qed.

Lemma last_occurrence_unique (sep s a r a' r' : string) :
  unbordered sep ->
  last_occurrence sep s a r -> last_occurrence sep s a' r' ->
  a = a' /\ r = r'.
Proof.
  intros Hub [H1 Hr1] [H2 Hr2].
  assert (Heq : (a ++ sep ++ r)%string = (a' ++ sep ++ r')%string) by congruence.
  destruct (Nat.lt_trichotomy (String.length a) (String.length a'))
    as [Hlt|[Hlen|Hgt]].
  - exfalso. eapply (later_occurrence_contradicts sep a r a' r'); eauto.
  - destruct (append_eq_split _ _ _ _ Heq (Nat.eq_le_incl _ _ Hlen))
      as (x & Ha & Hb).
    assert (x = ""%string).
    { apply (f_equal String.length) in Ha. rewrite length_append in Ha.
      destruct x; [reflexivity | simpl in Ha; lia]. }
    subst x. rewrite append_nil_r in Ha. subst a'. split; [reflexivity|].
    simpl in Hb. now apply append_cancel_l in Hb.
  - exfalso. symmetry in Heq.
    eapply (later_occurrence_contradicts sep a' r' a r); eauto.
Qed.

Lemma up_to_next_is_body_of (after body : string) :
  up_to_next fence after body -> body = body_of after.
Proof.
  unfold body_of. intros [[Hno ->]|[rest Hfirst]].
  - apply cut_none_iff in Hno. now rewrite Hno.
  - destruct (cut fence after) as [[a b]|] eqn:E.
    + apply cut_first_occurrence in E.
      now destruct (first_occurrence_unique _ _ _ _ _ _ Hfirst E).
    + apply cut_none_iff in E. destruct Hfirst as [-> _].
      rewrite str_in_intro in E. discriminate.
Qed.

End OccurrenceFacts.

(** X12.  The candidate is a function of the text's shape.  Whatever
    precedes it, if the text ends in a JSON-tagged marker followed by a part
    without further JSON-tagged marker, the candidate is that part up to its
    next fence, as [str.strip] returns it; earlier blocks and prose play no
    role.  In a text without JSON-tagged marker, the candidate is what
    follows the leftmost fence, up to the next fence, stripped likewise. *)
Theorem candidate_is_determined (str_strip : string -> string) :
  (forall text pre after body,
      last_occurrence json_fence text pre after ->
      up_to_next fence after body ->
      candidate str_strip text = Returned (str_strip body)) /\
  (forall text pre after body,
      PyStr.str_in json_fence text = false ->
      first_occurrence fence text pre after ->
      up_to_next fence after body ->
      candidate str_strip text = Returned (str_strip body)).
Proof.
  split.
  - intros text pre after body Hlast Hbody.
    assert (Hin : PyStr.str_in json_fence text = true).
    { destruct Hlast as [-> _]. apply PyStrFacts.str_in_intro. }
    destruct (ParserFacts.candidate_json str_strip text Hin)
      as (pre' & after' & body' & Hlast' & Hbody' & ->).
    destruct (OccurrenceFacts.last_occurrence_unique _ _ _ _ _ _
                OccurrenceFacts.json_fence_unbordered Hlast Hlast')
      as [_ <-].
    apply OccurrenceFacts.up_to_next_is_body_of in Hbody, Hbody'.
    congruence.
  - intros text pre after body Hj Hfirst Hbody.
    assert (Hin : PyStr.str_in fence text = true).
    { destruct Hfirst as [-> _]. apply PyStrFacts.str_in_intro. }
    destruct (ParserFacts.candidate_fence str_strip text Hj Hin)
      as (pre' & after' & body' & Hfirst' & Hbody' & ->).
    destruct (OccurrenceFacts.first_occurrence_unique _ _ _ _ _ _
                Hfirst Hfirst') as [_ <-].
    apply OccurrenceFacts.up_to_next_is_body_of in Hbody, Hbody'.
    congruence.
Qed.

Module StripFacts.
Import PyStr PyStrFacts.

Lemma lstrip_suffix (s : string) : exists a, s = (a ++ ascii_lstrip s)%string.
Proof.
  induction s as [|c s [a IH]]; simpl.
  - exists ""%string. reflexivity.
  - destruct (ascii_isspace c).
    + exists (String c a). simpl. now rewrite <- IH.
    + exists ""%string. reflexivity.
Qed.

Lemma rstrip_prefix (s : string) : exists b, s = (ascii_rstrip s ++ b)%string.
Proof.
  induction s as [|c s [b IH]]; simpl.
  - exists ""%string. reflexivity.
  - destruct (ascii_rstrip s) as [|d r] eqn:E.
    + destruct (ascii_isspace c).
      * exists (String c s). reflexivity.
      * exists s. reflexivity.
    + exists b. simpl. simpl in IH. now rewrite <- IH.
Qed.

(** Stripping keeps a part of the string. *)
Lemma strip_inside (s : string) :
  exists a b, s = (a ++ ascii_strip s ++ b)%string.
Proof.
  unfold ascii_strip. destruct (lstrip_suffix s) as [a Ha].
  destruct (rstrip_prefix (ascii_lstrip s)) as [b Hb].
  exists a, b. now rewrite <- Hb.
Qed.

Lemma strip_clean (sep s : string) :
  str_in sep s = false -> str_in sep (ascii_strip s) = false.
Proof.
  intros H. destruct (str_in sep (ascii_strip s)) eqn:E; [|reflexivity].
  apply str_in_elim in E as (x & y & E).
  destruct (strip_inside s) as (a & b & Hs).
  rewrite E in Hs. rewrite Hs in H.
  rewrite !append_assoc in H. rewrite <- append_assoc in H.
  rewrite str_in_intro in H. discriminate.
Qed.

Lemma rstrip_idempotent (s : string) : ascii_rstrip (ascii_rstrip s) = ascii_rstrip s.
Proof.
  induction s as [|c s IH]; simpl; [reflexivity|].
  destruct (ascii_rstrip s) as [|d r] eqn:E.
  - destruct (ascii_isspace c) eqn:Ec; simpl; [reflexivity | now rewrite Ec].
  - simpl. simpl in IH. now rewrite IH.
Qed.

Lemma lstrip_starts_clean (s : string) : starts_clean (ascii_lstrip s).
Proof.
  induction s as [|c s IH]; simpl; [exact I|].
  destruct (ascii_isspace c) eqn:E; [exact IH | exact E].
Qed.

Lemma lstrip_of_clean (s : string) : starts_clean s -> ascii_lstrip s = s.
Proof. destruct s as [|c s]; simpl; [trivial | now intros ->]. Qed.

Lemma rstrip_starts_clean (s : string) :
  starts_clean s -> starts_clean (ascii_rstrip s).
Proof.
  destruct s as [|c s]; simpl; [trivial|]. intros Hc.
  destruct (ascii_rstrip s); [now rewrite Hc | exact Hc].
Qed.

Lemma strip_idempotent (s : string) : ascii_strip (ascii_strip s) = ascii_strip s.
Proof.
  unfold ascii_strip.
  rewrite (lstrip_of_clean (ascii_rstrip (ascii_lstrip s))).
  - apply rstrip_idempotent.
  - apply rstrip_starts_clean, lstrip_starts_clean.
Qed.

Lemma rstrip_ends_clean (s : string) : ends_clean (ascii_rstrip s).
Proof.
  induction s as [|c s IH]; simpl; [exact I|].
  destruct (ascii_rstrip s) as [|d r] eqn:E.
  - destruct (ascii_isspace c) eqn:Ec; simpl; [exact I | exact Ec].
  - exact IH.
Qed.

Lemma rstrip_of_clean (s : string) : ends_clean s -> ascii_rstrip s = s.
Proof.
  induction s as [|c s IH]; [reflexivity|].
  destruct s as [|d s].
  - simpl. now intros ->.
  - intros H. change (ends_clean (String d s)) in H.
    change (ascii_rstrip (String c (String d s)))
      with (match ascii_rstrip (String d s) with
            | EmptyString =>
                if ascii_isspace c then EmptyString else String c EmptyString
            | r => String c r
            end).
    rewrite (IH H). reflexivity.
Qed.

(** A string with clean ends is what stripping returns for it. *)
Lemma strip_of_clean (s : string) :
  starts_clean s -> ends_clean s -> ascii_strip s = s.
Proof.
  intros Hs He. unfold ascii_strip.
  rewrite (lstrip_of_clean s Hs). now apply rstrip_of_clean.
Qed.

Lemma strip_has_clean_ends (s : string) :
  starts_clean (ascii_strip s) /\ ends_clean (ascii_strip s).
Proof.
  unfold ascii_strip. split.
  - apply rstrip_starts_clean, lstrip_starts_clean.
  - apply rstrip_ends_clean.
Qed.

(** The same for any function that returns a part of its argument. *)
Lemma part_clean (str_strip : string -> string) (sep s : string) :
  strip_keeps_a_part str_strip ->
  str_in sep s = false -> str_in sep (str_strip s) = false.
Proof.
  intros Hpart H. destruct (str_in sep (str_strip s)) eqn:E; [|reflexivity].
  apply str_in_elim in E as (x & y & E).
  destruct (Hpart s) as (a & b & Hs).
  rewrite E in Hs. rewrite Hs in H.
  rewrite !append_assoc in H. rewrite <- append_assoc in H.
  rewrite str_in_intro in H. discriminate.
Qed.

End StripFacts.

(** X13.  When the model's text holds a fence marker, what is handed to
    the decoder holds none, and has no white space left at either end:
    stripping it again changes nothing.  This rests on two facts of
    [str.strip]: it returns a part of its argument, and what it returns
    neither begins nor ends with ASCII white space. *)
Theorem candidate_is_clean (str_strip : string -> string) (text t : string) :
  strip_keeps_a_part str_strip ->
  strip_clears_ascii_space str_strip ->
  PyStr.str_in fence text = true ->
  candidate str_strip text = Returned t ->
  PyStr.str_in fence t = false /\
  PyStr.str_in json_fence t = false /\
  PyStr.ascii_strip t = t.
Proof.
  intros Hpart Hclear Hf Hc.
  assert (Hbody : exists after, t = str_strip (body_of after)).
  { destruct (PyStr.str_in json_fence text) eqn:Hj.
    - destruct (ParserFacts.candidate_json str_strip text Hj)
        as (pre & after & body & _ & Hb & Hc').
      apply OccurrenceFacts.up_to_next_is_body_of in Hb. subst body.
      exists after. congruence.
    - destruct (ParserFacts.candidate_fence str_strip text Hj Hf)
        as (pre & after & body & _ & Hb & Hc').
      apply OccurrenceFacts.up_to_next_is_body_of in Hb. subst body.
      exists after. congruence. }
  destruct Hbody as [after ->].
  assert (Hclean : PyStr.str_in fence (str_strip (body_of after)) = false).
  { apply StripFacts.part_clean; [exact Hpart|].
    apply ParserFacts.body_of_clean. }
  split; [exact Hclean|]. split.
  - destruct (PyStr.str_in json_fence (str_strip (body_of after))) eqn:E;
      [|reflexivity].
    apply ParserFacts.json_fence_has_fence in E. congruence.
  - destruct (Hclear (body_of after)) as [Hs He].
    now apply StripFacts.strip_of_clean.
Qed.

Module ExtensionFacts.
Import PyStr PyStrFacts SplitFacts.

(** Strings in which the character [c] does not occur. *)
Lemma char_in_append (c : ascii) (a b : string) :
  str_in (String c "") (a ++ b) =
  str_in (String c "") a || str_in (String c "") b.
Proof.
  induction a as [|x a IH].
  - simpl. reflexivity.
  - simpl. rewrite IH. destruct (Ascii.eqb c x); reflexivity.
Qed.

Lemma char_free_cut (c : ascii) (sep s a b : string) :
  cut sep s = Some (a, b) ->
  str_in (String c "") s = false ->
  str_in (String c "") a = false /\ str_in (String c "") b = false.
Proof.
  intros H Hs. apply cut_sound in H. subst s.
  rewrite !char_in_append in Hs.
  apply orb_false_iff in Hs as [Ha Hs]. apply orb_false_iff in Hs as [_ Hb].
  auto.
Qed.

Lemma char_free_split_fuel (c : ascii) (sep : string) (fuel : nat) :
  forall s,
    str_in (String c "") s = false ->
    Forall (fun p => str_in (String c "") p = false) (split_fuel fuel sep s).
Proof.
  induction fuel as [|k IH]; intros s Hs; cbn [split_fuel];
    destruct (cut sep s) as [[a b]|] eqn:E;
    try (repeat constructor; assumption);
    destruct (char_free_cut c sep s a b E Hs) as [Ha Hb].
  - repeat constructor; assumption.
  - constructor; [exact Ha | now apply IH].
Qed.

Lemma char_free_join (c : ascii) (sep : string) (parts : list string) :
  str_in (String c "") sep = false ->
  Forall (fun p => str_in (String c "") p = false) parts ->
  str_in (String c "") (join sep parts) = false.
Proof.
  intros Hsep H. induction H as [|p rest Hp Hrest IH]; [reflexivity|].
  destruct rest as [|q rest]; [exact Hp|].
  change (join sep (p :: q :: rest))
    with (p ++ sep ++ join sep (q :: rest))%string.
  rewrite !char_in_append, Hp, Hsep, IH. reflexivity.
Qed.

Lemma replace_absent (old new s : string) :
  str_in old s = false -> replace old new s = s.
Proof.
  intros H. unfold replace, split. apply cut_none_iff in H.
  destruct (String.length s); cbn [split_fuel]; rewrite H; reflexivity.
Qed.

End ExtensionFacts.

(** X14.  The suffix computed for the temporary file never raises and
    never holds a slash, whatever the MIME type sent: it cannot name a
    directory.  For a MIME type in which ["jpeg"] does not occur it is the
    MIME type itself when that has no slash, and else what follows its last
    slash. *)
Theorem file_extension_has_no_slash (mime : string) :
  exists ext,
    file_extension mime = Returned ext /\
    PyStr.str_in "/" ext = false /\
    (PyStr.str_in "jpeg" mime = false ->
     (PyStr.str_in "/" mime = false /\ ext = mime) \/
     (exists p, mime = (p ++ "/" ++ ext)%string)).
Proof.
  unfold file_extension.
  destruct (SplitFacts.split_last "/" mime) as (r & Hr & Hclean & Hshape);
    [discriminate|].
  rewrite Hr. cbn [lift_index]. eexists. split; [reflexivity|]. split.
  - unfold PyStr.replace. apply ExtensionFacts.char_free_join; [reflexivity|].
    apply ExtensionFacts.char_free_split_fuel. exact Hclean.
  - intros Hj.
    assert (Hjr : PyStr.str_in "jpeg" r = false).
    { destruct Hshape as [[_ ->]|[p ->]]; [exact Hj|].
      apply PyStrFacts.str_in_suffix in Hj.
      now apply PyStrFacts.str_in_suffix in Hj. }
    rewrite (ExtensionFacts.replace_absent _ _ _ Hjr).
    destruct Hshape as [[Hno ->]|[p ->]]; [left; auto | right; eauto].
Qed.

(** ** Enrichment applied twice *)

Module RuleFacts.
Import DictFacts EnrichFacts FastPathFacts.

Lemma set_same (k : string) (v : json) (d : PyDict.dict json) :
  PyDict.get k d = Some v -> PyDict.set k v d = d.
Proof.
  induction d as [|[k0 v0] d IH]; simpl; [discriminate|].
  destruct (String.eqb_spec k k0) as [->|Hne].
  - now intros [= ->].
  - intros H. now rewrite IH.
Qed.

Lemma scan_in_rules (rules : list (string * FastPathRule)) (t : string)
  (meta : FastPathRule) :
  scan_rules rules t = Some meta -> exists key, In (key, meta) rules.
Proof.
  induction rules as [|[k m] rules IH]; simpl; [discriminate|].
  destruct (PyStr.str_in k t).
  - intros [= ->]. exists k. now left.
  - intros H. destruct (IH H) as [key Hin]. exists key. now right.
Qed.

(** Each rule's display name selects the rule itself, and no rule has an
    empty name, category or currency. *)
Lemma rules_are_fixed_points (key : string) (meta : FastPathRule) :
  In (key, meta) FAST_PATH_MERCHANTS ->
  PyStr.is_ascii (merchant meta) = true /\
  scan_rules FAST_PATH_MERCHANTS (PyStr.ascii_lower (merchant meta)) = Some meta /\
  truthy (JStr (merchant meta)) = true /\
  truthy (JStr (category meta)) = true /\
  truthy (JStr (currency meta)) = true.
Proof.
  unfold FAST_PATH_MERCHANTS. intros H.
  repeat (destruct H as [H|H];
          [injection H as _ <-; repeat split; reflexivity|]).
  destruct H.
Qed.

Lemma apply_rule_twice (meta : FastPathRule) (d : PyDict.dict json) :
  truthy (JStr (category meta)) = true ->
  truthy (JStr (currency meta)) = true ->
  apply_rule meta (apply_rule meta d) = apply_rule meta d.
Proof.
  intros Hcat Hcur.
  destruct (apply_rule_lookup meta d) as (Hm & Hc1 & Hc2 & _).
  set (d' := apply_rule meta d) in *.
  assert (Tcat : truthy (get_or_none "category" d') = true).
  { unfold get_or_none, get_default. rewrite Hc1.
    destruct (truthy (get_or_none "category" d)) eqn:E; [|exact Hcat].
    unfold get_or_none, get_default in E.
    destruct (PyDict.get "category" d); [exact E | discriminate]. }
  assert (Tcur : truthy (get_or_none "currency" d') = true).
  { unfold get_or_none, get_default. rewrite Hc2.
    destruct (truthy (get_or_none "currency" d)) eqn:E; [|exact Hcur].
    unfold get_or_none, get_default in E.
    destruct (PyDict.get "currency" d); [exact E | discriminate]. }
  unfold apply_rule at 1. rewrite (set_same _ _ _ Hm), Tcat. cbn [negb].
  now rewrite Tcur.
Qed.

End RuleFacts.

(** X15.  Enrichment is idempotent on the extraction: enriching once more
    what [enrich] returned, in whatever state, returns the same value.
    Each rule's display name leads back to the rule itself, and the
    category and currency it filled in are kept.  The display names are
    ASCII, and on ASCII strings [str.lower] is the ASCII function. *)
Theorem enrichment_is_idempotent (str_lower : string -> string)
  (v e : json) (st st' st2 : state) :
  lower_on_ascii str_lower ->
  enrich str_lower v st = (Returned e, st') ->
  fst (enrich str_lower e st2) = Returned e.
Proof.
  intros Hlower H.
  destruct v as [| | | | | |d]; try (injection H as <- _; reflexivity).
  destruct d as [|x d]; [injection H as <- _; reflexivity|].
  rewrite EnrichFacts.enrich_object in H by discriminate.
  remember (py_or (get_default "merchant" (JStr "") (x :: d)) (JStr "")) as m.
  destruct m as [| | | |s| |];
    try (unfold _try_fast_path, raise in H; discriminate).
  rewrite EnrichFacts.try_fast_path_str in H.
  destruct (scan_rules FAST_PATH_MERCHANTS (str_lower s)) as [meta|] eqn:Hs.
  - injection H as <- _.
    destruct (RuleFacts.scan_in_rules _ _ _ Hs) as [key Hin].
    destruct (RuleFacts.rules_are_fixed_points key meta Hin)
      as (Hascii & Hfix & Tm & Tc & Tu).
    destruct (FastPathFacts.apply_rule_lookup meta (x :: d)) as (Hm & _).
    assert (Hne : apply_rule meta (x :: d) <> []).
    { intros E. rewrite E in Hm. discriminate. }
    rewrite EnrichFacts.enrich_object by exact Hne.
    unfold py_or, get_default. rewrite Hm, Tm.
    rewrite EnrichFacts.try_fast_path_str, (Hlower _ Hascii), Hfix.
    cbn [fst]. now rewrite RuleFacts.apply_rule_twice.
  - injection H as <- _.
    rewrite EnrichFacts.enrich_object by discriminate.
    rewrite <- Heqm, EnrichFacts.try_fast_path_str, Hs. reflexivity.
Qed.

(** ** The patched argument loader *)

Section PatchFacts.

Variable Val : Type.
Variable Proc : Type.
Variable AutoCls : Type.
Variable ProcClass : Type.
Variable py_false : Val.
Variable py_empty_str : Val.
Variable cls_name : string.
Variable get_attributes : list string.
Variable _get_modality_for_attribute : string -> string.
Variable MODALITY_TO_AUTOPROCESSOR_MAPPING : string -> Patch.res AutoCls.
Variable from_pretrained :
  AutoCls -> Val -> Val -> PyDict.dict Val -> Patch.res Proc.
Variable _load_tokenizer_from_pretrained :
  string -> Val -> Val -> PyDict.dict Val -> Patch.res Proc.
Variable tokenizers_backend_from_pretrained :
  Val -> Val -> PyDict.dict Val -> Patch.res Proc.
Variable get_possibly_dynamic_module : json -> Patch.res ProcClass.
Variable instantiate : ProcClass -> PyDict.dict json -> Patch.res Proc.

Local Abbreviation slot_ :=
  (Patch.slot py_false cls_name _get_modality_for_attribute
     MODALITY_TO_AUTOPROCESSOR_MAPPING from_pretrained
     _load_tokenizer_from_pretrained tokenizers_backend_from_pretrained
     get_possibly_dynamic_module instantiate).
Local Abbreviation fill_ :=
  (Patch.fill py_false cls_name _get_modality_for_attribute
     MODALITY_TO_AUTOPROCESSOR_MAPPING from_pretrained
     _load_tokenizer_from_pretrained tokenizers_backend_from_pretrained
     get_possibly_dynamic_module instantiate).
Local Abbreviation safe_get_args_ :=
  (Patch._safe_get_args py_false py_empty_str cls_name get_attributes
     _get_modality_for_attribute MODALITY_TO_AUTOPROCESSOR_MAPPING
     from_pretrained _load_tokenizer_from_pretrained
     tokenizers_backend_from_pretrained get_possibly_dynamic_module
     instantiate).

Lemma fill_returns (path subfolder : Val) (kwargs : PyDict.dict Val)
  (pd : PyDict.dict json) (attrs : list string) :
  forall args result,
    fill_ path subfolder kwargs pd attrs args = Patch.Ok result ->
    exists added,
      result = args ++ added /\
      Forall2 (fun t a => slot_ path subfolder kwargs pd t = Patch.Ok a)
        attrs added.
Proof.
  induction attrs as [|t attrs IH]; intros args result H; cbn [Patch.fill] in H.
  - injection H as <-. exists []. split; [now rewrite app_nil_r | constructor].
  - destruct (slot_ path subfolder kwargs pd t) as [a|e] eqn:E; [|discriminate].
    destruct (IH _ _ H) as (added & -> & Hall).
    exists (a :: added). split; [now rewrite <- app_assoc|].
    constructor; assumption.
Qed.

Lemma fill_raises (path subfolder : Val) (kwargs : PyDict.dict Val)
  (pd : PyDict.dict json) (attrs : list string) :
  forall args e,
    fill_ path subfolder kwargs pd attrs args = Patch.Err e ->
    exists t, In t attrs /\ slot_ path subfolder kwargs pd t = Patch.Err e.
Proof.
  induction attrs as [|t attrs IH]; intros args e H; cbn [Patch.fill] in H;
    [discriminate|].
  destruct (slot_ path subfolder kwargs pd t) as [a|e'] eqn:E.
  - destruct (IH _ _ H) as (t' & Hin & Ht'). exists t'. split; [now right|].
    exact Ht'.
  - injection H as ->. exists t. split; [now left | exact E].
Qed.

(** Only a tokenizer lets an [ImportError] through, and a [TypeError]
    escapes a round without tokenizer only from the look-up of the
    auto-class. *)
Lemma slot_raises (path subfolder : Val) (kwargs : PyDict.dict Val)
  (pd : PyDict.dict json) (t : string) (e : Patch.error) :
  slot_ path subfolder kwargs pd t = Patch.Err e ->
  PyStr.str_in "tokenizer" t = true \/
  (e <> Patch.ImportError /\
   (e = Patch.TypeError ->
    MODALITY_TO_AUTOPROCESSOR_MAPPING t = Patch.Err Patch.TypeError)).
Proof.
  assert (Hcaught : forall e0 : Patch.error,
             Patch.import_or_type e0 = false ->
             e0 <> Patch.ImportError /\ e0 <> Patch.TypeError).
  { intros e0 H0. split; intros ->; discriminate. }
  unfold Patch.slot.
  destruct (PyStr.str_in "tokenizer" t); [now left|]. intros H. right.
  destruct (String.eqb t (_get_modality_for_attribute t)).
  - destruct (MODALITY_TO_AUTOPROCESSOR_MAPPING t) as [auto|e1].
    + destruct (from_pretrained auto path subfolder kwargs) as [p|e2];
        [discriminate H|].
      destruct (Patch.import_or_type e2) eqn:E2.
      * destruct (PyStr.str_in "image" t); [|discriminate H].
        destruct (from_pretrained _ _ _ _); discriminate H.
      * injection H as <-. destruct (Hcaught e2 E2). split; [assumption|].
        intros ->. congruence.
    + destruct e1; cbn in H; try discriminate H; injection H as <-;
        split; try discriminate; reflexivity.
  - assert (Hgen : forall r : Patch.res (option Proc),
               r = Patch.Err e ->
               (exists e0, r = Patch.Err e0 /\ Patch.import_or_type e0 = false) ->
               e <> Patch.ImportError /\
               (e = Patch.TypeError ->
                MODALITY_TO_AUTOPROCESSOR_MAPPING t = Patch.Err Patch.TypeError)).
    { intros r -> (e0 & [= <-] & H0). destruct (Hcaught e H0).
      split; [assumption | intros ->; congruence]. }
    destruct (PyDict.contains t pd); [|discriminate H].
    destruct (PyDict.get t pd) as [[| | | | | |sub_config]|];
      try discriminate H.
    2:{ injection H as <-. split; discriminate. }
    destruct (PyDict.get _ sub_config) as [class_name|]; [|discriminate H].
    assert (Hdyn :
              match get_possibly_dynamic_module class_name with
              | Patch.Err e0 =>
                  if Patch.import_or_type e0 then Patch.Ok None
                  else Patch.Err e0
              | Patch.Ok proc_class =>
                  match instantiate proc_class sub_config with
                  | Patch.Ok p => Patch.Ok (Some p)
                  | Patch.Err e0 =>
                      if Patch.import_or_type e0 then Patch.Ok None
                      else Patch.Err e0
                  end
              end = Patch.Err e ->
              exists e0, @Patch.Err (option Proc) e = Patch.Err e0 /\
                         Patch.import_or_type e0 = false).
    { destruct (get_possibly_dynamic_module class_name) as [pc|e1].
      - destruct (instantiate pc sub_config) as [p|e2]; [discriminate|].
        destruct (Patch.import_or_type e2) eqn:E2; [discriminate|].
        intros [= <-]. eauto.
      - destruct (Patch.import_or_type e1) eqn:E1; [discriminate|].
        intros [= <-]. eauto. }
    destruct class_name; try discriminate H;
      apply (Hgen (Patch.Err e) eq_refl); now apply Hdyn.
Qed.

(** X16.  Whenever [_safe_get_args] returns, it returns exactly one
    argument per sub-processor type, in the order of the types: the
    argument at each position is what the loop computed for the type at
    that position, [None] for a sub-processor that was skipped. *)
Theorem safe_get_args_is_aligned (path : Val)
  (processor_dict : option (PyDict.dict json)) (kwargs : PyDict.dict Val)
  (args : list (option Proc)) :
  safe_get_args_ path processor_dict kwargs = Patch.Ok args ->
  List.length args = List.length get_attributes /\
  forall i t,
    nth_error get_attributes i = Some t ->
    exists a,
      nth_error args i = Some a /\
      slot_ path (fst (Patch.pop_subfolder py_empty_str kwargs))
        (snd (Patch.pop_subfolder py_empty_str kwargs))
        (match processor_dict with Some d => d | None => [] end) t
      = Patch.Ok a.
Proof.
  unfold Patch._safe_get_args.
  destruct (Patch.pop_subfolder py_empty_str kwargs) as [subfolder kw].
  intros H. apply fill_returns in H as (added & -> & Hall). simpl app.
  cbn [fst snd]. split.
  - symmetry. eapply Forall2_length; eauto.
  - clear -Hall. induction Hall as [|t a attrs added Hta Hall IH];
      intros i u Hi.
    + destruct i; discriminate.
    + destruct i as [|i]; simpl in *.
      * injection Hi as <-. eauto.
      * eauto.
Qed.

(** X17.  An exception that escapes [_safe_get_args] escaped one round of
    its loop.  An [ImportError] can only come from loading a tokenizer: for
    every other sub-processor a missing import is caught and its place is
    filled with [None].  A [TypeError] comes from a tokenizer or from the
    look-up of the auto-class. *)
Theorem safe_get_args_contains_import_errors (path : Val)
  (processor_dict : option (PyDict.dict json)) (kwargs : PyDict.dict Val)
  (e : Patch.error) :
  safe_get_args_ path processor_dict kwargs = Patch.Err e ->
  exists t,
    In t get_attributes /\
    slot_ path (fst (Patch.pop_subfolder py_empty_str kwargs))
      (snd (Patch.pop_subfolder py_empty_str kwargs))
      (match processor_dict with Some d => d | None => [] end) t
    = Patch.Err e /\
    (PyStr.str_in "tokenizer" t = true \/
     (e <> Patch.ImportError /\
      (e = Patch.TypeError ->
       MODALITY_TO_AUTOPROCESSOR_MAPPING t = Patch.Err Patch.TypeError))).
Proof.
  unfold Patch._safe_get_args.
  destruct (Patch.pop_subfolder py_empty_str kwargs) as [subfolder kw].
  intros H. apply fill_raises in H as (t & Hin & Ht).
  exists t. cbn [fst snd]. split; [exact Hin|]. split; [exact Ht|].
  exact (slot_raises _ _ _ _ _ _ Ht).
Qed.

(** X18.  [apply] patches once: a second call, and any later one, changes
    nothing.  After the calls the installed check is the original one behind
    a single guard: it answers [None] to the argument [None] without asking
    the original, and hands every other argument to the original as it
    is. *)
Theorem apply_patches_once (s : Patch.patched Val Proc) (n : nat) :
  Patch._PATCHED s = false ->
  let apply_ :=
    Patch.apply py_false py_empty_str cls_name get_attributes
      _get_modality_for_attribute MODALITY_TO_AUTOPROCESSOR_MAPPING
      from_pretrained _load_tokenizer_from_pretrained
      tokenizers_backend_from_pretrained get_possibly_dynamic_module
      instantiate in
  Nat.iter (S n) apply_ s = apply_ s /\
  Patch._PATCHED (apply_ s) = true /\
  (forall name,
      Patch.check_argument_for_proper_class (Nat.iter (S n) apply_ s) name None
      = Patch.Ok None) /\
  (forall name a,
      Patch.check_argument_for_proper_class (Nat.iter (S n) apply_ s) name
        (Some a)
      = Patch.check_argument_for_proper_class s name (Some a)).
Proof.
  intros Hs apply_.
  assert (Hiter : Nat.iter (S n) apply_ s = apply_ s).
  { induction n as [|n IH]; [reflexivity|].
    change (Nat.iter (S (S n)) apply_ s) with (apply_ (Nat.iter (S n) apply_ s)).
    rewrite IH. unfold apply_, Patch.apply. rewrite Hs. reflexivity. }
  rewrite Hiter. unfold apply_, Patch.apply. rewrite Hs.
  repeat split.
Qed.

End PatchFacts.

(** * The further properties on concrete runs *)

Lemma demo_reachable_after_one_request :
  reachable "demo-model" 256 PyStr.ascii_lower PyStr.ascii_strip
    Demo.b64decode Demo.hexdigest Demo.json_loads Demo.truediv
    Demo.round_ndigits Demo.temp_file (Demo.scripted [lidl_receipt])
    (snd (demo_extract [lidl_receipt] (demo_request "aGk=") Demo.ready_state)).
Proof.
  apply (@reach_extract "demo-model" 256 PyStr.ascii_lower PyStr.ascii_strip
           Demo.b64decode Demo.hexdigest Demo.json_loads Demo.truediv
           Demo.round_ndigits Demo.temp_file (Demo.scripted [lidl_receipt])
           Demo.ready_state (demo_request "aGk=")).
  exact (@reach_start "demo-model" 256 PyStr.ascii_lower PyStr.ascii_strip
           Demo.b64decode Demo.hexdigest Demo.json_loads Demo.truediv
           Demo.round_ndigits Demo.temp_file (Demo.scripted [lidl_receipt])
           true PrimFloat.one).
Defined.

(** [cache_never_exceeds_capacity] after one stored request. *)
Lemma cache_never_exceeds_capacity_witness :
  let st := snd (demo_extract [lidl_receipt] (demo_request "aGk=")
                   Demo.ready_state) in
  (0 <= 256)%Z /\
  (Z.of_nat (List.length (_content_cache st)) <= 256)%Z /\
  exists report,
    health "demo-model" 256 Demo.truediv Demo.round_ndigits st
    = (Returned report, st) /\
    (size (h_cache report) <= max_size (h_cache report))%Z.
Proof.
  intros st. assert (H0 : (0 <= 256)%Z) by lia.
  split; [exact H0|].
  exact (cache_never_exceeds_capacity "demo-model" 256 PyStr.ascii_lower
           PyStr.ascii_strip Demo.b64decode Demo.hexdigest Demo.json_loads
           Demo.truediv Demo.round_ndigits Demo.temp_file
           (Demo.scripted [lidl_receipt]) st H0
           demo_reachable_after_one_request).
Defined.

(** [counters_are_ordered] after one stored request. *)
Lemma counters_are_ordered_witness :
  let st := snd (demo_extract [lidl_receipt] (demo_request "aGk=")
                   Demo.ready_state) in
  (0 <= _cache_hits st)%Z /\
  (0 <= _fast_path_hits st)%Z /\
  (Z.of_nat (List.length (_content_cache st)) <= _cache_misses st)%Z /\
  (_cache_misses st <= Z.of_nat (model_calls st))%Z /\
  (_fast_path_hits st <= Z.of_nat (model_calls st))%Z.
Proof.
  intros st.
  exact (counters_are_ordered "demo-model" 256 PyStr.ascii_lower
           PyStr.ascii_strip Demo.b64decode Demo.hexdigest Demo.json_loads
           Demo.truediv Demo.round_ndigits Demo.temp_file
           (Demo.scripted [lidl_receipt]) st demo_reachable_after_one_request).
Defined.

(** [responses_are_ok] on the replay of a stored request. *)
Lemma responses_are_ok_witness :
  let st := snd (demo_extract [lidl_receipt] (demo_request "aGk=")
                   Demo.ready_state) in
  exists resp st',
    demo_extract [lidl_receipt] (demo_request "aGk=") st = (Returned resp, st') /\
    cache resp = hit /\
    status (body resp) = "ok"%string.
Proof.
  intros st.
  destruct (demo_extract [lidl_receipt] (demo_request "aGk=") st)
    as [o st'] eqn:E.
  assert (Ho : exists resp, o = Returned resp /\ cache resp = hit).
  { vm_compute in E. injection E as <- _. eexists. split; reflexivity. }
  destruct Ho as (resp & -> & Hc).
  exists resp, st'. split; [reflexivity|]. split; [exact Hc|].
  exact (proj1 (responses_are_ok "demo-model" 256 PyStr.ascii_lower
                  PyStr.ascii_strip Demo.b64decode Demo.hexdigest
                  Demo.json_loads Demo.truediv Demo.round_ndigits
                  Demo.temp_file (Demo.scripted [lidl_receipt])
                  (demo_request "aGk=") st st' resp
                  demo_reachable_after_one_request E)).
Defined.


(** [extract_error_taxonomy] on a model text whose merchant is a number:
    the temporary file was created and the model was called.  A model text
    that is an integer literal too long to convert ends in the decoder's
    [ValueError], and a file type with a null character in the file
    system's, with the state as it was. *)
Lemma extract_error_taxonomy_witness :
  demo_extract [numeric_merchant] (demo_request "aGk=") Demo.ready_state
  = (Raised AttributeError, incr_model_calls Demo.ready_state) /\
  demo_extract [long_integer] (demo_request "aGk=") Demo.ready_state
  = (Raised ValueError, incr_model_calls Demo.ready_state) /\
  demo_extract [] (request_with_null_suffix "aGk=") Demo.ready_state
  = (Raised ValueError, Demo.ready_state) /\
  exists image_bytes ext,
    Demo.b64decode (image (demo_request "aGk=")) = Some image_bytes /\
    file_extension (mime_type (demo_request "aGk=")) = Returned ext /\
    Demo.temp_file (model_calls Demo.ready_state) ("." ++ ext) image_bytes
    = Written /\
    model_calls (incr_model_calls Demo.ready_state)
    = S (model_calls Demo.ready_state).
Proof.
  assert (H : demo_extract [numeric_merchant] (demo_request "aGk=")
                Demo.ready_state
              = (Raised AttributeError, incr_model_calls Demo.ready_state))
    by (vm_compute; reflexivity).
  split; [exact H|].
  split; [vm_compute; reflexivity|].
  split; [vm_compute; reflexivity|].
  destruct (extract_error_taxonomy 256 PyStr.ascii_lower PyStr.ascii_strip
              Demo.b64decode Demo.hexdigest Demo.json_loads Demo.temp_file
              (Demo.scripted [numeric_merchant])
              (demo_request "aGk=") Demo.ready_state _ _ H)
    as [(Hf & _) | [(_ & Hd & _)
       | (image_bytes & ext & _ & Hd & _ & Hext
          & [(_ & He & _) | [(_ & He & _) | [(_ & He & _) | (Hw & Hc & _)]]])]];
    try discriminate.
  exists image_bytes, ext. repeat (split; [assumption|]). exact Hc.
Defined.

(** [generation_failure_is_not_cached] on a model that always raises. *)
Lemma generation_failure_is_not_cached_witness :
  demo_extract [] (demo_request "aGk=") Demo.ready_state
  = (Raised GenerationError, incr_model_calls Demo.ready_state) /\
  model_calls (snd (demo_extract [] (demo_request "aGk=")
                      (incr_model_calls Demo.ready_state))) = 2%nat.
Proof.
  destruct (generation_failure_is_not_cached 256 PyStr.ascii_lower
              PyStr.ascii_strip Demo.b64decode Demo.hexdigest Demo.json_loads
              Demo.temp_file (Demo.scripted []) (demo_request "aGk=")
              (demo_request "aGk=") Demo.ready_state [Byte.x68; Byte.x69]
              "jpg"%string "jpg"%string)
    as (Hfirst & _ & Hagain); try reflexivity.
  split; [exact Hfirst | apply Hagain; reflexivity].
Defined.

(** [non_string_merchant_raises] on the merchant [5]. *)
Lemma non_string_merchant_raises_witness :
  demo_extract [numeric_merchant] (demo_request "aGk=") Demo.ready_state
  = (Raised AttributeError, incr_model_calls Demo.ready_state).
Proof.
  apply (non_string_merchant_raises 256 PyStr.ascii_lower PyStr.ascii_strip
           Demo.b64decode Demo.hexdigest Demo.json_loads Demo.temp_file
           (Demo.scripted [numeric_merchant])
           (demo_request "aGk=") Demo.ready_state [Byte.x68; Byte.x69]
           "jpg"%string (mkRaw numeric_merchant PrimFloat.one None None)
           [("merchant", JInt 5)] (JInt 5));
    try reflexivity.
  intros s. discriminate.
Defined.


(** [put_overwrites_in_place] on a cache of two entries at capacity 2. *)
Lemma put_overwrites_in_place_witness :
  exists st',
    _cache_put 2 "a" (sample_result "new")
      (state_with_cache [("a", sample_result "a"); ("b", sample_result "b")])
    = (Returned tt, st') /\
    _content_cache st' = [("b", sample_result "b"); ("a", sample_result "new")].
Proof.
  destruct (put_overwrites_in_place 2 "a" (sample_result "a")
              (sample_result "new")
              (state_with_cache
                 [("a", sample_result "a"); ("b", sample_result "b")]))
    as (st' & Hput & Hc & _).
  - distinct_keys.
  - simpl. lia.
  - reflexivity.
  - exists st'. split; [exact Hput | exact Hc].
Defined.

(** [cache_get_keeps_contents] on a hit in a cache of two entries. *)
Lemma cache_get_keeps_contents_witness :
  let st := state_with_cache
              [("a", sample_result "a"); ("b", sample_result "b")] in
  PyDict.get "b" (_content_cache (snd (_cache_get "a" st)))
  = Some (sample_result "b") /\
  List.length (_content_cache (snd (_cache_get "a" st))) = 2%nat.
Proof.
  intros st.
  destruct (cache_get_keeps_contents "a" st) as (Hget & Hlen & _).
  - distinct_keys.
  - split; [rewrite Hget; reflexivity | rewrite Hlen; reflexivity].
Defined.

(** [candidate_is_determined] on the text with two JSON-tagged blocks:
    the first block plays no role. *)
Lemma candidate_is_determined_witness :
  candidate PyStr.ascii_strip two_blocks
  = Returned ("{" ++ quoted "b" ++ ":2}")%string.
Proof.
  apply (proj1 (candidate_is_determined PyStr.ascii_strip) two_blocks
           ("```json {" ++ quoted "a" ++ ":1} ``` then ")%string
           (" {" ++ quoted "b" ++ ":2} ```")%string
           (" {" ++ quoted "b" ++ ":2} ")%string).
  - split; reflexivity.
  - right. exists ""%string.
    apply PyStrFacts.cut_first_occurrence. reflexivity.
Defined.

(** [candidate_is_clean] on the fenced example, with the ASCII function for
    [str.strip]. *)
Lemma candidate_is_clean_witness :
  PyStr.str_in fence merchant_x_json = false /\
  PyStr.str_in json_fence merchant_x_json = false /\
  PyStr.ascii_strip merchant_x_json = merchant_x_json.
Proof.
  apply (candidate_is_clean PyStr.ascii_strip example_fenced merchant_x_json).
  - exact StripFacts.strip_inside.
  - exact StripFacts.strip_has_clean_ends.
  - reflexivity.
  - vm_compute. reflexivity.
Defined.

(** [enrichment_is_idempotent] on a Lidl receipt. *)
Lemma enrichment_is_idempotent_witness :
  let d := [("merchant", JStr "LIDL Portugal"); ("total", JInt 12)] in
  let e := JObj [("merchant", JStr "Lidl"); ("total", JInt 12);
                 ("category", JStr "Supermercado"); ("currency", JStr "EUR")] in
  enrich PyStr.ascii_lower (JObj d) Demo.ready_state
  = (Returned e, incr_fast_path Demo.ready_state) /\
  fst (enrich PyStr.ascii_lower e Demo.ready_state) = Returned e.
Proof.
  intros d e.
  assert (H : enrich PyStr.ascii_lower (JObj d) Demo.ready_state
              = (Returned e, incr_fast_path Demo.ready_state))
    by reflexivity.
  split; [exact H|].
  exact (enrichment_is_idempotent PyStr.ascii_lower (JObj d) e
           Demo.ready_state (incr_fast_path Demo.ready_state)
           Demo.ready_state ascii_lower_on_ascii H).
Defined.

(** [safe_get_args_is_aligned] on the processor of [PatchDemo]: the image
    processor comes from the slow backend, the video processor is skipped,
    and each argument sits at the position of its type. *)
Lemma safe_get_args_is_aligned_witness :
  let kwargs := [("subfolder", JStr "sub"); ("token", JStr "x")] in
  let args := [Some "slow AutoImageProcessor"%string; Some "tokenizer"%string;
               None] in
  PatchDemo.safe_get_args true (JStr "model") None kwargs = Patch.Ok args /\
  List.length args = List.length PatchDemo.attributes.
Proof.
  intros kwargs args.
  assert (H : PatchDemo.safe_get_args true (JStr "model") None kwargs
              = Patch.Ok args) by reflexivity.
  split; [exact H|].
  exact (proj1 (safe_get_args_is_aligned json string string string
                  (JBool false) (JStr "") "Qwen3VLProcessor"
                  PatchDemo.attributes (fun t => t) PatchDemo.mapping
                  PatchDemo.from_pretrained (PatchDemo.load_tokenizer true)
                  PatchDemo.no_backend PatchDemo.no_module
                  PatchDemo.no_instance (JStr "model") None kwargs args H)).
Defined.

(** [safe_get_args_contains_import_errors] on a tokenizer that does not
    load: the [ImportError] that escapes is the tokenizer's. *)
Lemma safe_get_args_contains_import_errors_witness :
  PatchDemo.safe_get_args false (JStr "model") None []
  = Patch.Err Patch.ImportError /\
  exists t,
    In t PatchDemo.attributes /\ PyStr.str_in "tokenizer" t = true.
Proof.
  assert (H : PatchDemo.safe_get_args false (JStr "model") None []
              = Patch.Err Patch.ImportError) by reflexivity.
  split; [exact H|].
  destruct (safe_get_args_contains_import_errors json string string string
              (JBool false) (JStr "") "Qwen3VLProcessor"
              PatchDemo.attributes (fun t => t) PatchDemo.mapping
              PatchDemo.from_pretrained (PatchDemo.load_tokenizer false)
              PatchDemo.no_backend PatchDemo.no_module PatchDemo.no_instance
              (JStr "model") None [] Patch.ImportError H)
    as (t & Hin & _ & [Htok | [Hne _]]).
  - exists t. split; assumption.
  - now destruct Hne.
Defined.

(** [apply_patches_once] on three calls of [apply]. *)
Lemma apply_patches_once_witness :
  Nat.iter 3 PatchDemo.apply PatchDemo.unpatched
  = PatchDemo.apply PatchDemo.unpatched /\
  Patch.check_argument_for_proper_class
    (Nat.iter 3 PatchDemo.apply PatchDemo.unpatched) "tokenizer" None
  = Patch.Ok None.
Proof.
  destruct (apply_patches_once json string string string (JBool false)
              (JStr "") "Qwen3VLProcessor" PatchDemo.attributes (fun t => t)
              PatchDemo.mapping PatchDemo.from_pretrained
              (PatchDemo.load_tokenizer true) PatchDemo.no_backend
              PatchDemo.no_module PatchDemo.no_instance PatchDemo.unpatched
              2%nat eq_refl)
    as (Hiter & _ & Hnone & _).
  split; [exact Hiter | apply Hnone].
Defined.
